(** * Service reports: the two report servers and their PDF renderer

    A shallow embedding of the report back end of the repository:

    - [Sqlite]   the server that keeps reports in an embedded SQLite file and
                 assets under [uploads/] (routes [/api/reports]);
    - [Supabase] the server that keeps reports in a hosted table and assets in
                 a storage bucket (routes [/api/informes]).

    Everything the servers obtain from outside their own code (the clock, the
    identifier generator, the QR and base64 libraries, PDFKit's text cursor,
    the outcome of remote calls) is read from a [World] record, so every
    handler is an ordinary function of the request, the world and the stored
    state. *)

From Stdlib Require Import ZArith Ascii String List Lia DecimalString.
From stdpp Require Import gmap strings list fin_maps sorting.

Local Open Scope string_scope.
Local Open Scope Z_scope.

(** ** JavaScript string helpers *)

Module Js.

(** [s.split(c)] for a one-character separator: never the empty list. *)
Fixpoint split_on (sep : ascii) (s : string) : list string :=
  match s with
  | EmptyString => [ "" ]
  | String c s' =>
      if Ascii.eqb c sep then "" :: split_on sep s'
      else match split_on sep s' with
           | [] => [ String c "" ]
           | p :: ps => String c p :: ps
           end
  end.

(** A string holds the UTF-8 encoding of the JavaScript string it stands
    for. The one-byte members of the class [\s]: space, tab, line feed,
    vertical tab, form feed, carriage return. *)
Definition is_ws (c : ascii) : bool :=
  let n := nat_of_ascii c in
  (Nat.eqb n 32 || (Nat.leb 9 n && Nat.leb n 13))%bool.

(** The three-byte members of [\s]: U+1680 (E1 9A 80), U+2000 to U+200A
    (E2 80 80 to E2 80 8A), U+2028, U+2029 and U+202F (E2 80 A8, A9, AF),
    U+205F (E2 81 9F), U+3000 (E3 80 80) and U+FEFF (EF BB BF). *)
Definition is_ws3 (a b c : nat) : bool :=
  ((Nat.eqb a 225 && Nat.eqb b 154 && Nat.eqb c 128)
   || (Nat.eqb a 226 && Nat.eqb b 128
       && ((Nat.leb 128 c && Nat.leb c 138) || Nat.eqb c 168 || Nat.eqb c 169
           || Nat.eqb c 175))
   || (Nat.eqb a 226 && Nat.eqb b 129 && Nat.eqb c 159)
   || (Nat.eqb a 227 && Nat.eqb b 128 && Nat.eqb c 128)
   || (Nat.eqb a 239 && Nat.eqb b 187 && Nat.eqb c 191))%bool.

(** [s.replace(/\s+/g, '_')]: every maximal run of white space becomes one
    underscore. [in_run] tells that the previous character was white space.
    The lead byte is looked at first: the two-byte member of [\s] is U+00A0
    (C2 A0), the three-byte ones start with E1, E2, E3 or EF. *)
Fixpoint replace_ws_go (in_run : bool) (s : string) : string :=
  match s with
  | EmptyString => ""
  | String c1 t1 =>
      let mark (rest : string) : string :=
        if in_run then replace_ws_go true rest
        else String "_" (replace_ws_go true rest) in
      let plain := String c1 (replace_ws_go false t1) in
      let a := nat_of_ascii c1 in
      if is_ws c1 then mark t1
      else if Nat.eqb a 194 then
        match t1 with
        | String c2 t2 => if Nat.eqb (nat_of_ascii c2) 160 then mark t2 else plain
        | EmptyString => plain
        end
      else if (Nat.eqb a 225 || Nat.eqb a 226 || Nat.eqb a 227 || Nat.eqb a 239)%bool then
        match t1 with
        | String c2 (String c3 t3) =>
            if is_ws3 a (nat_of_ascii c2) (nat_of_ascii c3) then mark t3 else plain
        | _ => plain
        end
      else plain
  end.

Definition replace_ws (s : string) : string := replace_ws_go false s.

(** [needle] occurs in [s]: what [RegExp.test] answers for a pattern that
    is a plain word. *)
Fixpoint includes (needle s : string) : bool :=
  (String.prefix needle s
   || match s with
      | EmptyString => false
      | String _ s' => includes needle s'
      end)%bool.

(** A non-negative integer in a template literal. *)
Definition decimal (n : N) : string := NilEmpty.string_of_uint (N.to_uint n).

(** [s.slice(0, n)] *)
Definition slice0 (n : nat) (s : string) : string := String.substring 0 n s.

(** POSIX [path.basename(p)]: the last non-empty segment of [p]. *)
Definition nonempty (s : string) : bool :=
  match s with EmptyString => false | _ => true end.

Definition basename (p : string) : string :=
  List.last (List.filter nonempty (split_on "/" p)) "".

(** The last character of a string. *)
Fixpoint last_char (s : string) : option ascii :=
  match s with
  | EmptyString => None
  | String c EmptyString => Some c
  | String _ s' => last_char s'
  end.

(** The segments of a path that POSIX [path.normalize] keeps, last one
    first in [acc]: empty and [.] segments go, [..] takes the segment
    before it away, and stays when there is none to take. *)
Fixpoint normalize_go (acc segs : list string) : list string :=
  match segs with
  | [] => List.rev acc
  | seg :: rest =>
      if (String.eqb seg "" || String.eqb seg ".")%bool then normalize_go acc rest
      else if String.eqb seg ".." then
        match acc with
        | top :: acc' =>
            if String.eqb top ".." then normalize_go (seg :: acc) rest
            else normalize_go acc' rest
        | [] => normalize_go [ seg ] rest
        end
      else normalize_go (seg :: acc) rest
  end.

Definition join_segments (segs : list string) : string :=
  List.fold_right (fun seg p => "/" ++ seg ++ p) "" segs.

(** POSIX [path.join(dir, name)], for paths written from the server's
    directory: ["/uploads/a.png"] stands for [__dirname + "/uploads/a.png"],
    and a path that leaves the server's directory keeps its leading [..]
    segments. A trailing slash is kept. *)
Definition path_join (dir name : string) : string :=
  let p := dir ++ "/" ++ name in
  match join_segments (normalize_go [] (split_on "/" p)) with
  | EmptyString => "/"
  | q => if bool_decide (last_char p = Some "/"%char) then q ++ "/" else q
  end.

(** [s.includes(c)] for one character. *)
Fixpoint contains (c : ascii) (s : string) : bool :=
  match s with
  | EmptyString => false
  | String d s' => (Ascii.eqb d c || contains c s')%bool
  end.

(** The double quote and the line feed, for template literals. *)
Definition dq : string := String (ascii_of_nat 34) "".
Definition nl : string := String (ascii_of_nat 10) "".

(** Truthiness of a value that is a string or [undefined]/[null]. *)
Definition truthy (v : option string) : bool :=
  match v with Some s => nonempty s | None => false end.

(** [v || d] *)
Definition or_else (v : option string) (d : string) : string :=
  match v with
  | Some s => if nonempty s then s else d
  | None => d
  end.

(** A nullable column interpolated in a template literal. *)
Definition interp (v : option string) : string :=
  match v with Some s => s | None => "null" end.

(** The part of [s] from its last dot on, when [s] has a dot. *)
Fixpoint from_last_dot (s : string) : option string :=
  match s with
  | EmptyString => None
  | String c s' =>
      match from_last_dot s' with
      | Some e => Some e
      | None => if Ascii.eqb c "." then Some s else None
      end
  end.

(** POSIX [path.extname(p)]: the last segment from its last dot on; empty
    when the segment has no dot, when its only dot is its first character,
    and for [".."]. *)
Definition extname (p : string) : string :=
  match basename p with
  | EmptyString => ""
  | String c rest =>
      match from_last_dot rest with
      | Some e => if String.eqb (String c rest) ".." then "" else e
      | None => ""
      end
  end.

(** [path.basename(p, path.extname(p))]: the last segment without its
    extension. *)
Definition stem (p : string) : string :=
  let b := basename p in
  String.substring 0 (String.length b - String.length (extname p)) b.

End Js.

(** ** Data model *)

Definition bytes := list Byte.byte.

(** One row of the [reports] / [informes] table. Text columns are nullable;
    [fotos] and [anexos] hold ordered lists of asset references (the SQLite
    server keeps them JSON-encoded in a TEXT column and decodes them again
    before use). *)
Record Report := mkReport {
  id : string;
  created_at : string;
  updated_at : string;
  num_reporte : option string;
  usuario : option string;
  cliente : option string;
  telefono : option string;
  tipo_equipo : option string;
  tipo_servicio : option string;
  diagnostico : option string;
  trabajos : option string;
  observaciones : option string;
  estado : option string;
  firma_tecnico : option string;
  firma_cliente : option string;
  fotos : list string;
  anexos : list string;
  pdf_path : option string
}.

Definition set_pdf_path (p : string) (upd : option string) (r : Report) : Report :=
  {| id := id r; created_at := created_at r;
     updated_at := match upd with Some t => t | None => updated_at r end;
     num_reporte := num_reporte r; usuario := usuario r; cliente := cliente r;
     telefono := telefono r; tipo_equipo := tipo_equipo r;
     tipo_servicio := tipo_servicio r; diagnostico := diagnostico r;
     trabajos := trabajos r; observaciones := observaciones r;
     estado := estado r; firma_tecnico := firma_tecnico r;
     firma_cliente := firma_cliente r; fotos := fotos r; anexos := anexos r;
     pdf_path := Some p |}.

Definition set_estado (e : option string) (r : Report) : Report :=
  {| id := id r; created_at := created_at r; updated_at := updated_at r;
     num_reporte := num_reporte r; usuario := usuario r; cliente := cliente r;
     telefono := telefono r; tipo_equipo := tipo_equipo r;
     tipo_servicio := tipo_servicio r; diagnostico := diagnostico r;
     trabajos := trabajos r; observaciones := observaciones r;
     estado := e; firma_tecnico := firma_tecnico r;
     firma_cliente := firma_cliente r; fotos := fotos r; anexos := anexos r;
     pdf_path := pdf_path r |}.

(** The form [req] with its field [estado] set to [v]. *)
Definition with_estado (v : string) (body : gmap string string) : gmap string string :=
  <["estado" := v]> body.

(** The text columns of row [r] are the fields of the form [data]. *)
Definition echoes (data : gmap string string) (r : Report) : Prop :=
  num_reporte r = data !! "num_reporte" /\ usuario r = data !! "usuario"
  /\ cliente r = data !! "cliente" /\ telefono r = data !! "telefono"
  /\ tipo_equipo r = data !! "tipo_equipo"
  /\ tipo_servicio r = data !! "tipo_servicio"
  /\ diagnostico r = data !! "diagnostico" /\ trabajos r = data !! "trabajos"
  /\ observaciones r = data !! "observaciones".

(** A file received by multer. The disk variant uses [up_path], the memory
    variant [up_originalname], [up_buffer] and [up_mimetype]. *)
Record Upload := mkUpload {
  up_originalname : string;
  up_path : string;
  up_buffer : bytes;
  up_mimetype : string
}.

(** The request as the validators and the handler see it, once the upload
    middleware has filled [req.body] and [req.files]. *)
Record Request := mkRequest {
  body : gmap string string;
  files_fotos : list Upload;
  files_anexos : list Upload
}.

(** One file part of a multipart body: the field it was sent under, the
    file name and the MIME type as the upload middleware hands them on
    ([file.originalname], [file.mimetype]), and its bytes. *)
Record Part := mkPart {
  part_field : string;
  part_originalname : string;
  part_mimetype : string;
  part_data : bytes
}.

(** A multipart submission as it reaches the route: its text fields, and
    its file parts in the order of the body. *)
Record Submission := mkSubmission {
  sub_fields : gmap string string;
  sub_parts : list Part
}.

(** Query string of the list endpoint. *)
Record Query := mkQuery {
  q_usuario : option string;
  q_estado : option string;
  q_desde : option string;
  q_hasta : option string
}.

(** ** The document under construction *)

Inductive ImgSrc :=
| FromFile (path : string)
| FromUrl (url : string)
| FromBuffer (data : bytes).

Inductive ImgSize :=
| Fit (w h : Z)
| Width (w : Z).

(** A page coordinate: absolute, or measured back from [doc.page.width]
    (for x) or [doc.page.height] (for y). *)
Inductive Coord :=
| Abs (v : Z)
| FromMax (d : Z).

Inductive DrawOp :=
| OpText (s : string)
| OpTextAt (s : string) (x y : Coord)
| OpRule
| OpImage (src : ImgSrc) (x y : Coord) (sz : ImgSize)
| OpAddPage.

(** What a file or a stored object holds: bytes, a finished document, or
    what PDFKit had piped of a document whose stream was never ended. *)
Inductive Blob :=
| Raw (data : bytes)
| Pdf (ops : list DrawOp)
| Unfinished (ops : list DrawOp).

Record QrStyle := mkQrStyle {
  qr_dark : string;
  qr_light : string;
  qr_margin : Z;
  qr_width : Z
}.

Record Mail := mkMail {
  mail_from : option string;
  mail_to : string;
  mail_subject : string;
  mail_html : string;
  mail_attachment : option string
}.

(** ** Results *)

(** A call returns, throws an error its caller can catch, or ends the
    process through an error nothing listens for: the caller is then never
    resumed. *)
Inductive outcome (A : Type) :=
| Returns (a : A)
| Throws (message : string)
| Dies.
Arguments Returns {A} a.
Arguments Throws {A} message.
Arguments Dies {A}.

(** ** The world outside the servers' own code

    A member of type [option string] is the error of an outside call:
    [None] when the call succeeds, [Some msg] when it fails with [msg]. *)

Record World := mkWorld {
  BASE_URL : string;
  MAIL_TO : string;
  APP_NAME : string;
  SMTP_HOST : option string;
  SMTP_USER : option string;
  SMTP_PASS : option string;
  (** [uuidv4()] for the request at hand *)
  uuidv4 : string;
  (** [new Date().toISOString()] at the start of the handler, and at the
      later call (the UPDATE of the SQLite server, the file name of the
      bucket server) *)
  now_iso : string;
  now_iso_later : string;
  (** [Date.now()] when the upload middleware names the file of the part at
      a position of the body *)
  Date_now : nat -> N;
  (** [new Date(t).toLocaleString()] *)
  toLocaleString : string -> string;
  (** [Buffer.from(s, 'base64')] on a string *)
  Buffer_from_base64 : string -> bytes;
  (** [QRCode.toDataURL(text, options)] *)
  QRCode_toDataURL : string -> option QrStyle -> outcome string;
  (** whether [doc.image] (after the fetch, for a URL) accepts the source *)
  image_loads : ImgSrc -> bool;
  (** [doc.y] after the operations emitted so far, in whole points *)
  doc_y : list DrawOp -> Z;
  (** opening a path for writing, by [fs.writeFileSync] or by a write
      stream *)
  writeFile_error : string -> option string;
  (** [transporter.sendMail] *)
  sendMail_error : option string;
  (** SQLite statement failures other than a duplicate key *)
  sql_insert_error : option string;
  sql_update_error : option string;
  (** the [error] member of what the hosted back end answers *)
  storage_upload_error : string -> string -> option string;
  storage_public_url : string -> string -> string;
  table_insert_error : option string;
  table_update_error : option string
}.

(** ** The exception-and-state monad

    A computation over a store [S]: writes made before a throw, or before
    the process ends, stay. *)
Definition M (S A : Type) : Type := S -> outcome A * S.

Definition ret {S A} (a : A) : M S A := fun s => (Returns a, s).
Definition throw {S A} (msg : string) : M S A := fun s => (Throws msg, s).
Definition die {S A} : M S A := fun s => (Dies, s).
Definition bind {S A B} (m : M S A) (k : A -> M S B) : M S B :=
  fun s => match m s with
           | (Returns a, s') => k a s'
           | (Throws e, s') => (Throws e, s')
           | (Dies, s') => (Dies, s')
           end.

Declare Scope srv_scope.
Delimit Scope srv_scope with srv.
Notation "'let*' x ':=' m 'in' k" := (bind m (fun x => k))
  (at level 10, x name, m at level 200, k at level 200) : srv_scope.

(** [for (x of xs) acc.push(await f(x))] *)
Fixpoint for_each {S A B} (f : A -> M S B) (xs : list A) : M S (list B) :=
  match xs with
  | [] => ret []
  | x :: xs' =>
      (let* y := f x in let* ys := for_each f xs' in ret (y :: ys))%srv
  end.

(** ** HTTP responses *)

(** [NoResponse]: the process ended before it answered. *)
Inductive Response :=
| Created (rid : string) (pdf_url : string) (view_url : option string)
| ValidationFailed (errors : list string)
| ServerError (message : string)
| NotFound (message : option string)
| Row (r : Report)
| Rows (rs : list Report)
| NoResponse.

(** The status code; 0 when there is no response. *)
Definition status (r : Response) : Z :=
  match r with
  | Created _ _ _ | Row _ | Rows _ => 200
  | ValidationFailed _ => 400
  | ServerError _ => 500
  | NotFound _ => 404
  | NoResponse => 0
  end.

(** The [ok] member of the JSON body, when it has one. *)
Definition ok_field (r : Response) : option bool :=
  match r with
  | Created _ _ _ => Some true
  | ValidationFailed _ | ServerError _ | NotFound None => Some false
  | NotFound (Some _) | Row _ | Rows _ | NoResponse => None
  end.

(** ** What both servers share *)

(** [getTransporter()]: [None] unless host, user and password are all set. *)
Definition getTransporter (w : World) : option unit :=
  if (negb (Js.truthy (SMTP_HOST w)) || negb (Js.truthy (SMTP_USER w))
      || negb (Js.truthy (SMTP_PASS w)))%bool
  then None else Some tt.

(** [field(title, value)] of the renderer. *)
Definition field (title : string) (value : option string) : list DrawOp :=
  [ OpText title; OpText (Js.or_else value "-") ].

Definition fields (r : Report) : list DrawOp :=
  field "Tipo de equipo" (tipo_equipo r)
  ++ field "Tipo de servicio" (tipo_servicio r)
  ++ field "Diagnóstico" (diagnostico r)
  ++ field "Trabajos realizados" (trabajos r)
  ++ field "Observaciones" (observaciones r).

Definition header (w : World) (client_label : string) (r : Report) : list DrawOp :=
  [ OpText (APP_NAME w);
    OpText ("Reporte: " ++ Js.interp (num_reporte r) ++ "    Fecha: "
            ++ toLocaleString w (created_at r));
    OpText ("Usuario: " ++ Js.interp (usuario r));
    OpText ("Teléfono: " ++ Js.interp (telefono r));
    OpText (client_label ++ Js.interp (cliente r));
    OpRule ].

(** The photo loop. [src] turns a stored reference into what [doc.image] is
    given; a photo that does not load draws nothing, and the cursor moves on
    all the same. *)
Definition maxW : Z := 180.
Definition maxH : Z := 140.

Fixpoint photo_loop (w : World) (src : string -> ImgSrc)
    (fotos : list string) (x y : Z) : list DrawOp :=
  match fotos with
  | [] => []
  | foto :: rest =>
      let drawn :=
        if image_loads w (src foto)
        then [ OpImage (src foto) (Abs x) (Abs y) (Fit maxW maxH) ] else [] in
      let x1 := x + (maxW + 15) in
      let '(x2, y2) :=
        if 555 <? x1 + maxW then (40, y + (maxH + 20)) else (x1, y) in
      let '(page, y3) :=
        if 740 <? y2 + maxH then ([ OpAddPage ], 60) else ([], y2) in
      drawn ++ page ++ photo_loop w src rest x2 y3
  end.

Definition photo_section (w : World) (src : string -> ImgSrc)
    (before : list DrawOp) (fotos : list string) : list DrawOp :=
  match fotos with
  | [] => []
  | _ :: _ =>
      let heading := [ OpText "Registro fotográfico" ] in
      heading ++ photo_loop w src fotos 40 (doc_y w (before ++ heading))
  end.

(** One signature: the image at [(x, yStart)] when it loads, then its
    caption; nothing at all when the reference is absent or empty. *)
Definition signature (w : World) (src : string -> ImgSrc)
    (ref : option string) (x cx : Z) (caption : string) (yStart : Z)
    : list DrawOp :=
  match ref with
  | Some f =>
      if Js.nonempty f then
        (if image_loads w (src f)
         then [ OpImage (src f) (Abs x) (Abs yStart) (Width 180) ] else [])
        ++ [ OpTextAt caption (Abs cx) (Abs (yStart + 90)) ]
      else []
  | None => []
  end.

Definition signatures (w : World) (src : string -> ImgSrc)
    (before : list DrawOp) (tecnico cliente : option string) : list DrawOp :=
  let heading := [ OpText "Firmas" ] in
  let yStart := doc_y w (before ++ heading) in
  heading
  ++ signature w src tecnico 60 100 "Técnico" yStart
  ++ signature w src cliente 320 360 "Cliente" yStart.

(** [dataURL.split(',')[1]] handed to [Buffer.from(_, 'base64')], which
    throws a [TypeError] on [undefined]. *)
Definition base64_payload (w : World) (dataURL : string) : outcome bytes :=
  match Js.split_on "," dataURL !! 1%nat with
  | Some base64 => Returns (Buffer_from_base64 w base64)
  | None =>
      Throws "The first argument must be of type string or an instance of Buffer, ArrayBuffer, or Array or an Array-like Object. Received undefined"
  end.

(** A signature field that is a non-empty string without a comma. *)
Definition malformed_data_url (v : option string) : bool :=
  match v with
  | Some d => (Js.nonempty d && negb (Js.contains "," d))%bool
  | None => false
  end.

Definition publicReportURL (w : World) (rid : string) : string :=
  BASE_URL w ++ "/public/report.html?id=" ++ rid.

(** [ORDER BY created_at DESC] *)
Definition newer_first (a b : Report) : Prop :=
  String.le (created_at b) (created_at a).

#[global] Instance newer_first_dec : RelDecision newer_first.
Proof. intros a b. unfold newer_first. apply _. Defined.

(** The text handed to the QR encoder. *)
Definition qr_text (view_url pdf_url : string) : string :=
  view_url ++ "|" ++ pdf_url.

(** ** The SQLite server: [/api/reports] *)

Module Sqlite.

(** The table [reports] keyed by its primary key, the files below the
    server's directory, and the mails handed to the transport. *)
Record Store := mkStore {
  db : gmap string Report;
  files : gmap string Blob;
  outbox : list Mail
}.

Definition with_db (f : gmap string Report -> gmap string Report) (s : Store) : Store :=
  {| db := f (db s); files := files s; outbox := outbox s |}.
Definition with_files (f : gmap string Blob -> gmap string Blob) (s : Store) : Store :=
  {| db := db s; files := f (files s); outbox := outbox s |}.
Definition with_outbox (f : list Mail -> list Mail) (s : Store) : Store :=
  {| db := db s; files := files s; outbox := f (outbox s) |}.

(** [fs.writeFileSync(path, data)]: replaces the file. *)
Definition writeFileSync (w : World) (path : string) (data : Blob) : M Store unit :=
  fun s =>
    match writeFile_error w path with
    | Some e => (Throws e, s)
    | None => (Returns tt, with_files (insert path data) s)
    end.

Definition saveBase64PNG (w : World) (dataURL outPath : string) : M Store unit :=
  match base64_payload w dataURL with
  | Returns buf => writeFileSync w outPath (Raw buf)
  | Throws e => throw e
  | Dies => die
  end.

(** Paths are written from the server's directory, as the stored
    references are: [path.join(__dirname, p)] is [p] for a reference [p].
    The name of the document carries two fields of the form, which may hold
    slashes and dot segments: [path.join(pdfDir, name)] resolves them. *)
Definition pdfFile (r : Report) : string :=
  Js.path_join "/uploads"
    (Js.replace_ws
       ("Reporte_" ++ Js.interp (num_reporte r) ++ "_" ++ Js.interp (usuario r)
        ++ "_" ++ List.hd "" (Js.split_on "T" (created_at r)) ++ ".pdf")).

Definition pdf_ref (r : Report) : string :=
  "/uploads/" ++ Js.basename (pdfFile r).

Definition publicPDFURL (w : World) (r : Report) : string :=
  BASE_URL w ++ Js.or_else (pdf_path r) (pdf_ref r).

Definition qrStyle : QrStyle :=
  {| qr_dark := "#00A650"; qr_light := "#FFFF00"; qr_margin := 1; qr_width := 160 |}.

Definition qrPath (r : Report) : string := "/uploads/qr_" ++ id r ++ ".png".

(** Caption and image of the QR code: the only part of the QR section
    inside [try { } catch { }]. *)
Definition qr_embed (w : World) (r : Report) : list DrawOp :=
  OpTextAt "Escanee para ver el reporte y PDF online" (Abs 40) (FromMax 60)
  :: (if image_loads w (FromFile (qrPath r))
      then [ OpImage (FromFile (qrPath r)) (FromMax 150) (FromMax 100) (Width 90) ]
      else []).

Definition body_ops (w : World) (r : Report) : list DrawOp :=
  let top := (header w "Técnico / Lugar: " r ++ fields r)%list in
  let photos := photo_section w FromFile top (fotos r) in
  top ++ photos
  ++ signatures w FromFile (top ++ photos) (firma_tecnico r) (firma_cliente r).

(** [fs.createWriteStream(path)] with [doc.pipe(stream)], and what PDFKit
    is given before the function first waits. A path that opens holds an
    unfinished document from then on. A path that does not open makes the
    stream emit an error nothing listens for; the answer tells whether the
    stream is open. *)
Definition createWriteStream (w : World) (path : string) (piped : list DrawOp)
    : M Store bool :=
  fun s =>
    match writeFile_error w path with
    | Some _ => (Returns false, s)
    | None => (Returns true, with_files (insert path (Unfinished piped)) s)
    end.

(** [doc.end()] and the wait for the stream's [finish]: the file holds the
    whole document. *)
Definition finish (path : string) (ops : list DrawOp) : M Store unit :=
  fun s => (Returns tt, with_files (insert path (Pdf ops)) s).

(** [generatePDF(report)]: the stream is opened and the body drawn before
    the QR code is asked for; only the caption and the image of the QR code
    are inside [try { } catch { }]. A rejection of the QR code is settled
    within the call and thrown to the handler first; otherwise the error of
    a stream that did not open ends the process while the function
    waits. *)
Definition generatePDF (w : World) (r : Report) : M Store string :=
  (let* opened := createWriteStream w (pdfFile r) (body_ops w r) in
   let* qrDataURL :=
     fun s =>
       (QRCode_toDataURL w (qr_text (publicReportURL w (id r)) (publicPDFURL w r))
                         (Some qrStyle), s) in
   if negb opened then die
   else
     let* _ := saveBase64PNG w qrDataURL (qrPath r) in
     let* _ := finish (pdfFile r) (body_ops w r ++ qr_embed w r)%list in
     ret (pdf_ref r))%srv.

(** The three [body(..).notEmpty().withMessage(..)] chains. *)
Definition validate (data : gmap string string) : list string :=
  (if Js.truthy (data !! "num_reporte") then [] else [ "Número de reporte requerido" ])
  ++ (if Js.truthy (data !! "usuario") then [] else [ "Usuario requerido" ])
  ++ (if Js.truthy (data !! "cliente") then [] else [ "Cliente requerido" ]).

(** [INSERT INTO reports ...]: [id] is the primary key. *)
Definition db_insert (w : World) (r : Report) : M Store unit :=
  fun s =>
    match sql_insert_error w with
    | Some e => (Throws e, s)
    | None =>
        match db s !! id r with
        | Some _ => (Throws "SQLITE_CONSTRAINT: UNIQUE constraint failed: reports.id", s)
        | None => (Returns tt, with_db (insert (id r) r) s)
        end
    end.

(** [SELECT * FROM reports WHERE id=?] *)
Definition db_get (rid : string) : M Store (option Report) :=
  fun s => (Returns (db s !! rid), s).

(** [UPDATE reports SET pdf_path=?, updated_at=? WHERE id=?] *)
Definition db_update_pdf (w : World) (rid p t : string) : M Store unit :=
  fun s =>
    match sql_update_error w with
    | Some e => (Throws e, s)
    | None => (Returns tt, with_db (alter (set_pdf_path p (Some t)) rid) s)
    end.

Definition sendMail (w : World) (m : Mail) : M Store unit :=
  fun s =>
    match sendMail_error w with
    | Some e => (Throws e, s)
    | None => (Returns tt, with_outbox (fun o => (o ++ [ m ])%list) s)
    end.

(** One signature field of the form: stored under its fixed name when the
    field is truthy. *)
Definition save_signature (w : World) (v : option string) (path : string)
    : M Store (option string) :=
  match v with
  | Some dataURL =>
      if Js.nonempty dataURL then
        (let* _ := saveBase64PNG w dataURL path in ret (Some path))%srv
      else ret None
  | None => ret None
  end.

(** The row handed to the INSERT. [optimizeImage] is started on every photo
    and not awaited: it rewrites the uploaded file at a time of its own,
    possibly after the response, and leaves the reference alone. The files
    of the store are those the awaited steps of the request leave. *)
Definition new_report (w : World) (req : Request)
    (firmaTecnicoPath firmaClientePath : option string) : Report :=
  let data := body req in
  {| id := uuidv4 w; created_at := now_iso w; updated_at := now_iso w;
     num_reporte := data !! "num_reporte"; usuario := data !! "usuario";
     cliente := data !! "cliente"; telefono := data !! "telefono";
     tipo_equipo := data !! "tipo_equipo";
     tipo_servicio := data !! "tipo_servicio";
     diagnostico := data !! "diagnostico"; trabajos := data !! "trabajos";
     observaciones := data !! "observaciones";
     estado := Some (Js.or_else (data !! "estado") "ENVIADO");
     firma_tecnico := firmaTecnicoPath; firma_cliente := firmaClientePath;
     fotos := List.map (fun f => "/uploads/" ++ Js.basename (up_path f)) (files_fotos req);
     anexos := List.map (fun f => "/uploads/" ++ Js.basename (up_path f)) (files_anexos req);
     pdf_path := None |}.

Definition notification (w : World) (report : Report) (pdfPath : string) : Mail :=
  {| mail_from := SMTP_USER w;
     mail_to := MAIL_TO w;
     mail_subject :=
       "Reporte " ++ Js.interp (num_reporte report) ++ "_"
       ++ Js.interp (usuario report) ++ "_" ++ Js.slice0 10 (created_at report);
     mail_html :=
       "<p>Nuevo reporte enviado.</p>" ++ Js.nl
       ++ "                 <p><a href=" ++ Js.dq ++ BASE_URL w ++ pdfPath ++ Js.dq
       ++ ">Descargar PDF</a></p>" ++ Js.nl
       ++ "                 <p><a href=" ++ Js.dq ++ publicReportURL w (uuidv4 w)
       ++ Js.dq ++ ">Ver reporte online</a></p>";
     mail_attachment := Some pdfPath |}.

(** The body of the [try] block of [app.post('/api/reports')], after the
    validation result has been found empty. *)
Definition create_report (w : World) (req : Request) : M Store Response :=
  let rid := uuidv4 w in
  let data := body req in
  (let* firmaTecnicoPath :=
     save_signature w (data !! "firma_tecnico")
       ("/uploads/firma_tecnico_" ++ rid ++ ".png") in
   let* firmaClientePath :=
     save_signature w (data !! "firma_cliente")
       ("/uploads/firma_cliente_" ++ rid ++ ".png") in
   let* _ := db_insert w (new_report w req firmaTecnicoPath firmaClientePath) in
   let* row := db_get rid in
   match row with
   | None => throw "Cannot read properties of undefined (reading 'num_reporte')"
   | Some report =>
       let* pdfPath := generatePDF w report in
       let* _ := db_update_pdf w rid pdfPath (now_iso_later w) in
       let* _ :=
         match getTransporter w with
         | Some _ => sendMail w (notification w report pdfPath)
         | None => ret tt
         end in
       ret (Created rid (BASE_URL w ++ pdfPath) (Some (publicReportURL w rid)))
   end)%srv.

(** The validation chains and the handler of [app.post('/api/reports')],
    which run once the upload middleware has passed the request on: a
    thrown error goes to [next(e)], that is to the error handler, which
    answers 500 with its message. *)
Definition post_reports (w : World) (req : Request) (s : Store) : Response * Store :=
  match validate (body req) with
  | [] =>
      match create_report w req s with
      | (Returns r, s') => (r, s')
      | (Throws e, s') => (ServerError e, s')
      | (Dies, s') => (NoResponse, s')
      end
  | errors => (ValidationFailed errors, s)
  end.

(** The WHERE clause of [app.get('/api/reports')]: a filter takes part only
    when its query parameter is truthy; [=] and the bounds compare text. *)
Definition where_clause (q : Query) (r : Report) : bool :=
  ((if Js.truthy (q_usuario q) then bool_decide (usuario r = q_usuario q) else true)
   && (if Js.truthy (q_estado q) then bool_decide (estado r = q_estado q) else true)
   && (match q_desde q with
       | Some d => if Js.nonempty d then String.leb d (created_at r) else true
       | None => true
       end)
   && (match q_hasta q with
       | Some h => if Js.nonempty h then String.leb (created_at r) h else true
       | None => true
       end))%bool.

Definition rows (s : Store) : list Report := (map_to_list (db s)).*2.

Definition get_reports (q : Query) (s : Store) : Response :=
  Rows (merge_sort newer_first (List.filter (where_clause q) (rows s))).

(** [app.get('/api/reports/:id')] *)
Definition get_report (rid : string) (s : Store) : Response :=
  match db s !! rid with
  | Some r => Row r
  | None => NotFound None
  end.

(** The [filename] callback of the disk storage: [stamp] is [Date.now()]
    in decimal. Only the name before the extension has its white space
    replaced. *)
Definition upload_filename (stamp originalname : string) : string :=
  let ext := Js.extname originalname in
  let name := Js.replace_ws (Js.stem originalname) in
  stamp ++ "_" ++ name ++ ext.

(** The [fileFilter] of the upload middleware: the pattern
    [/jpeg|jpg|png|pdf/] is looked for anywhere in the MIME type. *)
Definition fileFilter (mimetype : string) : bool :=
  (Js.includes "jpeg" mimetype || Js.includes "jpg" mimetype
   || Js.includes "png" mimetype || Js.includes "pdf" mimetype)%bool.

(** [limits.fileSize], in bytes. *)
Definition fileSize : N := 5 * 1024 * 1024.

(** What the disk storage makes of the file part at position [i] of the
    body: [path.join(destination, filename)]. The storage sets no
    [buffer]. *)
Definition stored_file (w : World) (i : nat) (p : Part) : Upload :=
  {| up_originalname := part_originalname p;
     up_path :=
       Js.path_join "/uploads"
         (upload_filename (Js.decimal (Date_now w i)) (part_originalname p));
     up_buffer := [];
     up_mimetype := part_mimetype p |}.

(** The file parts of a body, one after the other: [i] is the position of
    the first one, [nf] and [na] the files still allowed under [fotos] and
    under [anexos]. Answers the error that aborts the upload, if there is
    one, and the parts stored until then. A part without a file name is
    skipped; a part is counted against its field before the filter sees it;
    a file over the size limit is stored, cut, before the upload aborts. *)
Fixpoint upload_parts (w : World) (i nf na : nat) (parts : list Part)
    : option string * list (Part * Upload) :=
  match parts with
  | [] => (None, [])
  | p :: rest =>
      if negb (Js.nonempty (part_originalname p)) then upload_parts w (S i) nf na rest
      else
        let is_fotos := String.eqb (part_field p) "fotos" in
        let is_anexos := String.eqb (part_field p) "anexos" in
        match (if is_fotos then nf else if is_anexos then na else O) with
        | O => (Some "Unexpected field", [])
        | S more =>
            if negb (fileFilter (part_mimetype p)) then
              (Some "Tipo de archivo no permitido", [])
            else
              match writeFile_error w (up_path (stored_file w i p)) with
              | Some e => (Some e, [])
              | None =>
                  if (fileSize <? N.of_nat (length (part_data p)))%N then
                    (Some "File too large", [ (p, stored_file w i p) ])
                  else
                    let '(e, stored) :=
                      upload_parts w (S i) (if is_fotos then more else nf)
                        (if is_fotos then na else more) rest in
                    (e, (p, stored_file w i p) :: stored)
              end
        end
  end.

(** The files of one field, in the order of the body. *)
Definition files_of (field : string) (stored : list (Part * Upload)) : list Upload :=
  (List.filter (fun pf => String.eqb (part_field (fst pf)) field) stored).*2.

(** [cpUpload], the upload middleware of the route: it stores every file
    part before anything else runs. When it aborts it removes the files it
    has stored and hands its error to the error handler. *)
Definition cpUpload (w : World) (sub : Submission) : M Store Request :=
  fun s =>
    match upload_parts w 0 10 10 (sub_parts sub) with
    | (None, stored) =>
        (Returns {| body := sub_fields sub;
                    files_fotos := files_of "fotos" stored;
                    files_anexos := files_of "anexos" stored |},
         with_files
           (fun m =>
              List.fold_left
                (fun m pf => <[up_path (snd pf) := Raw (part_data (fst pf))]> m)
                stored m) s)
    | (Some e, stored) =>
        (Throws e,
         with_files
           (fun m => List.fold_right (fun pf m => delete (up_path (snd pf)) m) m stored) s)
    end.

(** The route [POST /api/reports] as a request meets it: the upload
    middleware, then the validation chains and the handler. *)
Definition route_reports (w : World) (sub : Submission) (s : Store) : Response * Store :=
  match cpUpload w sub s with
  | (Returns req, s1) => post_reports w req s1
  | (Throws e, s1) => (ServerError e, s1)
  | (Dies, s1) => (NoResponse, s1)
  end.

(** [SELECT col, COUNT( * ) as total FROM reports GROUP BY col]: one entry
    for each value the column takes among the rows (NULL is one of them),
    with the number of rows that have it. *)
Definition group_count (col : Report -> option string) (rs : list Report)
    : gmap (option string) nat :=
  foldr (fun r m => <[col r := S (default 0%nat (m !! col r))]> m) ∅ rs.

(** [app.get('/api/stats')]: the members [porTipo] and [porUsuario]. *)
Definition get_stats (s : Store)
    : list (option string * nat) * list (option string * nat) :=
  (map_to_list (group_count tipo_servicio (rows s)),
   map_to_list (group_count usuario (rows s))).

End Sqlite.

(** ** The bucket server: [/api/informes] *)

Module Supabase.

(** The hosted table [informes] keyed by [id], the objects of the storage
    buckets keyed by bucket and path (each with its content type), and the
    mails handed to the transport. Reads of the table are taken to succeed. *)
Record Store := mkStore {
  informes : gmap string Report;
  objects : gmap (string * string) (Blob * string);
  outbox : list Mail
}.

Definition with_informes (f : gmap string Report -> gmap string Report) (s : Store) : Store :=
  {| informes := f (informes s); objects := objects s; outbox := outbox s |}.
Definition with_objects
    (f : gmap (string * string) (Blob * string) -> gmap (string * string) (Blob * string))
    (s : Store) : Store :=
  {| informes := informes s; objects := f (objects s); outbox := outbox s |}.
Definition with_outbox (f : list Mail -> list Mail) (s : Store) : Store :=
  {| informes := informes s; objects := objects s; outbox := f (outbox s) |}.

(** [supabase.storage.from(bucket).upload(path, data, { contentType, upsert })]:
    the [error] it answers, and the store afterwards. Without [upsert] an
    existing object is not replaced. *)
Definition storage_upload (w : World) (upsert : bool) (bucket filePath : string)
    (data : Blob) (contentType : string) (s : Store) : option string * Store :=
  match storage_upload_error w bucket filePath with
  | Some e => (Some e, s)
  | None =>
      match objects s !! (bucket, filePath) with
      | Some _ =>
          if upsert
          then (None, with_objects (insert (bucket, filePath) (data, contentType)) s)
          else (Some "The resource already exists", s)
      | None => (None, with_objects (insert (bucket, filePath) (data, contentType)) s)
      end
  end.

Definition uploadToStorage (w : World) (bucket filePath : string)
    (buffer : Blob) (contentType : string) : M Store string :=
  fun s =>
    match storage_upload w true bucket filePath buffer contentType s with
    | (Some error, s') => (Throws error, s')
    | (None, s') => (Returns (storage_public_url w bucket filePath), s')
    end.

Definition saveBase64ToBuffer (w : World) (dataURL : string) : outcome bytes :=
  base64_payload w dataURL.

Definition pdfName (w : World) (r : Report) : string :=
  Js.replace_ws
    ("Reporte_" ++ Js.interp (num_reporte r) ++ "_" ++ Js.interp (usuario r)
     ++ "_" ++ Js.slice0 10 (now_iso_later w) ++ ".pdf").

Definition pdfPath (w : World) (r : Report) : string :=
  "pdfs/" ++ id r ++ "/" ++ pdfName w r.

Definition publicPDFURL (w : World) (r : Report) : string :=
  BASE_URL w ++ "/" ++ pdfPath w r.

Definition body_ops (w : World) (r : Report) (fotos : list string)
    (firma_t firma_c : option string) : list DrawOp :=
  let top := (header w "Cliente: " r ++ fields r)%list in
  let photos := photo_section w FromUrl top fotos in
  top ++ photos ++ signatures w FromUrl (top ++ photos) firma_t firma_c.

(** [generatePDF(report, fotos, firmas)]: nothing in the QR section is
    inside a [try]. *)
Definition generatePDF (w : World) (r : Report) (fotos : list string)
    (firma_t firma_c : option string) : M Store string :=
  match QRCode_toDataURL w (qr_text (publicReportURL w (id r)) (publicPDFURL w r)) None with
  | Throws e => throw e
  | Dies => die
  | Returns qrDataURL =>
      match saveBase64ToBuffer w qrDataURL with
      | Throws e => throw e
      | Dies => die
      | Returns qrBuffer =>
          if image_loads w (FromBuffer qrBuffer) then
            uploadToStorage w "informes" (pdfPath w r)
              (Pdf (body_ops w r fotos firma_t firma_c
                    ++ [ OpImage (FromBuffer qrBuffer) (FromMax 150) (FromMax 120)
                           (Width 90) ])%list)
              "application/pdf"
          else throw "Unknown image format."
      end
  end.

(** [validationResult(req)]: the route registers no validation chain, so
    the result never holds an error. *)
Definition validate (data : gmap string string) : list string := [].

(** [supabase.from("informes").insert([row]).select()]: the [error] it
    answers, else the inserted rows. *)
Definition table_insert (w : World) (r : Report) (s : Store)
    : outcome (list Report) * Store :=
  match table_insert_error w with
  | Some e => (Throws e, s)
  | None =>
      match informes s !! id r with
      | Some _ =>
          (Throws "duplicate key value violates unique constraint", s)
      | None => (Returns [ r ], with_informes (insert (id r) r) s)
      end
  end.

(** [supabase.from("informes").update({ pdf_path }).eq("id", id)]: the
    [error] it answers, and the store afterwards. *)
Definition table_update_pdf (w : World) (rid p : string) (s : Store)
    : option string * Store :=
  match table_update_error w with
  | Some e => (Some e, s)
  | None => (None, with_informes (alter (set_pdf_path p None) rid) s)
  end.

Definition sendMail (w : World) (m : Mail) : M Store unit :=
  fun s =>
    match sendMail_error w with
    | Some e => (Throws e, s)
    | None => (Returns tt, with_outbox (fun o => (o ++ [ m ])%list) s)
    end.

Definition save_signature (w : World) (v : option string) (path : string)
    : M Store (option string) :=
  match v with
  | Some dataURL =>
      if Js.nonempty dataURL then
        match saveBase64ToBuffer w dataURL with
        | Throws e => throw e
        | Dies => die
        | Returns buf =>
            (let* url := uploadToStorage w "informes" path (Raw buf) "image/png" in
             ret (Some url))%srv
        end
      else ret None
  | None => ret None
  end.

Definition save_files (w : World) (dir rid : string) (fs : list Upload)
    : M Store (list string) :=
  for_each
    (fun f => uploadToStorage w "informes"
                (dir ++ rid ++ "_" ++ up_originalname f)
                (Raw (up_buffer f)) (up_mimetype f))
    fs.

Definition new_report (w : World) (req : Request)
    (firmaTecnicoUrl firmaClienteUrl : option string)
    (fotos anexos : list string) : Report :=
  let data := body req in
  {| id := uuidv4 w; created_at := now_iso w; updated_at := now_iso w;
     num_reporte := data !! "num_reporte"; usuario := data !! "usuario";
     cliente := data !! "cliente"; telefono := data !! "telefono";
     tipo_equipo := data !! "tipo_equipo";
     tipo_servicio := data !! "tipo_servicio";
     diagnostico := data !! "diagnostico"; trabajos := data !! "trabajos";
     observaciones := data !! "observaciones";
     estado := Some (Js.or_else (data !! "estado") "ENVIADO");
     firma_tecnico := firmaTecnicoUrl; firma_cliente := firmaClienteUrl;
     fotos := fotos; anexos := anexos;
     pdf_path := None |}.

Definition notification (w : World) (report : Report) (pdfUrl : string) : Mail :=
  {| mail_from := SMTP_USER w;
     mail_to := MAIL_TO w;
     mail_subject :=
       "Reporte " ++ Js.interp (num_reporte report) ++ "_"
       ++ Js.interp (usuario report) ++ "_" ++ Js.slice0 10 (created_at report);
     mail_html :=
       "<p>Nuevo reporte enviado.</p>" ++ Js.nl
       ++ "               <p><a href=" ++ Js.dq ++ pdfUrl ++ Js.dq
       ++ ">Descargar PDF</a></p>" ++ Js.nl
       ++ "               <p><a href=" ++ Js.dq ++ publicReportURL w (uuidv4 w)
       ++ Js.dq ++ ">Ver reporte online</a></p>";
     mail_attachment := None |}.

(** The body of the [try] block of [app.post("/api/informes")], after the
    validation result. The answer of the UPDATE is not looked at. *)
Definition create_informe (w : World) (req : Request) : M Store Response :=
  let rid := uuidv4 w in
  let data := body req in
  (let* firmaTecnicoUrl :=
     save_signature w (data !! "firma_tecnico") ("firmas/" ++ rid ++ "_tecnico.png") in
   let* firmaClienteUrl :=
     save_signature w (data !! "firma_cliente") ("firmas/" ++ rid ++ "_cliente.png") in
   let* fotos := save_files w "fotos/" rid (files_fotos req) in
   let* anexos := save_files w "anexos/" rid (files_anexos req) in
   let* inserted :=
     table_insert w (new_report w req firmaTecnicoUrl firmaClienteUrl fotos anexos) in
   match inserted with
   | [] => throw "Cannot read properties of undefined (reading 'num_reporte')"
   | report :: _ =>
       let* pdfUrl := generatePDF w report fotos firmaTecnicoUrl firmaClienteUrl in
       let* _ := fun s => (Returns tt, snd (table_update_pdf w rid pdfUrl s)) in
       let* _ :=
         match getTransporter w with
         | Some _ => sendMail w (notification w report pdfUrl)
         | None => ret tt
         end in
       ret (Created rid pdfUrl None)
   end)%srv.

(** [app.post("/api/informes", ...)] *)
Definition post_informes (w : World) (req : Request) (s : Store) : Response * Store :=
  match validate (body req) with
  | [] =>
      match create_informe w req s with
      | (Returns r, s') => (r, s')
      | (Throws e, s') => (ServerError e, s')
      | (Dies, s') => (NoResponse, s')
      end
  | errors => (ValidationFailed errors, s)
  end.

(** [ORDER BY created_at DESC], as in the other server. *)
Definition rows (s : Store) : list Report := (map_to_list (informes s)).*2.

(** [app.get("/api/informes")]: the query string is not read. *)
Definition get_informes (q : Query) (s : Store) : Response :=
  Rows (merge_sort newer_first (rows s)).

(** [app.get("/api/informes/:id")] *)
Definition get_informe (rid : string) (s : Store) : Response :=
  match informes s !! rid with
  | Some r => Row r
  | None => NotFound (Some "Informe no encontrado")
  end.

End Supabase.

(** ** The photo grid as the specification words it

    Images go left to right in a 180 x 140 box from x = 40, 195 apart; the
    next image wraps to x = 40 and 160 further down when its x plus its width
    would pass 555; a new page starts, with y = 60, when its y plus the image
    height would pass 740. *)

Module Grid.

Record Slot := mkSlot { slot_x : Z; slot_y : Z; slot_page : nat }.

Definition wraps (c : Slot) : bool := 555 <? (slot_x c + 195) + 180.

Definition row_after (c : Slot) : Z :=
  if wraps c then slot_y c + 160 else slot_y c.

Definition breaks (c : Slot) : bool := 740 <? row_after c + 140.

Definition next_slot (c : Slot) : Slot :=
  {| slot_x := if wraps c then 40 else slot_x c + 195;
     slot_y := if breaks c then 60 else row_after c;
     slot_page := if breaks c then S (slot_page c) else slot_page c |}.


(** The images a run of operations puts on paper, each with the page it
    lands on; [page] is the page the run starts on. *)
Fixpoint placed (page : nat) (ops : list DrawOp) : list (ImgSrc * Slot * ImgSize) :=
  match ops with
  | [] => []
  | OpAddPage :: rest => placed (S page) rest
  | OpImage src (Abs x) (Abs y) sz :: rest =>
      (src, mkSlot x y page, sz) :: placed page rest
  | _ :: rest => placed page rest
  end.


End Grid.

(** ** Sample worlds, requests and stores *)

Module Sample.

(** A stand-in for the QR library and its reader: the data URL carries the
    text itself as payload, and texts with a comma are refused. *)
Definition toDataURL (text : string) (style : option QrStyle) : outcome string :=
  if Js.contains "," text then Throws "The amount of data is too big to be stored in a QR Code"
  else Returns ("data:image/png;base64," ++ text).

Definition read_qr (image : bytes) : option string :=
  Some (string_of_list_byte image).

(** A server directory whose only subdirectory is [uploads], itself
    without subdirectories: a path opens for writing when it names a file
    directly below [uploads]. *)
Definition only_uploads (path : string) : option string :=
  if bool_decide (path = "/uploads/" ++ Js.basename path) then None
  else Some ("ENOENT: no such file or directory, open '" ++ path ++ "'").

(** A world in which every outside call succeeds and no mail transport is
    configured. *)
Definition calm : World :=
  {| BASE_URL := "http://localhost:3000";
     MAIL_TO := "soporte@example.org";
     APP_NAME := "Reportes de Servicio";
     SMTP_HOST := None; SMTP_USER := None; SMTP_PASS := None;
     uuidv4 := "7f9c2a";
     now_iso := "2024-05-17T10:30:00.000Z";
     now_iso_later := "2024-05-17T10:30:01.000Z";
     Date_now := fun i => (1715941800000 + N.of_nat i)%N;
     toLocaleString := fun t => t;
     Buffer_from_base64 := list_byte_of_string;
     QRCode_toDataURL := toDataURL;
     image_loads := fun _ => true;
     doc_y := fun _ => 300;
     writeFile_error := only_uploads;
     sendMail_error := None;
     sql_insert_error := None;
     sql_update_error := None;
     storage_upload_error := fun _ _ => None;
     storage_public_url := fun b p => "https://proj.supabase.co/storage/v1/object/public/" ++ b ++ "/" ++ p;
     table_insert_error := None;
     table_update_error := None |}.

Definition with_smtp (mail_error : option string) (w : World) : World :=
  {| BASE_URL := BASE_URL w; MAIL_TO := MAIL_TO w; APP_NAME := APP_NAME w;
     SMTP_HOST := Some "smtp.example.org"; SMTP_USER := Some "robot";
     SMTP_PASS := Some "secret";
     uuidv4 := uuidv4 w; now_iso := now_iso w; now_iso_later := now_iso_later w;
     Date_now := Date_now w;
     toLocaleString := toLocaleString w;
     Buffer_from_base64 := Buffer_from_base64 w;
     QRCode_toDataURL := QRCode_toDataURL w;
     image_loads := image_loads w; doc_y := doc_y w;
     writeFile_error := writeFile_error w;
     sendMail_error := mail_error;
     sql_insert_error := sql_insert_error w;
     sql_update_error := sql_update_error w;
     storage_upload_error := storage_upload_error w;
     storage_public_url := storage_public_url w;
     table_insert_error := table_insert_error w;
     table_update_error := table_update_error w |}.

Definition with_update_error (e : string) (w : World) : World :=
  {| BASE_URL := BASE_URL w; MAIL_TO := MAIL_TO w; APP_NAME := APP_NAME w;
     SMTP_HOST := SMTP_HOST w; SMTP_USER := SMTP_USER w; SMTP_PASS := SMTP_PASS w;
     uuidv4 := uuidv4 w; now_iso := now_iso w; now_iso_later := now_iso_later w;
     Date_now := Date_now w;
     toLocaleString := toLocaleString w;
     Buffer_from_base64 := Buffer_from_base64 w;
     QRCode_toDataURL := QRCode_toDataURL w;
     image_loads := image_loads w; doc_y := doc_y w;
     writeFile_error := writeFile_error w;
     sendMail_error := sendMail_error w;
     sql_insert_error := sql_insert_error w;
     sql_update_error := Some e;
     storage_upload_error := storage_upload_error w;
     storage_public_url := storage_public_url w;
     table_insert_error := table_insert_error w;
     table_update_error := Some e |}.



Definition form (fields : list (string * string)) : Request :=
  {| body := list_to_map fields; files_fotos := []; files_anexos := [] |}.

(** A complete form without signatures or files. *)
Definition complete : Request :=
  form [ ("num_reporte", "R-104"); ("usuario", "Ana Ruiz");
         ("cliente", "Planta Norte"); ("tipo_servicio", "Preventivo") ].

(** The same form sent as a draft. *)
Definition draft : Request :=
  form [ ("num_reporte", "R-104"); ("usuario", "Ana Ruiz");
         ("cliente", "Planta Norte"); ("estado", "PENDIENTE") ].

(** A form without its report number. *)
Definition no_number : Request :=
  form [ ("usuario", "Ana Ruiz"); ("cliente", "Planta Norte") ].

(** A complete form whose technician signature is not a data URL. *)
Definition bad_signature : Request :=
  form [ ("num_reporte", "R-104"); ("usuario", "Ana Ruiz");
         ("cliente", "Planta Norte"); ("firma_tecnico", "iVBORw0KGgo") ].

(** A complete form with a technician signature drawn on the canvas. *)
Definition signed : Request :=
  form [ ("num_reporte", "R-104"); ("usuario", "Ana Ruiz");
         ("cliente", "Planta Norte");
         ("firma_tecnico", "data:image/png;base64,iVBORw0KGgo") ].

(** Two photos sent under the same original name, then a third. *)
Definition photos : list Upload :=
  [ {| up_originalname := "a.jpg"; up_path := ""; up_buffer := [ Byte.x01 ];
       up_mimetype := "image/jpeg" |};
    {| up_originalname := "a.jpg"; up_path := ""; up_buffer := [ Byte.x02 ];
       up_mimetype := "image/jpeg" |};
    {| up_originalname := "b.png"; up_path := ""; up_buffer := [ Byte.x03 ];
       up_mimetype := "image/png" |} ].

(** A form with that signature and no report number. *)
Definition bad_signature_no_number : Request :=
  form [ ("usuario", "Ana Ruiz"); ("cliente", "Planta Norte");
         ("firma_tecnico", "iVBORw0KGgo") ].

(** The complete form as a multipart body with two photos and an annex. *)
Definition with_files : Submission :=
  {| sub_fields := body complete;
     sub_parts :=
       [ {| part_field := "fotos"; part_originalname := "foto  de planta.jpg";
            part_mimetype := "image/jpeg"; part_data := [ Byte.x01 ] |};
         {| part_field := "anexos"; part_originalname := "acta.pdf";
            part_mimetype := "application/pdf"; part_data := [ Byte.x02 ] |};
         {| part_field := "fotos"; part_originalname := "foto  de planta.jpg";
            part_mimetype := "image/jpeg"; part_data := [ Byte.x03 ] |} ] |}.


(** The same body with a file the filter refuses. *)
Definition no_number_with_text_file : Submission :=
  {| sub_fields := body no_number;
     sub_parts :=
       [ {| part_field := "fotos"; part_originalname := "a.png";
            part_mimetype := "image/png"; part_data := [ Byte.x01 ] |};
         {| part_field := "anexos"; part_originalname := "notas.txt";
            part_mimetype := "text/plain"; part_data := [ Byte.x02 ] |} ] |}.

(** U+00A0 and U+2003 in UTF-8. *)
Definition nbsp : string := String (ascii_of_nat 194) (String (ascii_of_nat 160) "").
Definition em_space : string :=
  String (ascii_of_nat 226) (String (ascii_of_nat 128) (String (ascii_of_nat 131) "")).

(** A complete form whose report number holds a slash. *)
Definition slash_in_number : Request :=
  form [ ("num_reporte", "R/104"); ("usuario", "Ana Ruiz");
         ("cliente", "Planta Norte") ].

Definition empty_sqlite : Sqlite.Store :=
  {| Sqlite.db := ∅; Sqlite.files := ∅; Sqlite.outbox := [] |}.

Definition empty_supabase : Supabase.Store :=
  {| Supabase.informes := ∅; Supabase.objects := ∅; Supabase.outbox := [] |}.

Definition row (rid who state : string) : Report :=
  {| id := rid; created_at := "2024-05-1" ++ rid; updated_at := "2024-05-1" ++ rid;
     num_reporte := Some rid; usuario := Some who; cliente := Some "Planta Norte";
     telefono := None; tipo_equipo := None; tipo_servicio := None;
     diagnostico := None; trabajos := None; observaciones := None;
     estado := Some state; firma_tecnico := None; firma_cliente := None;
     fotos := []; anexos := []; pdf_path := Some ("/uploads/" ++ rid ++ ".pdf") |}.

Definition two_rows : gmap string Report :=
  <["1" := row "1" "ana" "ENVIADO"]> (<["2" := row "2" "luis" "ENVIADO"]> ∅).

(** A table in which the identifier the sample worlds generate is taken. *)
Definition taken : Sqlite.Store :=
  {| Sqlite.db := <["7f9c2a" := row "7f9c2a" "luis" "ENVIADO"]> ∅;
     Sqlite.files := ∅; Sqlite.outbox := [] |}.

Definition by_usuario (u : string) : Query :=
  {| q_usuario := Some u; q_estado := None; q_desde := None; q_hasta := None |}.

Definition by_estado (e : string) : Query :=
  {| q_usuario := None; q_estado := Some e; q_desde := None; q_hasta := None |}.

Definition by_both (u e : string) : Query :=
  {| q_usuario := Some u; q_estado := Some e; q_desde := None; q_hasta := None |}.

End Sample.

Example post_complete_calm :
  fst (Sqlite.post_reports Sample.calm Sample.complete Sample.empty_sqlite)
  = Created "7f9c2a"
      "http://localhost:3000/uploads/Reporte_R-104_Ana_Ruiz_2024-05-17.pdf"
      (Some "http://localhost:3000/public/report.html?id=7f9c2a").
Proof. vm_compute. reflexivity. Qed.

(** * Properties *)

(** ** Strings *)

Example split_data_url :
  Js.split_on "," "data:image/png;base64,iVBORw0KGgo"
  = [ "data:image/png;base64"; "iVBORw0KGgo" ].
Proof. reflexivity. Qed.

Example split_without_comma :
  Js.split_on "," "iVBORw0KGgo" !! 1%nat = None.
Proof. reflexivity. Qed.

Example replace_ws_runs :
  Js.replace_ws "Reporte_R 104_Ana   Ruiz_2024-05-17.pdf"
  = "Reporte_R_104_Ana_Ruiz_2024-05-17.pdf".
Proof. reflexivity. Qed.

Example replace_ws_unicode :
  Js.replace_ws ("R" ++ Sample.nbsp ++ "104" ++ Sample.em_space ++ " " ++ Sample.nbsp ++ "x")
  = "R_104_x"
  /\ Js.replace_ws (String (ascii_of_nat 194) (String (ascii_of_nat 161) "!"))
     = String (ascii_of_nat 194) (String (ascii_of_nat 161) "!").
Proof. split; reflexivity. Qed.

Example path_join_cases :
  Js.path_join "/uploads" "a.pdf" = "/uploads/a.pdf"
  /\ Js.path_join "/uploads" "Reporte_R/104.pdf" = "/uploads/Reporte_R/104.pdf"
  /\ Js.path_join "/uploads" "Reporte_a/../R.pdf" = "/uploads/R.pdf"
  /\ Js.path_join "/uploads" "Reporte_a/../../public/x.pdf" = "/public/x.pdf"
  /\ Js.path_join "/uploads" "x/../../../y.pdf" = "/../y.pdf"
  /\ Js.path_join "/uploads" "./a//b/" = "/uploads/a/b/".
Proof. repeat split; reflexivity. Qed.

Example basename_of_upload :
  Js.basename "/srv/app/uploads/1715941800000_foto.jpg" = "1715941800000_foto.jpg".
Proof. reflexivity. Qed.

Lemma split_on_no_sep c s : Js.contains c s = false -> Js.split_on c s = [ s ].
Proof.
  induction s as [|d s IH]; simpl; [reflexivity|].
  intros H. apply orb_false_iff in H as [Hd Hs].
  rewrite Hd, (IH Hs). reflexivity.
Qed.

Lemma split_on_first c p t :
  Js.contains c p = false ->
  Js.split_on c (p ++ String c t) = p :: Js.split_on c t.
Proof.
  induction p as [|d p IH]; simpl.
  - intros _. rewrite Ascii.eqb_refl. reflexivity.
  - intros H. apply orb_false_iff in H as [Hd Hp].
    rewrite Hd, (IH Hp). reflexivity.
Qed.

Lemma base64_payload_no_comma w s :
  Js.contains "," s = false -> exists e, base64_payload w s = Throws e.
Proof.
  intros H. unfold base64_payload. rewrite (split_on_no_sep _ _ H). simpl.
  eexists. reflexivity.
Qed.

Lemma truthy_Some_nonempty v :
  Js.truthy v = true <-> exists s, v = Some s /\ s <> "".
Proof.
  split.
  - destruct v as [[|c s]|]; simpl; intros H; try discriminate.
    eexists. split; [reflexivity|discriminate].
  - intros (s & -> & Hne). destruct s; [congruence|reflexivity].
Qed.

(** ** Paths *)

Lemma contains_app c a b :
  Js.contains c (a ++ b) = (Js.contains c a || Js.contains c b)%bool.
Proof.
  induction a as [|d a IH]; simpl; [reflexivity|].
  rewrite IH. apply orb_assoc.
Qed.

Lemma split_on_nonempty c s : Js.split_on c s <> [].
Proof.
  destruct s as [|d s]; simpl; [discriminate|].
  destruct (Ascii.eqb d c); [discriminate|].
  destruct (Js.split_on c s); discriminate.
Qed.

Lemma split_on_join c p x :
  Js.split_on c (p ++ String c x) = (Js.split_on c p ++ Js.split_on c x)%list.
Proof.
  induction p as [|d p IH]; simpl.
  - rewrite Ascii.eqb_refl. reflexivity.
  - destruct (Ascii.eqb d c); [rewrite IH; reflexivity|].
    rewrite IH. destruct (Js.split_on c p) as [|q qs] eqn:Hp; [|reflexivity].
    exfalso. exact (split_on_nonempty _ _ Hp).
Qed.

Lemma string_app_assoc (a b c : string) : (a ++ b) ++ c = a ++ (b ++ c).
Proof.
  induction a as [|d a IH]; [reflexivity|].
  change (String d ((a ++ b) ++ c) = String d (a ++ (b ++ c))).
  rewrite IH. reflexivity.
Qed.

Lemma string_app_nil_r (a : string) : a ++ "" = a.
Proof.
  induction a as [|d a IH]; [reflexivity|].
  change (String d (a ++ "") = String d a). rewrite IH. reflexivity.
Qed.

Lemma string_app_cons d (a b : string) : String d a ++ b = String d (a ++ b).
Proof. reflexivity. Qed.

(** *** Last characters *)

Lemma last_char_cons d s : s <> "" -> Js.last_char (String d s) = Js.last_char s.
Proof. destruct s; [congruence|reflexivity]. Qed.

Lemma last_char_nonempty s c : Js.last_char s = Some c -> s <> "".
Proof. destruct s; [discriminate|discriminate]. Qed.

Lemma last_char_app a b : b <> "" -> Js.last_char (a ++ b) = Js.last_char b.
Proof.
  intros Hb. induction a as [|d a IH]; [reflexivity|].
  rewrite string_app_cons, last_char_cons; [exact IH|].
  destruct a; [exact Hb|discriminate].
Qed.

Lemma last_char_contains s c : Js.last_char s = Some c -> Js.contains c s = true.
Proof.
  induction s as [|d s IH]; [discriminate|].
  destruct s as [|e s].
  - intros H. injection H as ->. cbn [Js.contains]. rewrite Ascii.eqb_refl. reflexivity.
  - intros H. cbn [Js.contains] in *. rewrite (IH H). apply orb_true_r.
Qed.

(** *** Whitespace replacement *)

(** One step of [replace_ws_go]: the head stays, or a white-space character
    of one, two or three bytes goes; the bytes that follow the lead byte of
    such a character are not ASCII. *)
Lemma replace_ws_go_step b c s :
  Js.replace_ws_go b (String c s) = String c (Js.replace_ws_go false s)
  \/ exists t,
       ((Js.is_ws c = true /\ s = t)
        \/ (exists c2, s = String c2 t /\ (128 <= nat_of_ascii c2)%nat)
        \/ (exists c2 c3, s = String c2 (String c3 t)
                          /\ (128 <= nat_of_ascii c2)%nat
                          /\ (128 <= nat_of_ascii c3)%nat))
       /\ Js.replace_ws_go b (String c s)
          = (if b then "" else "_") ++ Js.replace_ws_go true t.
Proof.
  cbn [Js.replace_ws_go]. cbv zeta.
  destruct (Js.is_ws c) eqn:Hws.
  { right. exists s. split; [left; auto|]. destruct b; reflexivity. }
  destruct (Nat.eqb (nat_of_ascii c) 194).
  { destruct s as [|c2 t]; [left; reflexivity|].
    destruct (Nat.eqb (nat_of_ascii c2) 160) eqn:H2; [|left; reflexivity].
    right. exists t. split; [|destruct b; reflexivity].
    right; left. exists c2. split; [reflexivity|].
    apply Nat.eqb_eq in H2. lia. }
  destruct (_ || _)%bool; [|left; reflexivity].
  destruct s as [|c2 [|c3 t]]; [left; reflexivity|left; reflexivity|].
  destruct (Js.is_ws3 _ _ _) eqn:H3; [|left; reflexivity].
  right. exists t. split; [|destruct b; reflexivity].
  right; right. exists c2, c3. split; [reflexivity|].
  unfold Js.is_ws3 in H3.
  repeat match type of H3 with
         | (_ || _)%bool = true => apply orb_true_iff in H3 as [H3|H3]
         | (_ && _)%bool = true => apply andb_true_iff in H3 as [? H3]
         end;
    repeat match goal with
           | H : (_ && _)%bool = true |- _ => apply andb_true_iff in H as [? ?]
           | H : (_ || _)%bool = true |- _ => apply orb_true_iff in H as [?|?]
           | H : Nat.eqb _ _ = true |- _ => apply Nat.eqb_eq in H
           | H : Nat.leb _ _ = true |- _ => apply Nat.leb_le in H
           end; lia.
Qed.

Lemma replace_ws_go_keeps_absent c b s :
  c <> "_"%char -> Js.contains c s = false ->
  Js.contains c (Js.replace_ws_go b s) = false.
Proof.
  intros Hc. remember (String.length s) as n eqn:Hn.
  assert (Hle : (String.length s <= n)%nat) by lia. clear Hn.
  revert b s Hle. induction n as [|n IH]; intros b s Hle H.
  { destruct s; [reflexivity|simpl in Hle; lia]. }
  destruct s as [|d s]; [reflexivity|].
  cbn [Js.contains] in H. apply orb_false_iff in H as [Hd Hs].
  cbn [String.length] in Hle.
  destruct (replace_ws_go_step b d s) as [->|(t & Ht & ->)].
  - cbn [Js.contains]. rewrite Hd. apply IH; [lia|assumption].
  - assert (Hmark : Js.contains c (if b then "" else "_") = false).
    { destruct b; [reflexivity|]. cbn [Js.contains]. rewrite orb_false_r.
      apply Ascii.eqb_neq. congruence. }
    rewrite contains_app, Hmark. cbn [orb].
    destruct Ht as [(_ & ->)|[(c2 & -> & _)|(c2 & c3 & -> & _)]].
    + apply IH; [lia|assumption].
    + cbn [Js.contains] in Hs. apply orb_false_iff in Hs as [_ Hs].
      apply IH; [cbn [String.length] in Hle; lia|assumption].
    + cbn [Js.contains] in Hs. apply orb_false_iff in Hs as [_ Hs].
      apply orb_false_iff in Hs as [_ Hs].
      apply IH; [cbn [String.length] in Hle; lia|assumption].
Qed.

(** White-space replacement keeps a last character that is ASCII and not
    white space. *)
Lemma replace_ws_go_last_char c b s :
  (nat_of_ascii c < 128)%nat -> Js.is_ws c = false ->
  Js.last_char s = Some c ->
  Js.last_char (Js.replace_ws_go b s) = Some c.
Proof.
  intros Hascii Hws. remember (String.length s) as n eqn:Hn.
  assert (Hle : (String.length s <= n)%nat) by lia. clear Hn.
  revert b s Hle. induction n as [|n IH]; intros b s Hle H.
  { destruct s; [discriminate|simpl in Hle; lia]. }
  destruct s as [|d s]; [discriminate|].
  cbn [String.length] in Hle.
  assert (Hmark : forall (m : bool) x,
            Js.last_char x = Some c ->
            Js.last_char ((if m then "" else "_") ++ x) = Some c).
  { intros m x Hx. rewrite last_char_app; [exact Hx|].
    exact (last_char_nonempty _ _ Hx). }
  destruct (replace_ws_go_step b d s) as [->|(t & Ht & ->)].
  - destruct s as [|e s].
    + injection H as ->. reflexivity.
    + rewrite last_char_cons.
      * apply IH; [lia|]. exact H.
      * apply (last_char_nonempty _ c). apply IH; [lia|exact H].
  - apply Hmark.
    destruct Ht as [(Hd & ->)|[(c2 & -> & H2)|(c2 & c3 & -> & H2 & H3)]].
    + destruct t as [|e t].
      * injection H as ->. congruence.
      * apply IH; [lia|exact H].
    + cbn [String.length] in Hle. destruct t as [|e t].
      * injection H as ->. lia.
      * apply IH; [lia|exact H].
    + cbn [String.length] in Hle. destruct t as [|e t].
      * injection H as ->. lia.
      * apply IH; [lia|exact H].
Qed.

(** *** Joined paths *)

Lemma split_on_last sep s c :
  Js.last_char s = Some c -> c <> sep ->
  exists segs x, Js.split_on sep s = (segs ++ [ x ])%list /\ Js.last_char x = Some c.
Proof.
  intros H Hc. induction s as [|d s IH]; [discriminate|].
  destruct s as [|e s].
  - injection H as ->. exists [], (String c ""). split; [|reflexivity].
    cbn [Js.split_on]. apply Ascii.eqb_neq in Hc. rewrite Hc. reflexivity.
  - destruct (IH H) as (segs & x & Hs & Hx).
    cbn [Js.split_on] in *. rewrite Hs.
    destruct (Ascii.eqb d sep).
    + exists ("" :: segs), x. split; [reflexivity|exact Hx].
    + destruct segs as [|p ps]; cbn [app].
      * exists [], (String d x). split; [reflexivity|].
        rewrite last_char_cons; [exact Hx|exact (last_char_nonempty _ _ Hx)].
      * exists (String d p :: ps), x. split; [reflexivity|exact Hx].
Qed.

Lemma normalize_go_snoc acc segs x :
  x <> "" -> x <> "." -> x <> ".." ->
  Js.normalize_go acc (segs ++ [ x ]) = (Js.normalize_go acc segs ++ [ x ])%list.
Proof.
  intros H0 H1 H2. apply String.eqb_neq in H0, H1, H2.
  revert acc. induction segs as [|seg rest IH]; intros acc.
  - cbn [app Js.normalize_go]. rewrite H0, H1, H2. reflexivity.
  - cbn [app Js.normalize_go].
    destruct (_ || _)%bool; [apply IH|].
    destruct (String.eqb seg ".."); [|apply IH].
    destruct acc as [|top acc']; [apply IH|].
    destruct (String.eqb top ".."); apply IH.
Qed.

Lemma join_segments_snoc l x :
  Js.join_segments (l ++ [ x ]) = Js.join_segments l ++ "/" ++ x.
Proof.
  induction l as [|seg l IH].
  - cbn. rewrite string_app_nil_r. reflexivity.
  - cbn [app Js.join_segments List.fold_right] in *. fold (Js.join_segments (l ++ [x])).
    fold (Js.join_segments l). rewrite IH.
    change ("/" ++ seg ++ Js.join_segments l ++ "/" ++ x)
      with (String "/" (seg ++ Js.join_segments l ++ "/" ++ x)).
    change (("/" ++ seg ++ Js.join_segments l) ++ "/" ++ x)
      with (String "/" ((seg ++ Js.join_segments l) ++ "/" ++ x)).
    rewrite string_app_assoc. reflexivity.
Qed.

Lemma plain_segment x c :
  Js.last_char x = Some c -> c <> "."%char -> x <> "" /\ x <> "." /\ x <> "..".
Proof.
  intros H Hc. repeat split; intros ->; cbn in H; congruence.
Qed.

(** A joined path ends as its name does, when the name does not end in a
    slash or a dot. *)
Lemma path_join_last_char dir name c :
  Js.last_char name = Some c -> c <> "/"%char -> c <> "."%char ->
  Js.last_char (Js.path_join dir name) = Some c.
Proof.
  intros H Hs Hd. unfold Js.path_join.
  assert (Hp : Js.last_char (dir ++ "/" ++ name) = Some c).
  { rewrite last_char_app, last_char_app; try exact H;
      try exact (last_char_nonempty _ _ H).
    change ("/" ++ name) with (String "/" name). discriminate. }
  destruct (split_on_last "/" _ _ Hp Hs) as (segs & x & -> & Hx).
  destruct (plain_segment _ _ Hx Hd) as (H0 & H1 & H2).
  rewrite normalize_go_snoc, join_segments_snoc by assumption.
  assert (Hq : Js.last_char (Js.join_segments (Js.normalize_go [] segs) ++ "/" ++ x)
               = Some c).
  { rewrite last_char_app, last_char_app; try exact Hx; try exact H0.
    change ("/" ++ x) with (String "/" x). discriminate. }
  destruct (Js.join_segments _ ++ "/" ++ x) as [|q qs] eqn:Hj; [discriminate|].
  rewrite Hp. rewrite bool_decide_eq_false_2 by congruence. exact Hq.
Qed.

(** The join with a plain name is the concatenation. *)
Lemma path_join_plain name :
  Js.contains "/" name = false ->
  name <> "" -> name <> "." -> name <> ".." ->
  Js.path_join "/uploads" name = "/uploads/" ++ name.
Proof.
  intros Hc H0 H1 H2. unfold Js.path_join.
  change ("/uploads" ++ "/" ++ name) with ("/uploads" ++ String "/" name).
  rewrite split_on_join, (split_on_no_sep _ _ Hc).
  change (Js.split_on "/" "/uploads") with [ ""; "uploads" ].
  pose proof H0 as E0. pose proof H1 as E1. pose proof H2 as E2.
  apply String.eqb_neq in E0, E1, E2.
  cbn [app Js.normalize_go]. cbn [String.eqb Ascii.eqb Bool.eqb orb].
  rewrite E0, E1, E2. cbn [orb List.rev app Js.join_segments List.fold_right].
  rewrite string_app_nil_r.
  change ("/" ++ "uploads" ++ "/" ++ name) with ("/uploads/" ++ name).
  change ("/uploads/" ++ name) with (String "/" ("uploads/" ++ name)) at 1.
  cbv iota beta.
  rewrite bool_decide_eq_false_2; [reflexivity|].
  change ("/uploads" ++ String "/" name) with ("/uploads/" ++ name).
  rewrite last_char_app by exact H0.
  intros Hl. apply last_char_contains in Hl. congruence.
Qed.




(** The last segment of a path that ends in a non-empty name without a
    slash is that name. *)
Lemma basename_join p x :
  x <> "" -> Js.contains "/" x = false -> Js.basename (p ++ String "/" x) = x.
Proof.
  intros Hx Hc. unfold Js.basename.
  rewrite split_on_join, (split_on_no_sep _ _ Hc), List.filter_app.
  simpl. destruct x; [congruence|]. simpl. apply last_last.
Qed.





(** The document file of the SQLite server ends in [.pdf], whatever the
    form fields hold. *)
Lemma pdfFile_last_char r : Js.last_char (Sqlite.pdfFile r) = Some "f"%char.
Proof.
  unfold Sqlite.pdfFile.
  apply path_join_last_char; [|discriminate|discriminate].
  unfold Js.replace_ws.
  apply replace_ws_go_last_char; [apply Nat.ltb_lt; reflexivity|reflexivity|].
  rewrite <- !string_app_assoc. apply last_char_app. discriminate.
Qed.

Lemma png_is_not_the_pdf a r : a ++ ".png" <> Sqlite.pdfFile r.
Proof.
  intros H. pose proof (pdfFile_last_char r) as Hf.
  rewrite <- H, last_char_app in Hf by discriminate. discriminate.
Qed.

Lemma qr_file_is_not_the_pdf r : Sqlite.qrPath r <> Sqlite.pdfFile r.
Proof.
  unfold Sqlite.qrPath. rewrite <- string_app_assoc. apply png_is_not_the_pdf.
Qed.

Example pdfFile_with_unicode_space :
  Sqlite.pdfFile (Sample.row "7" ("Ana" ++ Sample.nbsp ++ " Ruiz") "ENVIADO")
  = "/uploads/Reporte_7_Ana_Ruiz_2024-05-17.pdf".
Proof. vm_compute. reflexivity. Qed.

(** ** Frame properties of the SQLite server *)

Ltac split_outcome H :=
  match type of H with
  | context [match ?m with pair _ _ => _ end] =>
      let E := fresh "E" in
      destruct m as [[?|?|] ?] eqn:E
  end.

Ltac case_qr :=
  match goal with
  | |- context [QRCode_toDataURL ?w ?t ?o] =>
      let E := fresh "Eqr" in
      destruct (QRCode_toDataURL w t o) as [?d|?e|] eqn:E
  end.

Lemma writeFileSync_keeps w p b s o s' :
  Sqlite.writeFileSync w p b s = (o, s') ->
  Sqlite.db s' = Sqlite.db s /\ Sqlite.outbox s' = Sqlite.outbox s.
Proof.
  unfold Sqlite.writeFileSync. destruct (writeFile_error w p); intros H;
    inversion H; subst; auto.
Qed.

Lemma saveBase64PNG_keeps w d p s o s' :
  Sqlite.saveBase64PNG w d p s = (o, s') ->
  Sqlite.db s' = Sqlite.db s /\ Sqlite.outbox s' = Sqlite.outbox s.
Proof.
  unfold Sqlite.saveBase64PNG. destruct (base64_payload w d).
  - apply writeFileSync_keeps.
  - unfold throw. intros H; inversion H; subst; auto.
  - unfold die. intros H; inversion H; subst; auto.
Qed.

Lemma base64_payload_lives w d : base64_payload w d <> Dies.
Proof.
  unfold base64_payload. destruct (Js.split_on "," d !! 1%nat); discriminate.
Qed.

Lemma writeFileSync_lives w p b s s' : Sqlite.writeFileSync w p b s <> (Dies, s').
Proof.
  unfold Sqlite.writeFileSync. destruct (writeFile_error w p); discriminate.
Qed.

Lemma saveBase64PNG_lives w d p s s' : Sqlite.saveBase64PNG w d p s <> (Dies, s').
Proof.
  unfold Sqlite.saveBase64PNG.
  pose proof (base64_payload_lives w d) as Hb.
  destruct (base64_payload w d); [apply writeFileSync_lives|discriminate|congruence].
Qed.

Lemma save_signature_lives w v p s s' : Sqlite.save_signature w v p s <> (Dies, s').
Proof.
  unfold Sqlite.save_signature.
  destruct v as [d|]; [destruct (Js.nonempty d)|]; try discriminate.
  unfold bind. pose proof (saveBase64PNG_lives w d p s) as Hl.
  destruct (Sqlite.saveBase64PNG w d p s) as [[?|?|] s1]; try discriminate.
  exfalso. exact (Hl _ eq_refl).
Qed.

Lemma save_signature_keeps w v p s o s' :
  Sqlite.save_signature w v p s = (o, s') ->
  Sqlite.db s' = Sqlite.db s /\ Sqlite.outbox s' = Sqlite.outbox s.
Proof.
  unfold Sqlite.save_signature.
  destruct v as [d|]; [destruct (Js.nonempty d)|];
    try (unfold ret; intros H; inversion H; subst; auto; fail).
  unfold bind. intros H. split_outcome H;
    apply saveBase64PNG_keeps in E; unfold ret in H; inversion H; subst; auto.
Qed.

(** The renderer step by step: the stream, the QR code, the QR file, the
    end of the document. *)
Lemma sqlite_generatePDF_steps w r s o s' :
  Sqlite.generatePDF w r s = (o, s') ->
  let opened := Sqlite.with_files
                  (insert (Sqlite.pdfFile r) (Unfinished (Sqlite.body_ops w r))) s in
  let text := qr_text (publicReportURL w (id r)) (Sqlite.publicPDFURL w r) in
  (writeFile_error w (Sqlite.pdfFile r) <> None /\ s' = s
   /\ match QRCode_toDataURL w text (Some Sqlite.qrStyle) with
      | Throws e => o = Throws e
      | _ => o = Dies
      end)
  \/ (writeFile_error w (Sqlite.pdfFile r) = None
      /\ ((exists e, QRCode_toDataURL w text (Some Sqlite.qrStyle) = Throws e
                     /\ o = Throws e /\ s' = opened)
          \/ (QRCode_toDataURL w text (Some Sqlite.qrStyle) = Dies
              /\ o = Dies /\ s' = opened)
          \/ (exists d,
                QRCode_toDataURL w text (Some Sqlite.qrStyle) = Returns d
                /\ ((exists e, Sqlite.saveBase64PNG w d (Sqlite.qrPath r) opened
                               = (Throws e, opened)
                               /\ o = Throws e /\ s' = opened)
                    \/ (exists b,
                          base64_payload w d = Returns b
                          /\ writeFile_error w (Sqlite.qrPath r) = None
                          /\ o = Returns (Sqlite.pdf_ref r)
                          /\ s' = Sqlite.with_files
                                    (fun m =>
                                       <[Sqlite.pdfFile r :=
                                           Pdf (Sqlite.body_ops w r ++ Sqlite.qr_embed w r)]>
                                         (<[Sqlite.qrPath r := Raw b]>
                                            (<[Sqlite.pdfFile r :=
                                                 Unfinished (Sqlite.body_ops w r)]> m)))
                                    s))))).
Proof.
  unfold Sqlite.generatePDF, bind, Sqlite.createWriteStream, Sqlite.finish, ret, die.
  intros H. cbn zeta.
  destruct (writeFile_error w (Sqlite.pdfFile r)) as [e0|] eqn:Hopen.
  { left. split; [discriminate|].
    destruct (QRCode_toDataURL w _ (Some Sqlite.qrStyle)) as [d|e|];
      cbn [negb] in H; inversion H; subst; auto. }
  right. split; [reflexivity|].
  destruct (QRCode_toDataURL w _ (Some Sqlite.qrStyle)) as [d|e|] eqn:Hqr;
    cbn [negb] in H.
  - right; right. exists d. split; [reflexivity|].
    unfold Sqlite.saveBase64PNG, Sqlite.writeFileSync, throw, die in *.
    pose proof (base64_payload_lives w d) as Hb.
    destruct (base64_payload w d) as [b|e|] eqn:Hpay; [| |congruence].
    + destruct (writeFile_error w (Sqlite.qrPath r)) as [e|] eqn:Hw.
      * inversion H; subst. left. eauto.
      * inversion H; subst. right. exists b. auto.
    + inversion H; subst. left. eauto.
  - inversion H; subst. left. eauto.
  - inversion H; subst. right; left. auto.
Qed.

Lemma sqlite_generatePDF_keeps w r s o s' :
  Sqlite.generatePDF w r s = (o, s') ->
  Sqlite.db s' = Sqlite.db s /\ Sqlite.outbox s' = Sqlite.outbox s.
Proof.
  intros H. apply sqlite_generatePDF_steps in H. cbn zeta in H.
  destruct H as [(_ & -> & _)
                |(_ & [(e & _ & _ & ->)
                      |[(_ & _ & ->)
                       |(d & _ & [(e & _ & _ & ->)|(b & _ & _ & _ & ->)])]])];
    auto.
Qed.

Lemma sqlite_generatePDF_returns w r s p s' :
  Sqlite.generatePDF w r s = (Returns p, s') -> p = Sqlite.pdf_ref r.
Proof.
  intros H. apply sqlite_generatePDF_steps in H. cbn zeta in H.
  destruct H as [(_ & _ & Ho)
                |(_ & [(e & _ & Ho & _)
                      |[(_ & Ho & _)
                       |(d & _ & [(e & _ & Ho & _)|(b & _ & _ & Ho & _)])]])];
    try discriminate.
  - destruct (QRCode_toDataURL w _ (Some Sqlite.qrStyle)); discriminate.
  - injection Ho as ->. reflexivity.
Qed.

(** ** How far a submission got

    Every run of the creating handlers ends in one of three ways as far as
    the table is concerned: nothing was inserted; the row was inserted and
    its document reference is still null; the row carries its document
    reference. *)

Lemma sqlite_create_report_cases w req s o s' :
  Sqlite.create_report w req s = (o, s') ->
  (Sqlite.db s' = Sqlite.db s /\ exists e, o = Throws e)
  \/ (exists ft fc,
        Sqlite.db s !! uuidv4 w = None
        /\ Sqlite.db s' = <[uuidv4 w := Sqlite.new_report w req ft fc]> (Sqlite.db s)
        /\ ((exists e, o = Throws e) \/ o = Dies))
  \/ (exists ft fc,
        let r := Sqlite.new_report w req ft fc in
        Sqlite.db s !! uuidv4 w = None
        /\ Sqlite.db s'
           = <[uuidv4 w := set_pdf_path (Sqlite.pdf_ref r) (Some (now_iso_later w)) r]>
               (Sqlite.db s)
        /\ ((o = Returns (Created (uuidv4 w) (BASE_URL w ++ Sqlite.pdf_ref r)
                            (Some (publicReportURL w (uuidv4 w))))
             /\ (getTransporter w = None \/ sendMail_error w = None))
            \/ (exists e, getTransporter w = Some tt /\ sendMail_error w = Some e
                          /\ o = Throws e))).
Proof.
  unfold Sqlite.create_report, bind. intros H.
  split_outcome H.
  2:{ apply save_signature_keeps in E as [Hd _]. inversion H; subst.
      left. eauto. }
  2:{ exfalso. exact (save_signature_lives _ _ _ _ _ E). }
  apply save_signature_keeps in E as [Hd1 _].
  split_outcome H.
  2:{ apply save_signature_keeps in E as [Hd2 _]. inversion H; subst.
      left. split; [congruence|eauto]. }
  2:{ exfalso. exact (save_signature_lives _ _ _ _ _ E). }
  apply save_signature_keeps in E as [Hd2 _].
  rename a into ft, a0 into fc.
  assert (Hs1 : Sqlite.db s1 = Sqlite.db s) by congruence.
  unfold Sqlite.db_insert in H.
  destruct (sql_insert_error w) as [e|].
  { inversion H; subst. left. eauto. }
  change (id (Sqlite.new_report w req ft fc)) with (uuidv4 w) in H.
  destruct (Sqlite.db s1 !! uuidv4 w) as [old|] eqn:Hfresh.
  { inversion H; subst. left. eauto. }
  rewrite Hs1 in Hfresh.
  unfold Sqlite.db_get in H. cbn [Sqlite.with_db Sqlite.db] in H.
  rewrite lookup_insert_eq in H.
  split_outcome H.
  2:{ apply sqlite_generatePDF_keeps in E as [Hd3 _]. inversion H; subst.
      right; left. exists ft, fc. rewrite Hd3. cbn. rewrite Hs1. eauto. }
  2:{ apply sqlite_generatePDF_keeps in E as [Hd3 _]. inversion H; subst.
      right; left. exists ft, fc. rewrite Hd3. cbn. rewrite Hs1. eauto. }
  pose proof (sqlite_generatePDF_returns _ _ _ _ _ E) as ->.
  apply sqlite_generatePDF_keeps in E as [Hd3 _]. cbn in Hd3. rewrite Hs1 in Hd3.
  unfold Sqlite.db_update_pdf in H.
  destruct (sql_update_error w) as [e|].
  { inversion H; subst. right; left. exists ft, fc. eauto. }
  assert (Hfinal : alter (set_pdf_path (Sqlite.pdf_ref (Sqlite.new_report w req ft fc))
                            (Some (now_iso_later w))) (uuidv4 w) (Sqlite.db s2)
                   = <[uuidv4 w := set_pdf_path (Sqlite.pdf_ref (Sqlite.new_report w req ft fc))
                                     (Some (now_iso_later w)) (Sqlite.new_report w req ft fc)]>
                       (Sqlite.db s)).
  { rewrite Hd3. rewrite alter_insert_eq. reflexivity. }
  right; right. exists ft, fc. cbn zeta. split; [assumption|].
  destruct (getTransporter w) as [[]|] eqn:Ht.
  - unfold Sqlite.sendMail in H. destruct (sendMail_error w) as [e|] eqn:Hm.
    + inversion H; subst. cbn. split; [assumption|]. right. eauto.
    + unfold ret in H. inversion H; subst. cbn. split; [assumption|]. left. eauto.
  - unfold ret in H. inversion H; subst. cbn. split; [assumption|]. left. eauto.
Qed.

(** ** Frame properties of the bucket server *)

Lemma uploadToStorage_keeps w b p d ct s o s' :
  Supabase.uploadToStorage w b p d ct s = (o, s') ->
  Supabase.informes s' = Supabase.informes s.
Proof.
  unfold Supabase.uploadToStorage, Supabase.storage_upload.
  destruct (storage_upload_error w b p);
    [|destruct (Supabase.objects s !! (b, p))];
    intros H; inversion H; reflexivity.
Qed.

Lemma supabase_save_signature_keeps w v p s o s' :
  Supabase.save_signature w v p s = (o, s') ->
  Supabase.informes s' = Supabase.informes s.
Proof.
  unfold Supabase.save_signature.
  destruct v as [d|]; [destruct (Js.nonempty d)|];
    try (unfold ret; intros H; inversion H; reflexivity).
  destruct (Supabase.saveBase64ToBuffer w d).
  - unfold bind. intros H. split_outcome H;
      apply uploadToStorage_keeps in E; unfold ret in H; inversion H; subst; auto.
  - unfold throw. intros H; inversion H; reflexivity.
  - unfold die. intros H; inversion H; reflexivity.
Qed.

Lemma saveBase64ToBuffer_lives w d : Supabase.saveBase64ToBuffer w d <> Dies.
Proof. apply base64_payload_lives. Qed.

Lemma uploadToStorage_lives w b p d ct s s' :
  Supabase.uploadToStorage w b p d ct s <> (Dies, s').
Proof.
  unfold Supabase.uploadToStorage.
  destruct (Supabase.storage_upload _ _ _ _ _ _ s) as [[e|] s1]; discriminate.
Qed.

Lemma supabase_save_signature_lives w v p s s' :
  Supabase.save_signature w v p s <> (Dies, s').
Proof.
  unfold Supabase.save_signature.
  destruct v as [d|]; [destruct (Js.nonempty d)|]; try discriminate.
  pose proof (saveBase64ToBuffer_lives w d) as Hb.
  destruct (Supabase.saveBase64ToBuffer w d) as [buf|e|]; [|discriminate|congruence].
  unfold bind. pose proof (uploadToStorage_lives w "informes" p (Raw buf) "image/png" s) as Hl.
  destruct (Supabase.uploadToStorage _ _ _ _ _ s) as [[?|?|] s1]; try discriminate.
  exfalso. exact (Hl _ eq_refl).
Qed.

Lemma save_files_keeps w dir rid fs s o s' :
  Supabase.save_files w dir rid fs s = (o, s') ->
  Supabase.informes s' = Supabase.informes s.
Proof.
  unfold Supabase.save_files. revert s o s'.
  induction fs as [|f fs IH]; simpl; intros s o s' H.
  - unfold ret in H. inversion H; reflexivity.
  - unfold bind in H. split_outcome H.
    + apply uploadToStorage_keeps in E.
      fold (@bind Supabase.Store) in H.
      destruct (for_each _ fs s0) as [[ys|e|] s1] eqn:E2;
        apply IH in E2; unfold ret in H; inversion H; subst; congruence.
    + apply uploadToStorage_keeps in E. inversion H; subst. assumption.
    + apply uploadToStorage_keeps in E. inversion H; subst. assumption.
Qed.

Lemma save_files_lives w dir rid fs s s' :
  Supabase.save_files w dir rid fs s <> (Dies, s').
Proof.
  unfold Supabase.save_files. revert s s'.
  induction fs as [|f fs IH]; simpl; intros s s'; [discriminate|].
  unfold bind.
  match goal with
  | |- context [Supabase.uploadToStorage ?w ?b ?p ?d ?ct s] =>
      pose proof (uploadToStorage_lives w b p d ct s) as Hl;
      destruct (Supabase.uploadToStorage w b p d ct s) as [[u|e|] s1]
  end; [|discriminate|exfalso; exact (Hl _ eq_refl)].
  fold (@bind Supabase.Store).
  pose proof (IH s1) as Hi.
  destruct (for_each _ fs s1) as [[ys|e|] s2]; try discriminate.
  exfalso. exact (Hi _ eq_refl).
Qed.

Lemma supabase_generatePDF_keeps w r fotos ft fc s o s' :
  Supabase.generatePDF w r fotos ft fc s = (o, s') ->
  Supabase.informes s' = Supabase.informes s.
Proof.
  unfold Supabase.generatePDF. case_qr.
  - destruct (Supabase.saveBase64ToBuffer w d) as [buf|e|].
    + destruct (image_loads w (FromBuffer buf)).
      * apply uploadToStorage_keeps.
      * unfold throw. intros H; inversion H; reflexivity.
    + unfold throw. intros H; inversion H; reflexivity.
    + unfold die. intros H; inversion H; reflexivity.
  - unfold throw. intros H; inversion H; reflexivity.
  - unfold die. intros H; inversion H; reflexivity.
Qed.

Lemma supabase_generatePDF_returns w r fotos ft fc s p s' :
  Supabase.generatePDF w r fotos ft fc s = (Returns p, s') ->
  p = storage_public_url w "informes" (Supabase.pdfPath w r).
Proof.
  unfold Supabase.generatePDF. case_qr; [|discriminate|discriminate].
  destruct (Supabase.saveBase64ToBuffer w d) as [buf|e|]; [|discriminate|discriminate].
  destruct (image_loads w (FromBuffer buf)); [|discriminate].
  unfold Supabase.uploadToStorage.
  destruct (Supabase.storage_upload _ _ _ _ _ _ s) as [[e|] s1];
    intros H; inversion H. reflexivity.
Qed.

Lemma supabase_create_informe_cases w req s o s' :
  Supabase.create_informe w req s = (o, s') ->
  (Supabase.informes s' = Supabase.informes s /\ exists e, o = Throws e)
  \/ (exists ft fc fotos anexos,
        let r := Supabase.new_report w req ft fc fotos anexos in
        let url := storage_public_url w "informes" (Supabase.pdfPath w r) in
        Supabase.informes s !! uuidv4 w = None
        /\ Supabase.informes s' = <[uuidv4 w := r]> (Supabase.informes s)
        /\ ((exists e, o = Throws e)
            \/ o = Dies
            \/ (is_Some (table_update_error w)
                /\ o = Returns (Created (uuidv4 w) url None))))
  \/ (exists ft fc fotos anexos,
        let r := Supabase.new_report w req ft fc fotos anexos in
        let url := storage_public_url w "informes" (Supabase.pdfPath w r) in
        Supabase.informes s !! uuidv4 w = None
        /\ table_update_error w = None
        /\ Supabase.informes s' = <[uuidv4 w := set_pdf_path url None r]> (Supabase.informes s)
        /\ ((o = Returns (Created (uuidv4 w) url None)
             /\ (getTransporter w = None \/ sendMail_error w = None))
            \/ (exists e, getTransporter w = Some tt /\ sendMail_error w = Some e
                          /\ o = Throws e))).
Proof.
  unfold Supabase.create_informe, bind. intros H.
  split_outcome H.
  2:{ apply supabase_save_signature_keeps in E. inversion H; subst. left. eauto. }
  2:{ exfalso. exact (supabase_save_signature_lives _ _ _ _ _ E). }
  apply supabase_save_signature_keeps in E. rename E into K1.
  split_outcome H.
  2:{ apply supabase_save_signature_keeps in E. inversion H; subst.
      left. split; [congruence|eauto]. }
  2:{ exfalso. exact (supabase_save_signature_lives _ _ _ _ _ E). }
  apply supabase_save_signature_keeps in E. rename E into K2.
  split_outcome H.
  2:{ apply save_files_keeps in E. inversion H; subst.
      left. split; [congruence|eauto]. }
  2:{ exfalso. exact (save_files_lives _ _ _ _ _ _ E). }
  apply save_files_keeps in E. rename E into K3.
  split_outcome H.
  2:{ apply save_files_keeps in E. inversion H; subst.
      left. split; [congruence|eauto]. }
  2:{ exfalso. exact (save_files_lives _ _ _ _ _ _ E). }
  apply save_files_keeps in E. rename E into K4.
  rename a into ft, a0 into fc, a1 into fotos, a2 into anexos.
  assert (Hs : Supabase.informes s3 = Supabase.informes s) by congruence.
  unfold Supabase.table_insert in H.
  destruct (table_insert_error w) as [e|].
  { inversion H; subst. left. eauto. }
  change (id (Supabase.new_report w req ft fc fotos anexos)) with (uuidv4 w) in H.
  destruct (Supabase.informes s3 !! uuidv4 w) as [old|] eqn:Hfresh.
  { inversion H; subst. left. eauto. }
  rewrite Hs in Hfresh.
  split_outcome H.
  2:{ apply supabase_generatePDF_keeps in E. inversion H; subst.
      right; left. exists ft, fc, fotos, anexos. cbn zeta.
      rewrite E. cbn. rewrite Hs. eauto. }
  2:{ apply supabase_generatePDF_keeps in E. inversion H; subst.
      right; left. exists ft, fc, fotos, anexos. cbn zeta.
      rewrite E. cbn. rewrite Hs. eauto. }
  pose proof (supabase_generatePDF_returns _ _ _ _ _ _ _ _ E) as ->.
  apply supabase_generatePDF_keeps in E. cbn in E. rewrite Hs in E.
  unfold Supabase.table_update_pdf in H.
  destruct (table_update_error w) as [ue|] eqn:Hu; cbn [snd] in H.
  - right; left. exists ft, fc, fotos, anexos. cbn zeta.
    split; [assumption|].
    destruct (getTransporter w) as [[]|] eqn:Ht.
    + unfold Supabase.sendMail in H. destruct (sendMail_error w) as [e|] eqn:Hm.
      * inversion H; subst. split; [assumption|]. left. eauto.
      * unfold ret in H. inversion H; subst. cbn. split; [assumption|].
        right; right. split; [eauto|reflexivity].
    + unfold ret in H. inversion H; subst. split; [assumption|].
      right; right. split; [eauto|reflexivity].
  - right; right. exists ft, fc, fotos, anexos. cbn zeta.
    split; [assumption|]. split; [reflexivity|].
    assert (Hfinal :
      alter (set_pdf_path (storage_public_url w "informes"
                             (Supabase.pdfPath w (Supabase.new_report w req ft fc fotos anexos)))
                          None) (uuidv4 w) (Supabase.informes s4)
      = <[uuidv4 w := set_pdf_path (storage_public_url w "informes"
                             (Supabase.pdfPath w (Supabase.new_report w req ft fc fotos anexos)))
                          None (Supabase.new_report w req ft fc fotos anexos)]>
          (Supabase.informes s)).
    { rewrite E. rewrite alter_insert_eq. reflexivity. }
    destruct (getTransporter w) as [[]|] eqn:Ht.
    + unfold Supabase.sendMail in H. destruct (sendMail_error w) as [e|] eqn:Hm.
      * inversion H; subst. cbn. split; [assumption|]. right. eauto.
      * unfold ret in H. inversion H; subst. cbn. split; [assumption|]. left. eauto.
    + unfold ret in H. inversion H; subst. cbn. split; [assumption|]. left. eauto.
Qed.

(** ** Submission and detail endpoint *)

(** On the SQLite server a successful submission is always followed by a
    detail record with the returned identifier and a document reference. *)
Lemma sqlite_created_row_has_pdf w req s rid url view s' :
  Sqlite.post_reports w req s = (Created rid url view, s') ->
  exists r, Sqlite.get_report rid s' = Row r /\ id r = rid /\ is_Some (pdf_path r).
Proof.
  unfold Sqlite.post_reports. destruct (Sqlite.validate (body req)); [|discriminate].
  destruct (Sqlite.create_report w req s) as [[resp|e|] s1] eqn:E; [|discriminate|discriminate].
  intros H. inversion H; subst. clear H.
  apply sqlite_create_report_cases in E
    as [(_ & e & He) | [(ft & fc & _ & _ & [(e & He)|He]) | (ft & fc & Hfresh & Hdb & Ho)]];
    try discriminate.
  destruct Ho as [(Ho & _) | (e & _ & _ & He)]; [|discriminate].
  inversion Ho; subst. unfold Sqlite.get_report. rewrite Hdb, lookup_insert_eq.
  eexists. split; [reflexivity|]. split; [reflexivity|]. cbn. eauto.
Qed.

(** On the bucket server the document reference of the detail record
    depends on the answer of the UPDATE, which the handler does not read. *)
Lemma supabase_created_row w req s rid url view s' :
  Supabase.post_informes w req s = (Created rid url view, s') ->
  exists r, Supabase.get_informe rid s' = Row r /\ id r = rid
            /\ (table_update_error w = None -> pdf_path r = Some url)
            /\ (is_Some (table_update_error w) -> pdf_path r = None).
Proof.
  unfold Supabase.post_informes. cbn [Supabase.validate].
  destruct (Supabase.create_informe w req s) as [[resp|e|] s1] eqn:E; [|discriminate|discriminate].
  intros H. inversion H; subst. clear H.
  apply supabase_create_informe_cases in E
    as [(_ & e & He) | [(ft & fc & fo & an & _ & Hdb & Ho)
                       | (ft & fc & fo & an & _ & Hu & Hdb & Ho)]];
    try discriminate.
  - destruct Ho as [(e & He) | [He | (Hu & Ho)]]; [discriminate|discriminate|].
    inversion Ho; subst. unfold Supabase.get_informe.
    rewrite Hdb, lookup_insert_eq. eexists. split; [reflexivity|].
    split; [reflexivity|]. split; [|reflexivity].
    intros Hn. rewrite Hn in Hu. destruct Hu; discriminate.
  - destruct Ho as [(Ho & _) | (e & _ & _ & He)]; [|discriminate].
    inversion Ho; subst. unfold Supabase.get_informe.
    rewrite Hdb, lookup_insert_eq. eexists. split; [reflexivity|].
    split; [reflexivity|]. split; [reflexivity|].
    intros Hs. rewrite Hu in Hs. destruct Hs; discriminate.
Qed.

(** C1. A submission to the bucket server in a world where the UPDATE of the
    table answers an error: the handler still responds [ok: true] with the
    identifier, and the detail endpoint then returns the record with that
    identifier and a null document reference. *)
Theorem informes_ok_with_null_pdf :
  let w := Sample.with_update_error "TypeError: fetch failed" Sample.calm in
  let out := Supabase.post_informes w Sample.complete Sample.empty_supabase in
  ok_field (fst out) = Some true
  /\ (exists url, fst out = Created (uuidv4 w) url None)
  /\ exists r, Supabase.get_informe (uuidv4 w) (snd out) = Row r
               /\ id r = uuidv4 w /\ pdf_path r = None.
Proof.
  cbn zeta. split; [vm_compute; reflexivity|].
  split; [eexists; vm_compute; reflexivity|].
  eexists. split; [vm_compute; reflexivity|]. split; reflexivity.
Qed.

(** ** Required fields *)

(** On the SQLite server a missing or empty required field is answered 400
    with one message per failing field, and the store is left as it was. *)
Lemma sqlite_missing_field_400 w req s :
  Js.truthy (body req !! "num_reporte") = false
  \/ Js.truthy (body req !! "usuario") = false
  \/ Js.truthy (body req !! "cliente") = false ->
  exists errors, errors <> []
    /\ Sqlite.post_reports w req s = (ValidationFailed errors, s).
Proof.
  intros H. unfold Sqlite.post_reports.
  destruct (Sqlite.validate (body req)) as [|m ms] eqn:Hv.
  - exfalso. unfold Sqlite.validate in Hv.
    destruct (Js.truthy (body req !! "num_reporte")),
             (Js.truthy (body req !! "usuario")),
             (Js.truthy (body req !! "cliente"));
      simpl in Hv; try discriminate.
    destruct H as [H|[H|H]]; discriminate.
  - exists (m :: ms). split; [discriminate|reflexivity].
Qed.

(** C2. A submission to the bucket server without the report number: no
    validation chain runs, the handler responds 200 with [ok: true], and a
    row without report number is inserted. *)
Theorem informes_accepts_missing_number :
  let w := Sample.calm in
  let out := Supabase.post_informes w Sample.no_number Sample.empty_supabase in
  body Sample.no_number !! "num_reporte" = None
  /\ status (fst out) = 200
  /\ ok_field (fst out) = Some true
  /\ exists r, Supabase.informes (snd out) !! uuidv4 w = Some r
               /\ num_reporte r = None.
Proof.
  cbn zeta. split; [vm_compute; reflexivity|].
  split; [vm_compute; reflexivity|]. split; [vm_compute; reflexivity|].
  eexists. split; [vm_compute; reflexivity|]. reflexivity.
Qed.

(** ** Notification *)

(** The stored row of a submission whose document reference is set tells
    that the insert and the update both went through. *)
Lemma sqlite_stored_with_pdf w req s o s' :
  Sqlite.create_report w req s = (o, s') ->
  Sqlite.db s !! uuidv4 w = None ->
  (exists r, Sqlite.db s' !! uuidv4 w = Some r /\ is_Some (pdf_path r)) ->
  (exists c, o = Returns c /\ ok_field c = Some true
             /\ (getTransporter w = None \/ sendMail_error w = None))
  \/ (exists e, getTransporter w = Some tt /\ sendMail_error w = Some e
                /\ o = Throws e).
Proof.
  intros E Hfresh (r & Hr & Hp).
  apply sqlite_create_report_cases in E
    as [(Hdb & _) | [(ft & fc & _ & Hdb & _) | (ft & fc & _ & Hdb & Ho)]].
  - rewrite Hdb, Hfresh in Hr. discriminate.
  - rewrite Hdb, lookup_insert_eq in Hr. inversion Hr; subst.
    destruct Hp as [p Hp]. discriminate.
  - destruct Ho as [(-> & Ht) | Ho]; [left|right; assumption].
    eexists. split; [reflexivity|]. split; [reflexivity|assumption].
Qed.

Lemma supabase_stored_with_pdf w req s o s' :
  Supabase.create_informe w req s = (o, s') ->
  Supabase.informes s !! uuidv4 w = None ->
  (exists r, Supabase.informes s' !! uuidv4 w = Some r /\ is_Some (pdf_path r)) ->
  (exists c, o = Returns c /\ ok_field c = Some true
             /\ (getTransporter w = None \/ sendMail_error w = None))
  \/ (exists e, getTransporter w = Some tt /\ sendMail_error w = Some e
                /\ o = Throws e).
Proof.
  intros E Hfresh (r & Hr & Hp).
  apply supabase_create_informe_cases in E
    as [(Hdb & _) | [(ft & fc & fo & an & _ & Hdb & _)
                    | (ft & fc & fo & an & _ & _ & Hdb & Ho)]].
  - rewrite Hdb, Hfresh in Hr. discriminate.
  - rewrite Hdb, lookup_insert_eq in Hr. inversion Hr; subst.
    destruct Hp as [p Hp]. discriminate.
  - destruct Ho as [(-> & Ht) | Ho]; [left|right; assumption].
    eexists. split; [reflexivity|]. split; [reflexivity|assumption].
Qed.

(** C3, as the claim states it, fails: with a transport configured and
    [sendMail] throwing, the row is inserted and carries its document
    reference, and yet both servers answer 500. *)
Lemma mail_failure_answers_500 :
  let w := Sample.with_smtp (Some "connect ECONNREFUSED") Sample.calm in
  let a := Sqlite.post_reports w Sample.complete Sample.empty_sqlite in
  let b := Supabase.post_informes w Sample.complete Sample.empty_supabase in
  (status (fst a) = 500
   /\ exists r, Sqlite.db (snd a) !! uuidv4 w = Some r /\ is_Some (pdf_path r))
  /\ (status (fst b) = 500
      /\ exists r, Supabase.informes (snd b) !! uuidv4 w = Some r
                   /\ is_Some (pdf_path r)).
Proof.
  cbn zeta. split; (split; [vm_compute; reflexivity|]);
    eexists; (split; [vm_compute; reflexivity|]); cbn; eauto.
Qed.

(** C3, amended. For a submission whose row has been inserted and given its
    document reference: when a transport is configured and [sendMail] throws,
    the client receives 500 with the transport's message; the success
    response is received when no transport is configured or [sendMail]
    resolves. This holds on both servers. *)
Theorem notification_failure_is_500 w req :
  (forall s resp s',
      Sqlite.post_reports w req s = (resp, s') ->
      Sqlite.db s !! uuidv4 w = None ->
      (exists r, Sqlite.db s' !! uuidv4 w = Some r /\ is_Some (pdf_path r)) ->
      (forall e, getTransporter w = Some tt -> sendMail_error w = Some e ->
                 resp = ServerError e)
      /\ (getTransporter w = None \/ sendMail_error w = None ->
          ok_field resp = Some true))
  /\ (forall s resp s',
      Supabase.post_informes w req s = (resp, s') ->
      Supabase.informes s !! uuidv4 w = None ->
      (exists r, Supabase.informes s' !! uuidv4 w = Some r /\ is_Some (pdf_path r)) ->
      (forall e, getTransporter w = Some tt -> sendMail_error w = Some e ->
                 resp = ServerError e)
      /\ (getTransporter w = None \/ sendMail_error w = None ->
          ok_field resp = Some true)).
Proof.
  split; intros s resp s' H Hfresh Hst.
  - unfold Sqlite.post_reports in H.
    destruct (Sqlite.validate (body req)).
    2:{ inversion H; subst. destruct Hst as (r & Hr & _).
        rewrite Hfresh in Hr. discriminate. }
    destruct (Sqlite.create_report w req s) as [o s1] eqn:E.
    assert (s1 = s') as -> by (destruct o; inversion H; reflexivity).
    destruct (sqlite_stored_with_pdf _ _ _ _ _ E Hfresh Hst)
      as [(c & -> & Hok & Ht) | (e & Ht & Hm & ->)]; inversion H; subst.
    + split; [|intros _; assumption].
      intros e Ht' Hm'. destruct Ht as [Ht|Ht]; congruence.
    + split; [intros e' _ Hm'; congruence|].
      intros [Ht'|Hm']; congruence.
  - unfold Supabase.post_informes in H. cbn [Supabase.validate] in H.
    destruct (Supabase.create_informe w req s) as [o s1] eqn:E.
    assert (s1 = s') as -> by (destruct o; inversion H; reflexivity).
    destruct (supabase_stored_with_pdf _ _ _ _ _ E Hfresh Hst)
      as [(c & -> & Hok & Ht) | (e & Ht & Hm & ->)]; inversion H; subst.
    + split; [|intros _; assumption].
      intros e Ht' Hm'. destruct Ht as [Ht|Ht]; congruence.
    + split; [intros e' _ Hm'; congruence|].
      intros [Ht'|Hm']; congruence.
Qed.

Lemma notification_failure_is_500_witness :
  let w := Sample.with_smtp (Some "connect ECONNREFUSED") Sample.calm in
  fst (Sqlite.post_reports w Sample.complete Sample.empty_sqlite)
  = ServerError "connect ECONNREFUSED"
  /\ fst (Supabase.post_informes w Sample.complete Sample.empty_supabase)
     = ServerError "connect ECONNREFUSED".
Proof.
  cbn zeta.
  destruct (notification_failure_is_500
              (Sample.with_smtp (Some "connect ECONNREFUSED") Sample.calm)
              Sample.complete) as [Ha Hb].
  split.
  - refine (proj1 (Ha Sample.empty_sqlite _ _ (surjective_pairing _) _ _) _ _ _).
    + vm_compute. reflexivity.
    + eexists. split; [vm_compute; reflexivity|]. cbn. eauto.
    + reflexivity.
    + reflexivity.
  - refine (proj1 (Hb Sample.empty_supabase _ _ (surjective_pairing _) _ _) _ _ _).
    + vm_compute. reflexivity.
    + eexists. split; [vm_compute; reflexivity|]. cbn. eauto.
    + reflexivity.
    + reflexivity.
Defined.

(** ** Status of a new record *)

Lemma or_else_pendiente v d :
  Js.or_else v d = "PENDIENTE" -> d <> "PENDIENTE" -> v = Some "PENDIENTE".
Proof.
  unfold Js.or_else. destruct v as [s|]; [|congruence].
  destruct (Js.nonempty s); congruence.
Qed.

(** C9. When a submission creates a record (the identifier was free before
    and names a row afterwards): with [estado] absent from the form the row's
    status is ['ENVIADO'], and the row's status is ['PENDIENTE'] only if the
    form carried [estado = 'PENDIENTE']. This holds on both servers. *)
Theorem default_status_is_enviado w req :
  (forall s r,
      Sqlite.db s !! uuidv4 w = None ->
      Sqlite.db (snd (Sqlite.post_reports w req s)) !! uuidv4 w = Some r ->
      (body req !! "estado" = None -> estado r = Some "ENVIADO")
      /\ (estado r = Some "PENDIENTE" -> body req !! "estado" = Some "PENDIENTE"))
  /\ (forall s r,
      Supabase.informes s !! uuidv4 w = None ->
      Supabase.informes (snd (Supabase.post_informes w req s)) !! uuidv4 w = Some r ->
      (body req !! "estado" = None -> estado r = Some "ENVIADO")
      /\ (estado r = Some "PENDIENTE" -> body req !! "estado" = Some "PENDIENTE")).
Proof.
  assert (Hest : forall v,
            (v = None -> Some (Js.or_else v "ENVIADO") = Some "ENVIADO")
            /\ (Some (Js.or_else v "ENVIADO") = Some "PENDIENTE" -> v = Some "PENDIENTE")).
  { intros v. split; [intros ->; reflexivity|].
    intros H. apply or_else_pendiente with (d := "ENVIADO");
      [congruence|discriminate]. }
  split; intros s r Hfresh Hr.
  - unfold Sqlite.post_reports in Hr.
    destruct (Sqlite.validate (body req)).
    2:{ cbn in Hr. congruence. }
    destruct (Sqlite.create_report w req s) as [o s1] eqn:E.
    assert (Hr' : Sqlite.db s1 !! uuidv4 w = Some r) by (destruct o; exact Hr).
    apply sqlite_create_report_cases in E
      as [(Hdb & _) | [(ft & fc & _ & Hdb & _) | (ft & fc & _ & Hdb & _)]];
      rewrite Hdb in Hr'.
    + congruence.
    + rewrite lookup_insert_eq in Hr'. inversion Hr'; subst. apply Hest.
    + rewrite lookup_insert_eq in Hr'. inversion Hr'; subst. apply Hest.
  - unfold Supabase.post_informes in Hr. cbn [Supabase.validate] in Hr.
    destruct (Supabase.create_informe w req s) as [o s1] eqn:E.
    assert (Hr' : Supabase.informes s1 !! uuidv4 w = Some r) by (destruct o; exact Hr).
    apply supabase_create_informe_cases in E
      as [(Hdb & _) | [(ft & fc & fo & an & _ & Hdb & _)
                      | (ft & fc & fo & an & _ & _ & Hdb & _)]];
      rewrite Hdb in Hr'.
    + congruence.
    + rewrite lookup_insert_eq in Hr'. inversion Hr'; subst. apply Hest.
    + rewrite lookup_insert_eq in Hr'. inversion Hr'; subst. apply Hest.
Qed.

Lemma default_status_is_enviado_witness :
  (exists r, Sqlite.db (snd (Sqlite.post_reports Sample.calm Sample.complete
                               Sample.empty_sqlite)) !! uuidv4 Sample.calm = Some r
             /\ estado r = Some "ENVIADO")
  /\ (exists r, Supabase.informes (snd (Supabase.post_informes Sample.calm Sample.draft
                               Sample.empty_supabase)) !! uuidv4 Sample.calm = Some r
                /\ estado r = Some "PENDIENTE"
                /\ body Sample.draft !! "estado" = Some "PENDIENTE").
Proof.
  destruct (default_status_is_enviado Sample.calm Sample.complete) as [Ha _].
  destruct (default_status_is_enviado Sample.calm Sample.draft) as [_ Hb].
  split.
  - eexists. split; [vm_compute; reflexivity|].
    refine (proj1 (Ha Sample.empty_sqlite _ _ _) _).
    + vm_compute. reflexivity.
    + vm_compute. reflexivity.
    + vm_compute. reflexivity.
  - eexists. split; [vm_compute; reflexivity|]. split; [reflexivity|].
    refine (proj2 (Hb Sample.empty_supabase _ _ _) _).
    + vm_compute. reflexivity.
    + vm_compute. reflexivity.
    + reflexivity.
Defined.

(** ** Malformed signatures *)

Lemma sqlite_validate_nil data :
  Sqlite.validate data = []
  <-> Js.truthy (data !! "num_reporte") = true
      /\ Js.truthy (data !! "usuario") = true
      /\ Js.truthy (data !! "cliente") = true.
Proof.
  unfold Sqlite.validate.
  destruct (Js.truthy (data !! "num_reporte")),
           (Js.truthy (data !! "usuario")),
           (Js.truthy (data !! "cliente")); simpl; split;
    try discriminate; try (intros (? & ? & ?); discriminate); auto.
Qed.

Lemma malformed_payload w v :
  malformed_data_url v = true ->
  exists d e, v = Some d /\ Js.nonempty d = true /\ base64_payload w d = Throws e.
Proof.
  destruct v as [d|]; [|discriminate]. simpl. intros H.
  apply andb_true_iff in H as [Hn Hc]. apply negb_true_iff in Hc.
  destruct (base64_payload_no_comma w d Hc) as [e He]. eauto.
Qed.

Lemma sqlite_save_signature_malformed w v p s :
  malformed_data_url v = true ->
  exists e, Sqlite.save_signature w v p s = (Throws e, s).
Proof.
  intros H. destruct (malformed_payload w v H) as (d & e & -> & Hn & He).
  exists e. unfold Sqlite.save_signature, bind, Sqlite.saveBase64PNG.
  rewrite Hn, He. reflexivity.
Qed.

Lemma supabase_save_signature_malformed w v p s :
  malformed_data_url v = true ->
  exists e, Supabase.save_signature w v p s = (Throws e, s).
Proof.
  intros H. destruct (malformed_payload w v H) as (d & e & -> & Hn & He).
  exists e. unfold Supabase.save_signature, Supabase.saveBase64ToBuffer.
  rewrite Hn, He. reflexivity.
Qed.

Lemma sqlite_create_report_malformed w req s :
  malformed_data_url (body req !! "firma_tecnico") = true
  \/ malformed_data_url (body req !! "firma_cliente") = true ->
  exists e s', Sqlite.create_report w req s = (Throws e, s')
               /\ Sqlite.db s' = Sqlite.db s.
Proof.
  intros H. unfold Sqlite.create_report, bind.
  destruct (Sqlite.save_signature w (body req !! "firma_tecnico") _ s)
    as [[ft|e|] s1] eqn:E1.
  2:{ apply save_signature_keeps in E1 as [Hd _]. eauto. }
  2:{ exfalso. exact (save_signature_lives _ _ _ _ _ E1). }
  destruct H as [H|H].
  { destruct (sqlite_save_signature_malformed w _
                ("/uploads/firma_tecnico_" ++ uuidv4 w ++ ".png") s H) as [e He].
    rewrite He in E1. discriminate. }
  destruct (sqlite_save_signature_malformed w _
              ("/uploads/firma_cliente_" ++ uuidv4 w ++ ".png") s1 H) as [e He].
  rewrite He. apply save_signature_keeps in E1 as [Hd _]. eauto.
Qed.

Lemma supabase_create_informe_malformed w req s :
  malformed_data_url (body req !! "firma_tecnico") = true
  \/ malformed_data_url (body req !! "firma_cliente") = true ->
  exists e s', Supabase.create_informe w req s = (Throws e, s')
               /\ Supabase.informes s' = Supabase.informes s.
Proof.
  intros H. unfold Supabase.create_informe, bind.
  destruct (Supabase.save_signature w (body req !! "firma_tecnico") _ s)
    as [[ft|e|] s1] eqn:E1.
  2:{ apply supabase_save_signature_keeps in E1. eauto. }
  2:{ exfalso. exact (supabase_save_signature_lives _ _ _ _ _ E1). }
  destruct H as [H|H].
  { destruct (supabase_save_signature_malformed w _
                ("firmas/" ++ uuidv4 w ++ "_tecnico.png") s H) as [e He].
    rewrite He in E1. discriminate. }
  destruct (supabase_save_signature_malformed w _
              ("firmas/" ++ uuidv4 w ++ "_cliente.png") s1 H) as [e He].
  rewrite He. apply supabase_save_signature_keeps in E1. eauto.
Qed.

(** C10, as the claim states it, fails on the SQLite server: a form whose
    technician signature has no comma and whose report number is missing is
    answered 400, not 500. *)
Lemma malformed_signature_answered_400 :
  malformed_data_url (body Sample.bad_signature_no_number !! "firma_tecnico") = true
  /\ status (fst (Sqlite.post_reports Sample.calm Sample.bad_signature_no_number
                    Sample.empty_sqlite)) = 400.
Proof. split; vm_compute; reflexivity. Qed.

(** C10, amended. For every submission whose [firma_tecnico] or
    [firma_cliente] is a non-empty string without a comma: the bucket server
    answers 500 and inserts no row; the SQLite server does the same when the
    three required fields are present and non-empty, and otherwise answers
    400, again without inserting a row. *)
Theorem malformed_signature_rejected w req :
  malformed_data_url (body req !! "firma_tecnico") = true
  \/ malformed_data_url (body req !! "firma_cliente") = true ->
  (forall s,
      Js.truthy (body req !! "num_reporte") = true ->
      Js.truthy (body req !! "usuario") = true ->
      Js.truthy (body req !! "cliente") = true ->
      status (fst (Sqlite.post_reports w req s)) = 500
      /\ Sqlite.db (snd (Sqlite.post_reports w req s)) = Sqlite.db s)
  /\ (forall s,
      Sqlite.validate (body req) <> [] ->
      status (fst (Sqlite.post_reports w req s)) = 400
      /\ snd (Sqlite.post_reports w req s) = s)
  /\ (forall s,
      status (fst (Supabase.post_informes w req s)) = 500
      /\ Supabase.informes (snd (Supabase.post_informes w req s))
         = Supabase.informes s).
Proof.
  intros H. split; [|split]; intros s.
  - intros H1 H2 H3.
    assert (Hv : Sqlite.validate (body req) = [])
      by (apply sqlite_validate_nil; auto).
    unfold Sqlite.post_reports. rewrite Hv.
    destruct (sqlite_create_report_malformed w req s H) as (e & s' & -> & Hd).
    split; [reflexivity|exact Hd].
  - intros Hv. unfold Sqlite.post_reports.
    destruct (Sqlite.validate (body req)); [congruence|]. split; reflexivity.
  - unfold Supabase.post_informes. cbn [Supabase.validate].
    destruct (supabase_create_informe_malformed w req s H) as (e & s' & -> & Hd).
    split; [reflexivity|exact Hd].
Qed.

Lemma malformed_signature_rejected_witness :
  status (fst (Sqlite.post_reports Sample.calm Sample.bad_signature
                 Sample.empty_sqlite)) = 500
  /\ Sqlite.db (snd (Sqlite.post_reports Sample.calm Sample.bad_signature
                       Sample.empty_sqlite)) = Sqlite.db Sample.empty_sqlite.
Proof.
  refine (proj1 (malformed_signature_rejected Sample.calm Sample.bad_signature _)
                Sample.empty_sqlite _ _ _).
  - left. vm_compute. reflexivity.
  - vm_compute. reflexivity.
  - vm_compute. reflexivity.
  - vm_compute. reflexivity.
Defined.

(** ** The QR section of the renderer *)

(** A report number with a slash names a directory that does not exist:
    the document file does not open, the process ends without a response,
    and the row stays behind without its document. *)
Example slash_in_number_ends_the_process :
  let out := Sqlite.post_reports Sample.calm Sample.slash_in_number Sample.empty_sqlite in
  Sqlite.pdfFile (Sqlite.new_report Sample.calm Sample.slash_in_number None None)
  = "/uploads/Reporte_R/104_Ana_Ruiz_2024-05-17.pdf"
  /\ fst out = NoResponse
  /\ (exists r, Sqlite.db (snd out) !! "7f9c2a" = Some r
                /\ num_reporte r = Some "R/104" /\ pdf_path r = None)
  /\ Sqlite.files (snd out) = ∅.
Proof.
  cbn zeta. split; [vm_compute; reflexivity|]. split; [vm_compute; reflexivity|].
  split; [eexists; split; [vm_compute; reflexivity|split; reflexivity]|].
  vm_compute. reflexivity.
Qed.




(** ** The photo grid *)

Section grid.
Context (w : World) (src : string -> ImgSrc).




End grid.

(** The grid in the words of the claim: 195 further right on the same row
    while the next image still ends at or before 555; back to 40 and 160
    further down otherwise; and on page break to y = 60 of the next page. *)
Lemma next_slot_right c :
  Grid.slot_x c + 195 + 180 <= 555 ->
  Grid.slot_x (Grid.next_slot c) = Grid.slot_x c + 195
  /\ Grid.row_after c = Grid.slot_y c.
Proof.
  intros H. unfold Grid.next_slot, Grid.row_after, Grid.wraps. cbn.
  destruct (555 <? Grid.slot_x c + 195 + 180) eqn:E; [lia|]. auto.
Qed.

Lemma next_slot_wrap c :
  555 < Grid.slot_x c + 195 + 180 ->
  Grid.slot_x (Grid.next_slot c) = 40
  /\ Grid.row_after c = Grid.slot_y c + 160.
Proof.
  intros H. unfold Grid.next_slot, Grid.row_after, Grid.wraps. cbn.
  destruct (555 <? Grid.slot_x c + 195 + 180) eqn:E; [auto|lia].
Qed.

Lemma next_slot_page c :
  (740 < Grid.row_after c + 140 ->
   Grid.slot_y (Grid.next_slot c) = 60
   /\ Grid.slot_page (Grid.next_slot c) = S (Grid.slot_page c))
  /\ (Grid.row_after c + 140 <= 740 ->
      Grid.slot_y (Grid.next_slot c) = Grid.row_after c
      /\ Grid.slot_page (Grid.next_slot c) = Grid.slot_page c).
Proof.
  unfold Grid.next_slot, Grid.breaks. cbn.
  destruct (740 <? Grid.row_after c + 140) eqn:E; split; intros H; auto; lia.
Qed.



(** ** The list endpoint *)

Lemma elem_of_sqlite_rows s r :
  r ∈ Sqlite.rows s <-> exists k, Sqlite.db s !! k = Some r.
Proof.
  unfold Sqlite.rows. rewrite list_elem_of_fmap. split.
  - intros ([k r'] & -> & Hin). apply elem_of_map_to_list in Hin. eauto.
  - intros (k & Hk). exists (k, r). split; [reflexivity|].
    apply elem_of_map_to_list. assumption.
Qed.

Lemma elem_of_supabase_rows s r :
  r ∈ Supabase.rows s <-> exists k, Supabase.informes s !! k = Some r.
Proof.
  unfold Supabase.rows. rewrite list_elem_of_fmap. split.
  - intros ([k r'] & -> & Hin). apply elem_of_map_to_list in Hin. eauto.
  - intros (k & Hk). exists (k, r). split; [reflexivity|].
    apply elem_of_map_to_list. assumption.
Qed.

Lemma elem_of_get_reports q s r :
  r ∈ merge_sort newer_first (List.filter (Sqlite.where_clause q) (Sqlite.rows s))
  <-> r ∈ Sqlite.rows s /\ Sqlite.where_clause q r = true.
Proof.
  rewrite merge_sort_Permutation. rewrite !list_elem_of_In, filter_In. reflexivity.
Qed.

Lemma where_usuario u r :
  u <> "" ->
  Sqlite.where_clause (Sample.by_usuario u) r = true <-> usuario r = Some u.
Proof.
  intros Hu. unfold Sqlite.where_clause. cbn.
  destruct u as [|c u]; [congruence|]. cbn.
  rewrite !andb_true_r. apply bool_decide_eq_true.
Qed.

Lemma where_estado e r :
  e <> "" ->
  Sqlite.where_clause (Sample.by_estado e) r = true <-> estado r = Some e.
Proof.
  intros He. unfold Sqlite.where_clause. cbn.
  destruct e as [|c e]; [congruence|]. cbn.
  rewrite !andb_true_r. apply bool_decide_eq_true.
Qed.

Lemma where_both u e r :
  u <> "" -> e <> "" ->
  Sqlite.where_clause (Sample.by_both u e) r = true
  <-> usuario r = Some u /\ estado r = Some e.
Proof.
  intros Hu He. unfold Sqlite.where_clause. cbn.
  destruct u as [|c u]; [congruence|]. destruct e as [|d e]; [congruence|]. cbn.
  rewrite !andb_true_r, andb_true_iff, !bool_decide_eq_true. reflexivity.
Qed.

(** C6, as the claim states it, fails. On the bucket server the list
    endpoint does not read the query, so a request filtered by submitter
    ["ana"] also returns the record submitted by ["luis"]. On the SQLite
    server a submitter filter that is the empty string is not applied, so the
    request returns records whose submitter is not the empty string. *)
Lemma informes_list_ignores_filter :
  let a := {| Supabase.informes := Sample.two_rows; Supabase.objects := ∅;
              Supabase.outbox := [] |} in
  let b := {| Sqlite.db := Sample.two_rows; Sqlite.files := ∅; Sqlite.outbox := [] |} in
  (Supabase.get_informes (Sample.by_usuario "ana") a
   = Rows [ Sample.row "2" "luis" "ENVIADO"; Sample.row "1" "ana" "ENVIADO" ]
   /\ usuario (Sample.row "2" "luis" "ENVIADO") <> Some "ana")
  /\ (Sqlite.get_reports (Sample.by_usuario "") b
      = Rows [ Sample.row "2" "luis" "ENVIADO"; Sample.row "1" "ana" "ENVIADO" ]
      /\ usuario (Sample.row "2" "luis" "ENVIADO") <> Some "").
Proof.
  cbn zeta. split; (split; [vm_compute; reflexivity|discriminate]).
Qed.

(** C6, amended. On the SQLite server, for every stored set of records: a
    list request with a non-empty submitter filter returns exactly the stored
    records whose submitter equals the filter (each once, newest first); with
    a non-empty submitter and a non-empty status filter it returns exactly
    the records returned for both filters taken singly. An empty filter
    value is not applied. The list endpoint of the bucket server returns all
    stored records whatever the query. *)
Theorem list_filters_exact s u :
  u <> "" ->
  (exists l,
      Sqlite.get_reports (Sample.by_usuario u) s = Rows l
      /\ Sorted newer_first l
      /\ l ≡ₚ List.filter (fun r => bool_decide (usuario r = Some u)) (Sqlite.rows s)
      /\ forall r, r ∈ l <-> (exists k, Sqlite.db s !! k = Some r) /\ usuario r = Some u)
  /\ (forall e, e <> "" ->
      exists l lu le,
        Sqlite.get_reports (Sample.by_both u e) s = Rows l
        /\ Sqlite.get_reports (Sample.by_usuario u) s = Rows lu
        /\ Sqlite.get_reports (Sample.by_estado e) s = Rows le
        /\ forall r, r ∈ l <-> r ∈ lu /\ r ∈ le)
  /\ Sqlite.get_reports (Sample.by_usuario "") s
     = Sqlite.get_reports (mkQuery None None None None) s
  /\ (forall q t, exists l,
        Supabase.get_informes q t = Rows l
        /\ forall r, r ∈ l <-> exists k, Supabase.informes t !! k = Some r).
Proof.
  intros Hu. split; [|split; [|split]].
  - eexists. split; [reflexivity|]. split; [|split].
    + apply Sorted_merge_sort. intros a b. unfold newer_first. apply total. apply _.
    + rewrite merge_sort_Permutation.
      assert (Hext : forall r, Sqlite.where_clause (Sample.by_usuario u) r
                               = bool_decide (usuario r = Some u)).
      { intros r. destruct u as [|c u]; [congruence|].
        unfold Sqlite.where_clause. cbn. rewrite !andb_true_r. reflexivity. }
      rewrite (filter_ext _ _ Hext). reflexivity.
    + intros r. rewrite elem_of_get_reports, elem_of_sqlite_rows, (where_usuario u r Hu).
      reflexivity.
  - intros e He. eexists _, _, _.
    split; [reflexivity|]. split; [reflexivity|]. split; [reflexivity|].
    intros r. rewrite !elem_of_get_reports.
    rewrite (where_both u e r Hu He), (where_usuario u r Hu), (where_estado e r He).
    tauto.
  - reflexivity.
  - intros q t. eexists. split; [reflexivity|]. intros r.
    rewrite merge_sort_Permutation. apply elem_of_supabase_rows.
Qed.

Lemma list_filters_exact_witness :
  let s := {| Sqlite.db := Sample.two_rows; Sqlite.files := ∅; Sqlite.outbox := [] |} in
  exists l, Sqlite.get_reports (Sample.by_usuario "ana") s = Rows l
            /\ forall r, r ∈ l <-> (exists k, Sqlite.db s !! k = Some r)
                                   /\ usuario r = Some "ana".
Proof.
  cbn zeta.
  destruct (list_filters_exact
              {| Sqlite.db := Sample.two_rows; Sqlite.files := ∅; Sqlite.outbox := [] |}
              "ana") as [(l & Hl & _ & _ & Hin) _].
  - discriminate.
  - exists l. split; assumption.
Defined.

(** ** The text of the QR code *)

(** The stand-in reader inverts the stand-in encoder. *)
Lemma sample_reader_inverts text style d :
  Sample.toDataURL text style = Returns d ->
  exists b64, Js.split_on "," d !! 1%nat = Some b64
              /\ Sample.read_qr (list_byte_of_string b64) = Some text.
Proof.
  unfold Sample.toDataURL. destruct (Js.contains "," text) eqn:Hc; [discriminate|].
  intros H. inversion H; subst. exists text. split.
  - change ("data:image/png;base64," ++ text)
      with ("data:image/png;base64" ++ String "," text).
    rewrite split_on_first by reflexivity.
    rewrite (split_on_no_sep _ _ Hc). reflexivity.
  - unfold Sample.read_qr. rewrite string_of_list_byte_of_string. reflexivity.
Qed.

(** C7. On the bucket server the QR code does not carry the public URL of
    the document. A complete form is submitted in a world where every
    outside call succeeds: the response and the detail record give the
    document's URL in the bucket, the document is stored there, and the QR
    image that ends the document reads as the view URL, one pipe character,
    and [BASE_URL/pdfs/<id>/<name>], a URL under which the server serves
    nothing. *)
Theorem informes_qr_names_another_url :
  let w := Sample.calm in
  let out := Supabase.post_informes w Sample.complete Sample.empty_supabase in
  let name := "pdfs/7f9c2a/Reporte_R-104_Ana_Ruiz_2024-05-17.pdf" in
  let stored := "https://proj.supabase.co/storage/v1/object/public/informes/" ++ name in
  exists r doc image,
    fst out = Created "7f9c2a" stored None
    /\ Supabase.get_informe "7f9c2a" (snd out) = Row r
    /\ pdf_path r = Some stored
    /\ Supabase.objects (snd out) !! ("informes", name)
       = Some (Pdf doc, "application/pdf")
    /\ last doc = Some (OpImage (FromBuffer image) (FromMax 150) (FromMax 120) (Width 90))
    /\ Sample.read_qr image
       = Some ("http://localhost:3000/public/report.html?id=7f9c2a|"
               ++ "http://localhost:3000/" ++ name)
    /\ "http://localhost:3000/" ++ name <> stored.
Proof.
  cbn zeta. do 3 eexists.
  split; [vm_compute; reflexivity|].
  split; [vm_compute; reflexivity|].
  split; [vm_compute; reflexivity|].
  split; [vm_compute; reflexivity|].
  split; [vm_compute; reflexivity|].
  split; [vm_compute; reflexivity|discriminate].
Qed.

(** ** The asset store *)

Lemma storage_upload_upsert_twice w bucket path data ct s :
  Supabase.storage_upload w true bucket path data ct
    (snd (Supabase.storage_upload w true bucket path data ct s))
  = Supabase.storage_upload w true bucket path data ct s.
Proof.
  unfold Supabase.storage_upload.
  destruct (storage_upload_error w bucket path) as [e|] eqn:He; cbn.
  - reflexivity.
  - assert (Hins : forall t : Supabase.Store,
              Supabase.storage_upload w true bucket path data ct
                (Supabase.with_objects (insert (bucket, path) (data, ct)) t)
              = (None, Supabase.with_objects (insert (bucket, path) (data, ct)) t)).
    { intros t. unfold Supabase.storage_upload. rewrite He. cbn.
      rewrite lookup_insert_eq. unfold Supabase.with_objects. cbn.
      rewrite insert_insert_eq. reflexivity. }
    unfold Supabase.storage_upload in Hins. rewrite He in Hins.
    destruct (Supabase.objects s !! (bucket, path)); cbn; apply Hins.
Qed.

(** Without [upsert] a second identical upload is refused. *)
Lemma storage_upload_no_upsert_twice w bucket path data ct s :
  storage_upload_error w bucket path = None ->
  Supabase.objects s !! (bucket, path) = None ->
  fst (Supabase.storage_upload w false bucket path data ct s) = None
  /\ fst (Supabase.storage_upload w false bucket path data ct
            (snd (Supabase.storage_upload w false bucket path data ct s)))
     = Some "The resource already exists".
Proof.
  intros He Hn. unfold Supabase.storage_upload. rewrite He, Hn. cbn.
  rewrite lookup_insert_eq. auto.
Qed.

(** C8. For every bucket, path, payload and content type, and every stored
    state, a second identical call of the asset-store operation leaves the
    state as the first call left it and returns what the first call returned:
    [uploadToStorage] replaces the object (it uploads with [upsert]), and
    [saveBase64PNG] replaces the file. *)
Theorem asset_store_idempotent w :
  (forall bucket path data ct s,
      let once := Supabase.uploadToStorage w bucket path data ct s in
      let twice := Supabase.uploadToStorage w bucket path data ct (snd once) in
      snd twice = snd once /\ fst twice = fst once)
  /\ (forall dataURL outPath s,
      let once := Sqlite.saveBase64PNG w dataURL outPath s in
      let twice := Sqlite.saveBase64PNG w dataURL outPath (snd once) in
      snd twice = snd once /\ fst twice = fst once).
Proof.
  split.
  - intros bucket path data ct s. cbn zeta. unfold Supabase.uploadToStorage.
    pose proof (storage_upload_upsert_twice w bucket path data ct s) as H.
    destruct (Supabase.storage_upload w true bucket path data ct s) as [[e|] s1] eqn:E1;
      cbn [snd fst] in *; rewrite H; cbn; auto.
  - intros dataURL outPath s. cbn zeta. unfold Sqlite.saveBase64PNG.
    destruct (base64_payload w dataURL) as [buf|e|]; [|cbn; auto|cbn; auto].
    unfold Sqlite.writeFileSync.
    destruct (writeFile_error w outPath) as [e|] eqn:He; cbn; [auto|].
    unfold Sqlite.with_files. cbn. rewrite insert_insert_eq. auto.
Qed.

(** * Further properties of the two servers *)

(** ** Paths and file names *)

Example extname_cases :
  Js.extname "foto 1.jpg" = ".jpg" /\ Js.extname "a.b.c" = ".c"
  /\ Js.extname ".bashrc" = "" /\ Js.extname "README" = ""
  /\ Js.extname ".." = "" /\ Js.extname "dir/x.tar.gz" = ".gz"
  /\ Js.extname "index." = ".".
Proof. repeat split; reflexivity. Qed.

Example upload_filename_cases :
  Sqlite.upload_filename "1715941800000" "foto  de planta.jpg"
  = "1715941800000_foto_de_planta.jpg"
  /\ Sqlite.upload_filename "1715941800000" "acta.v2 final" = "1715941800000_acta.v2 final".
Proof. split; reflexivity. Qed.

(** ** The upload middleware *)

Example fileFilter_cases :
  Sqlite.fileFilter "image/jpeg" = true /\ Sqlite.fileFilter "application/pdf" = true
  /\ Sqlite.fileFilter "text/plain" = false /\ Sqlite.fileFilter "image/PNG" = false
  /\ Sqlite.fileFilter "text/x-pdf-notes" = true.
Proof. repeat split; reflexivity. Qed.










(** A body without file parts reaches the handler as it is. *)
Lemma route_without_files w fields s :
  Sqlite.route_reports w {| sub_fields := fields; sub_parts := [] |} s
  = Sqlite.post_reports w {| body := fields; files_fotos := []; files_anexos := [] |} s.
Proof.
  unfold Sqlite.route_reports, Sqlite.cpUpload. cbn.
  destruct s as [d f o]. reflexivity.
Qed.


Example route_with_files :
  let out := Sqlite.route_reports Sample.calm Sample.with_files Sample.empty_sqlite in
  fst out
  = Created "7f9c2a"
      "http://localhost:3000/uploads/Reporte_R-104_Ana_Ruiz_2024-05-17.pdf"
      (Some "http://localhost:3000/public/report.html?id=7f9c2a")
  /\ (exists r, Sqlite.db (snd out) !! "7f9c2a" = Some r
                /\ fotos r = [ "/uploads/1715941800000_foto_de_planta.jpg";
                               "/uploads/1715941800002_foto_de_planta.jpg" ]
                /\ anexos r = [ "/uploads/1715941800001_acta.pdf" ])
  /\ Sqlite.files (snd out) !! "/uploads/1715941800001_acta.pdf"
     = Some (Raw [ Byte.x02 ]).
Proof.
  cbn zeta. split; [vm_compute; reflexivity|].
  split; [eexists; split; [vm_compute; reflexivity|split; reflexivity]|].
  vm_compute. reflexivity.
Qed.

Example refused_file_is_answered_500 :
  Sqlite.route_reports Sample.calm Sample.no_number_with_text_file Sample.empty_sqlite
  = (ServerError "Tipo de archivo no permitido", Sample.empty_sqlite).
Proof. vm_compute. reflexivity. Qed.



(** ** Statistics *)

Lemma group_count_lookup col rs k :
  Sqlite.group_count col rs !! k
  = match length (List.filter (fun r => bool_decide (col r = k)) rs) with
    | O => None
    | S n => Some (S n)
    end.
Proof.
  induction rs as [|r rs IH]; [reflexivity|].
  cbn [Sqlite.group_count foldr List.filter].
  fold (Sqlite.group_count col rs).
  destruct (decide (col r = k)) as [->|Hne].
  - rewrite lookup_insert_eq, IH, bool_decide_eq_true_2 by reflexivity.
    cbn [length].
    destruct (length (List.filter _ rs)); reflexivity.
  - rewrite lookup_insert_ne by assumption.
    rewrite bool_decide_eq_false_2 by assumption. exact IH.
Qed.

Lemma group_count_total col rs :
  sum_list ((map_to_list (Sqlite.group_count col rs)).*2) = length rs.
Proof.
  induction rs as [|r rs IH]; [reflexivity|].
  cbn [Sqlite.group_count foldr]. fold (Sqlite.group_count col rs).
  set (m := Sqlite.group_count col rs) in *.
  destruct (m !! col r) as [n|] eqn:Hm; cbn [default length].
  - rewrite <- insert_delete_eq.
    rewrite map_to_list_insert by apply lookup_delete_eq.
    rewrite <- IH, <- (map_to_list_delete m (col r) n Hm). reflexivity.
  - rewrite map_to_list_insert by assumption. cbn. rewrite IH. reflexivity.
Qed.

(** X2. The statistics endpoint partitions the table: in either grouping
    every value of the column occurs once, its total is the number of stored
    records that have that value (never zero), and the totals add up to the
    number of stored records. A null column is a group of its own. *)
Theorem stats_partition_the_table s :
  let by_type := fst (Sqlite.get_stats s) in
  let by_user := snd (Sqlite.get_stats s) in
  (NoDup by_type.*1 /\ NoDup by_user.*1)
  /\ (forall k n, (k, n) ∈ by_type <->
        n <> O /\ n = length (List.filter (fun r => bool_decide (tipo_servicio r = k))
                                (Sqlite.rows s)))
  /\ (forall k n, (k, n) ∈ by_user <->
        n <> O /\ n = length (List.filter (fun r => bool_decide (usuario r = k))
                                (Sqlite.rows s)))
  /\ sum_list by_type.*2 = size (Sqlite.db s)
  /\ sum_list by_user.*2 = size (Sqlite.db s).
Proof.
  cbn zeta. unfold Sqlite.get_stats. cbn [fst snd].
  assert (Hin : forall col k n,
            (k, n) ∈ map_to_list (Sqlite.group_count col (Sqlite.rows s)) <->
            n <> O /\ n = length (List.filter (fun r => bool_decide (col r = k))
                                    (Sqlite.rows s))).
  { intros col k n. rewrite elem_of_map_to_list, group_count_lookup.
    destruct (length _) as [|c]; split.
    - discriminate.
    - intros [Hn ->]. congruence.
    - intros H. inversion H. split; [discriminate|reflexivity].
    - intros [_ ->]. reflexivity. }
  assert (Hlen : length (Sqlite.rows s) = size (Sqlite.db s)).
  { unfold Sqlite.rows. rewrite length_fmap. apply length_map_to_list. }
  split; [split; apply NoDup_fst_map_to_list|].
  split; [apply Hin|]. split; [apply Hin|].
  rewrite !group_count_total. auto.
Qed.

(** ** The list endpoints, all filters *)

Lemma newer_first_total : Total newer_first.
Proof. intros a b. unfold newer_first. apply total. apply _. Qed.

Lemma truthy_filter_eq (v col : option string) :
  (if Js.truthy v then bool_decide (col = v) else true) = true
  <-> (forall x, v = Some x -> x <> "" -> col = Some x).
Proof.
  destruct v as [[|c x]|]; cbn.
  - split; [intros _ x Hx; inversion Hx; congruence|reflexivity].
  - rewrite bool_decide_eq_true. split.
    + intros -> y Hy _. assumption.
    + intros H. apply H; [reflexivity|discriminate].
  - split; [intros _ x Hx; discriminate|reflexivity].
Qed.

Lemma bound_filter (v : option string) (test : string -> bool) :
  match v with
  | Some d => if Js.nonempty d then test d else true
  | None => true
  end = true
  <-> (forall d, v = Some d -> d <> "" -> test d = true).
Proof.
  destruct v as [[|c d]|]; cbn.
  - split; [intros _ d Hd; inversion Hd; congruence|reflexivity].
  - split.
    + intros H d' Hd' _. inversion Hd'; subst. assumption.
    + intros H. apply H; [reflexivity|discriminate].
  - split; [intros _ d Hd; discriminate|reflexivity].
Qed.

Lemma where_clause_spec q r :
  Sqlite.where_clause q r = true
  <-> (forall u, q_usuario q = Some u -> u <> "" -> usuario r = Some u)
      /\ (forall e, q_estado q = Some e -> e <> "" -> estado r = Some e)
      /\ (forall d, q_desde q = Some d -> d <> "" -> String.leb d (created_at r) = true)
      /\ (forall h, q_hasta q = Some h -> h <> "" -> String.leb (created_at r) h = true).
Proof.
  unfold Sqlite.where_clause.
  rewrite !andb_true_iff, !truthy_filter_eq.
  rewrite (bound_filter (q_desde q) (fun d => String.leb d (created_at r))).
  rewrite (bound_filter (q_hasta q) (fun h => String.leb (created_at r) h)).
  tauto.
Qed.

(** X3. The list endpoint of the SQLite server, for every query and every
    stored set of records: the response holds each stored record that passes
    all the filters given with a non-empty value exactly once, and no other;
    the submitter and status filters test equality, the bounds [desde] and
    [hasta] are inclusive and compare [created_at] as text; the records come
    newest first. The list endpoint of the bucket server returns every
    stored record exactly once, newest first. *)
Theorem list_newest_first_all_filters q :
  (forall s, exists l,
      Sqlite.get_reports q s = Rows l
      /\ Sorted newer_first l
      /\ l ≡ₚ List.filter (Sqlite.where_clause q) (Sqlite.rows s)
      /\ forall r, r ∈ l <->
           (exists k, Sqlite.db s !! k = Some r)
           /\ (forall u, q_usuario q = Some u -> u <> "" -> usuario r = Some u)
           /\ (forall e, q_estado q = Some e -> e <> "" -> estado r = Some e)
           /\ (forall d, q_desde q = Some d -> d <> "" ->
                 String.leb d (created_at r) = true)
           /\ (forall h, q_hasta q = Some h -> h <> "" ->
                 String.leb (created_at r) h = true))
  /\ (forall t, exists l,
      Supabase.get_informes q t = Rows l
      /\ Sorted newer_first l
      /\ l ≡ₚ Supabase.rows t
      /\ length l = size (Supabase.informes t)).
Proof.
  split.
  - intros s. eexists. split; [reflexivity|].
    split; [apply Sorted_merge_sort, newer_first_total|].
    split; [apply merge_sort_Permutation|].
    intros r. rewrite elem_of_get_reports, elem_of_sqlite_rows, where_clause_spec.
    reflexivity.
  - intros t. eexists. split; [reflexivity|].
    split; [apply Sorted_merge_sort, newer_first_total|].
    split; [apply merge_sort_Permutation|].
    rewrite merge_sort_Permutation. unfold Supabase.rows.
    rewrite length_fmap. apply length_map_to_list.
Qed.

(** ** What a submission leaves alone *)

(** X4. A submission never alters or removes a record that is already
    stored, whatever its outcome: every stored record is still returned
    unchanged afterwards, and only the identifier generated for the request
    can become a new key of the table. This holds on both servers. *)
Theorem submission_keeps_stored_rows w req :
  (forall s,
      let s' := snd (Sqlite.post_reports w req s) in
      (forall k r, Sqlite.db s !! k = Some r ->
                   Sqlite.get_report k s' = Sqlite.get_report k s)
      /\ (forall k, k <> uuidv4 w -> Sqlite.db s' !! k = Sqlite.db s !! k))
  /\ (forall t,
      let t' := snd (Supabase.post_informes w req t) in
      (forall k r, Supabase.informes t !! k = Some r ->
                   Supabase.get_informe k t' = Supabase.get_informe k t)
      /\ (forall k, k <> uuidv4 w ->
                    Supabase.informes t' !! k = Supabase.informes t !! k)).
Proof.
  split.
  - intros s. cbn zeta.
    assert (H : Sqlite.db (snd (Sqlite.post_reports w req s)) = Sqlite.db s
                \/ exists r, Sqlite.db s !! uuidv4 w = None
                     /\ Sqlite.db (snd (Sqlite.post_reports w req s))
                        = <[uuidv4 w := r]> (Sqlite.db s)).
    { unfold Sqlite.post_reports. destruct (Sqlite.validate (body req)); [|left; reflexivity].
      destruct (Sqlite.create_report w req s) as [o s1] eqn:E.
      assert (Hs : snd (match o with
                        | Returns r => (r, s1)
                        | Throws e => (ServerError e, s1)
                        | Dies => (NoResponse, s1)
                        end) = s1) by (destruct o; reflexivity).
      rewrite Hs.
      apply sqlite_create_report_cases in E
        as [(Hdb & _) | [(ft & fc & Hf & Hdb & _) | (ft & fc & Hf & Hdb & _)]];
        eauto. }
    destruct H as [H | (r0 & Hf & H)]; unfold Sqlite.get_report; rewrite H.
    + split; reflexivity.
    + split.
      * intros k r Hk. rewrite lookup_insert_ne; [reflexivity|]. congruence.
      * intros k Hk. apply lookup_insert_ne. congruence.
  - intros t. cbn zeta.
    assert (H : Supabase.informes (snd (Supabase.post_informes w req t))
                = Supabase.informes t
                \/ exists r, Supabase.informes t !! uuidv4 w = None
                     /\ Supabase.informes (snd (Supabase.post_informes w req t))
                        = <[uuidv4 w := r]> (Supabase.informes t)).
    { unfold Supabase.post_informes. cbn [Supabase.validate].
      destruct (Supabase.create_informe w req t) as [o s1] eqn:E.
      assert (Hs : snd (match o with
                        | Returns r => (r, s1)
                        | Throws e => (ServerError e, s1)
                        | Dies => (NoResponse, s1)
                        end) = s1) by (destruct o; reflexivity).
      rewrite Hs.
      apply supabase_create_informe_cases in E
        as [(Hdb & _) | [(ft & fc & fo & an & Hf & Hdb & _)
                        | (ft & fc & fo & an & Hf & _ & Hdb & _)]];
        eauto. }
    destruct H as [H | (r0 & Hf & H)]; unfold Supabase.get_informe; rewrite H.
    + split; reflexivity.
    + split.
      * intros k r Hk. rewrite lookup_insert_ne; [reflexivity|]. congruence.
      * intros k Hk. apply lookup_insert_ne. congruence.
Qed.

Lemma submission_keeps_stored_rows_witness :
  Sqlite.get_report "7f9c2a" (snd (Sqlite.post_reports Sample.calm Sample.complete Sample.taken))
  = Row (Sample.row "7f9c2a" "luis" "ENVIADO").
Proof.
  rewrite (proj1 (proj1 (submission_keeps_stored_rows Sample.calm Sample.complete)
                    Sample.taken) "7f9c2a" (Sample.row "7f9c2a" "luis" "ENVIADO")).
  - vm_compute. reflexivity.
  - vm_compute. reflexivity.
Defined.

(** X5. On the SQLite server, when the identifier generated for a request is
    already a key of the table, the submission inserts nothing, leaves the
    table as it was, and is answered with an error (400 or 500), never with
    the success response. *)
Theorem taken_identifier_is_refused w req s r0 :
  Sqlite.db s !! uuidv4 w = Some r0 ->
  Sqlite.db (snd (Sqlite.post_reports w req s)) = Sqlite.db s
  /\ (status (fst (Sqlite.post_reports w req s)) = 400
      \/ status (fst (Sqlite.post_reports w req s)) = 500).
Proof.
  intros Hk. unfold Sqlite.post_reports.
  destruct (Sqlite.validate (body req)); [|split; [reflexivity|left; reflexivity]].
  destruct (Sqlite.create_report w req s) as [o s1] eqn:E.
  apply sqlite_create_report_cases in E
    as [(Hdb & e & ->) | [(ft & fc & Hf & _) | (ft & fc & Hf & _)]];
    try congruence.
  split; [exact Hdb|right; reflexivity].
Qed.

Lemma taken_identifier_is_refused_witness :
  status (fst (Sqlite.post_reports Sample.calm Sample.complete Sample.taken)) = 500
  /\ Sqlite.db (snd (Sqlite.post_reports Sample.calm Sample.complete Sample.taken))
     = Sqlite.db Sample.taken.
Proof.
  destruct (taken_identifier_is_refused Sample.calm Sample.complete Sample.taken
              (Sample.row "7f9c2a" "luis" "ENVIADO")) as [Hdb _].
  - vm_compute. reflexivity.
  - split; [vm_compute; reflexivity|exact Hdb].
Defined.

(** ** Validation *)



(** ** Notifications sent *)

Lemma sqlite_create_report_outbox w req s o s' :
  Sqlite.create_report w req s = (o, s') ->
  match o with
  | Throws _ | Dies => Sqlite.outbox s' = Sqlite.outbox s
  | Returns _ =>
      exists ft fc,
        let r := Sqlite.new_report w req ft fc in
        Sqlite.outbox s'
        = (Sqlite.outbox s
           ++ match getTransporter w with
              | Some _ => [ Sqlite.notification w r (Sqlite.pdf_ref r) ]
              | None => []
              end)%list
  end.
Proof.
  unfold Sqlite.create_report, bind. intros H.
  split_outcome H.
  2-3: (apply save_signature_keeps in E as [_ Ho]; inversion H; subst; assumption).
  apply save_signature_keeps in E as [_ Ho1].
  split_outcome H.
  2-3: (apply save_signature_keeps in E as [_ Ho2]; inversion H; subst; congruence).
  apply save_signature_keeps in E as [_ Ho2].
  rename a into ft, a0 into fc.
  assert (Hs1 : Sqlite.outbox s1 = Sqlite.outbox s) by congruence.
  unfold Sqlite.db_insert in H.
  destruct (sql_insert_error w) as [e|].
  { inversion H; subst. assumption. }
  change (id (Sqlite.new_report w req ft fc)) with (uuidv4 w) in H.
  destruct (Sqlite.db s1 !! uuidv4 w) as [old|] eqn:Hfresh.
  { inversion H; subst. assumption. }
  unfold Sqlite.db_get in H. cbn [Sqlite.with_db Sqlite.db] in H.
  rewrite lookup_insert_eq in H.
  split_outcome H.
  2-3: (apply sqlite_generatePDF_keeps in E as [_ Ho3]; inversion H; subst; rewrite Ho3; cbn; assumption).
  pose proof (sqlite_generatePDF_returns _ _ _ _ _ E) as ->.
  apply sqlite_generatePDF_keeps in E as [_ Ho3]. cbn in Ho3. rewrite Hs1 in Ho3.
  unfold Sqlite.db_update_pdf in H.
  destruct (sql_update_error w) as [e|].
  { inversion H; subst. assumption. }
  destruct (getTransporter w) as [[]|] eqn:Ht.
  - unfold Sqlite.sendMail in H. destruct (sendMail_error w) as [e|] eqn:Hm.
    + inversion H; subst. cbn. assumption.
    + unfold ret in H. inversion H; subst. cbn. exists ft, fc. rewrite Ho3. reflexivity.
  - unfold ret in H. inversion H; subst. cbn. exists ft, fc.
    rewrite Ho3, app_nil_r. reflexivity.
Qed.

Lemma uploadToStorage_keeps_outbox w b p d ct s o s' :
  Supabase.uploadToStorage w b p d ct s = (o, s') ->
  Supabase.outbox s' = Supabase.outbox s.
Proof.
  unfold Supabase.uploadToStorage, Supabase.storage_upload.
  destruct (storage_upload_error w b p);
    [|destruct (Supabase.objects s !! (b, p))];
    intros H; inversion H; reflexivity.
Qed.

Lemma supabase_save_signature_keeps_outbox w v p s o s' :
  Supabase.save_signature w v p s = (o, s') ->
  Supabase.outbox s' = Supabase.outbox s.
Proof.
  unfold Supabase.save_signature.
  destruct v as [d|]; [destruct (Js.nonempty d)|];
    try (unfold ret; intros H; inversion H; reflexivity).
  destruct (Supabase.saveBase64ToBuffer w d).
  - unfold bind. intros H. split_outcome H;
      apply uploadToStorage_keeps_outbox in E; unfold ret in H; inversion H; subst; auto.
  - unfold throw. intros H; inversion H; reflexivity.
  - unfold die. intros H; inversion H; reflexivity.
Qed.

Lemma save_files_keeps_outbox w dir rid fs s o s' :
  Supabase.save_files w dir rid fs s = (o, s') ->
  Supabase.outbox s' = Supabase.outbox s.
Proof.
  unfold Supabase.save_files. revert s o s'.
  induction fs as [|f fs IH]; simpl; intros s o s' H.
  - unfold ret in H. inversion H; reflexivity.
  - unfold bind in H. split_outcome H.
    + apply uploadToStorage_keeps_outbox in E.
      fold (@bind Supabase.Store) in H.
      destruct (for_each _ fs s0) as [[ys|e|] s1] eqn:E2;
        apply IH in E2; unfold ret in H; inversion H; subst; congruence.
    + apply uploadToStorage_keeps_outbox in E. inversion H; subst. assumption.
    + apply uploadToStorage_keeps_outbox in E. inversion H; subst. assumption.
Qed.

Lemma supabase_generatePDF_keeps_outbox w r fotos ft fc s o s' :
  Supabase.generatePDF w r fotos ft fc s = (o, s') ->
  Supabase.outbox s' = Supabase.outbox s.
Proof.
  unfold Supabase.generatePDF. case_qr.
  - destruct (Supabase.saveBase64ToBuffer w d) as [buf|e|].
    + destruct (image_loads w (FromBuffer buf)).
      * apply uploadToStorage_keeps_outbox.
      * unfold throw. intros H; inversion H; reflexivity.
    + unfold throw. intros H; inversion H; reflexivity.
    + unfold die. intros H; inversion H; reflexivity.
  - unfold throw. intros H; inversion H; reflexivity.
  - unfold die. intros H; inversion H; reflexivity.
Qed.

Lemma supabase_create_informe_outbox w req s o s' :
  Supabase.create_informe w req s = (o, s') ->
  match o with
  | Throws _ | Dies => Supabase.outbox s' = Supabase.outbox s
  | Returns _ =>
      exists ft fc fotos anexos,
        let r := Supabase.new_report w req ft fc fotos anexos in
        Supabase.outbox s'
        = (Supabase.outbox s
           ++ match getTransporter w with
              | Some _ =>
                  [ Supabase.notification w r
                      (storage_public_url w "informes" (Supabase.pdfPath w r)) ]
              | None => []
              end)%list
  end.
Proof.
  unfold Supabase.create_informe, bind. intros H.
  split_outcome H.
  2-3: (apply supabase_save_signature_keeps_outbox in E; inversion H; subst; assumption).
  apply supabase_save_signature_keeps_outbox in E. rename E into K1.
  split_outcome H.
  2-3: (apply supabase_save_signature_keeps_outbox in E; inversion H; subst; congruence).
  apply supabase_save_signature_keeps_outbox in E. rename E into K2.
  split_outcome H.
  2-3: (apply save_files_keeps_outbox in E; inversion H; subst; congruence).
  apply save_files_keeps_outbox in E. rename E into K3.
  split_outcome H.
  2-3: (apply save_files_keeps_outbox in E; inversion H; subst; congruence).
  apply save_files_keeps_outbox in E. rename E into K4.
  rename a into ft, a0 into fc, a1 into fotos, a2 into anexos.
  assert (Hs : Supabase.outbox s3 = Supabase.outbox s) by congruence.
  unfold Supabase.table_insert in H.
  destruct (table_insert_error w) as [e|].
  { inversion H; subst. assumption. }
  change (id (Supabase.new_report w req ft fc fotos anexos)) with (uuidv4 w) in H.
  destruct (Supabase.informes s3 !! uuidv4 w) as [old|] eqn:Hfresh.
  { inversion H; subst. assumption. }
  split_outcome H.
  2-3: (apply supabase_generatePDF_keeps_outbox in E; inversion H; subst; rewrite E; cbn; assumption).
  pose proof (supabase_generatePDF_returns _ _ _ _ _ _ _ _ E) as ->.
  apply supabase_generatePDF_keeps_outbox in E. cbn in E. rewrite Hs in E.
  assert (Hu : Supabase.outbox
                 (snd (Supabase.table_update_pdf w (uuidv4 w)
                         (storage_public_url w "informes"
                            (Supabase.pdfPath w
                               (Supabase.new_report w req ft fc fotos anexos))) s4))
               = Supabase.outbox s).
  { unfold Supabase.table_update_pdf. destruct (table_update_error w); cbn; assumption. }
  destruct (getTransporter w) as [[]|] eqn:Ht.
  - unfold Supabase.sendMail in H. destruct (sendMail_error w) as [e|] eqn:Hm.
    + inversion H; subst. assumption.
    + unfold ret in H. inversion H; subst. cbn. exists ft, fc, fotos, anexos.
      rewrite Hu. reflexivity.
  - unfold ret in H. inversion H; subst. exists ft, fc, fotos, anexos.
    rewrite Hu, app_nil_r. reflexivity.
Qed.

(** X7. A notification is handed to the mail transport only by a submission
    that is answered with the success response, and then exactly one, and
    only if a transport is configured: a submission answered 400 or 500
    sends no mail, and without SMTP host, user and password no mail is ever
    sent. The one mail goes to [MAIL_TO]. This holds on both servers. *)
Theorem one_mail_per_successful_submission w req :
  (forall s,
      let resp := fst (Sqlite.post_reports w req s) in
      let s' := snd (Sqlite.post_reports w req s) in
      (ok_field resp <> Some true \/ getTransporter w = None ->
       Sqlite.outbox s' = Sqlite.outbox s)
      /\ (ok_field resp = Some true -> getTransporter w = Some tt ->
          exists m, Sqlite.outbox s' = (Sqlite.outbox s ++ [ m ])%list
                    /\ mail_to m = MAIL_TO w))
  /\ (forall t,
      let resp := fst (Supabase.post_informes w req t) in
      let t' := snd (Supabase.post_informes w req t) in
      (ok_field resp <> Some true \/ getTransporter w = None ->
       Supabase.outbox t' = Supabase.outbox t)
      /\ (ok_field resp = Some true -> getTransporter w = Some tt ->
          exists m, Supabase.outbox t' = (Supabase.outbox t ++ [ m ])%list
                    /\ mail_to m = MAIL_TO w)).
Proof.
  split.
  - intros s. cbn zeta. unfold Sqlite.post_reports.
    destruct (Sqlite.validate (body req)).
    2:{ cbn. split; [reflexivity|discriminate]. }
    destruct (Sqlite.create_report w req s) as [[c|e|] s1] eqn:E;
      pose proof (sqlite_create_report_outbox _ _ _ _ _ E) as Ho; cbn in *.
    + destruct Ho as (ft & fc & Ho). split.
      * intros [Hok|Ht].
        -- exfalso. apply Hok.
           apply sqlite_create_report_cases in E
             as [(_ & e & He) | [(? & ? & _ & _ & [(e & He)|He]) | (? & ? & _ & _ & Hc)]];
             try discriminate.
           destruct Hc as [(Hc & _) | (e & _ & _ & He)]; [|discriminate].
           inversion Hc; reflexivity.
        -- rewrite Ho, Ht, app_nil_r. reflexivity.
      * intros _ Ht. rewrite Ht in Ho. eexists. split; [exact Ho|reflexivity].
    + split; [intros _; exact Ho|discriminate].
    + split; [intros _; exact Ho|discriminate].
  - intros t. cbn zeta. unfold Supabase.post_informes. cbn [Supabase.validate].
    destruct (Supabase.create_informe w req t) as [[c|e|] s1] eqn:E;
      pose proof (supabase_create_informe_outbox _ _ _ _ _ E) as Ho; cbn in *.
    + destruct Ho as (ft & fc & fo & an & Ho). split.
      * intros [Hok|Ht].
        -- exfalso. apply Hok.
           apply supabase_create_informe_cases in E
             as [(_ & e & He) | [(? & ? & ? & ? & _ & _ & Hc)
                                | (? & ? & ? & ? & _ & _ & _ & Hc)]];
             try discriminate.
           ++ destruct Hc as [(e & He) | [He | (_ & Hc)]]; [discriminate|discriminate|].
              inversion Hc; reflexivity.
           ++ destruct Hc as [(Hc & _) | (e & _ & _ & He)]; [|discriminate].
              inversion Hc; reflexivity.
        -- rewrite Ho, Ht, app_nil_r. reflexivity.
      * intros _ Ht. rewrite Ht in Ho. eexists. split; [exact Ho|reflexivity].
    + split; [intros _; exact Ho|discriminate].
    + split; [intros _; exact Ho|discriminate].
Qed.

Lemma one_mail_per_successful_submission_witness :
  let w := Sample.with_smtp None Sample.calm in
  exists m,
    Sqlite.outbox (snd (Sqlite.post_reports w Sample.complete Sample.empty_sqlite))
    = [ m ] /\ mail_to m = "soporte@example.org".
Proof.
  cbn zeta.
  destruct (proj2 (proj1 (one_mail_per_successful_submission
                            (Sample.with_smtp None Sample.calm) Sample.complete)
                     Sample.empty_sqlite)) as (m & Hm & Hto).
  - vm_compute. reflexivity.
  - reflexivity.
  - exists m. split; [exact Hm|exact Hto].
Defined.

(** ** What a successful submission has written (SQLite server) *)

Lemma sqlite_save_signature_returns w v p s o s' :
  Sqlite.save_signature w v p s = (Returns o, s') ->
  (Js.truthy v = false /\ o = None /\ s' = s)
  \/ (exists d b64,
        v = Some d /\ Js.nonempty d = true
        /\ Js.split_on "," d !! 1%nat = Some b64
        /\ o = Some p
        /\ s' = Sqlite.with_files (insert p (Raw (Buffer_from_base64 w b64))) s).
Proof.
  unfold Sqlite.save_signature.
  destruct v as [d|]; [destruct (Js.nonempty d) eqn:Hn|].
  - unfold bind, Sqlite.saveBase64PNG, base64_payload.
    destruct (Js.split_on "," d !! 1%nat) as [b64|] eqn:Hb; [|discriminate].
    unfold Sqlite.writeFileSync. destruct (writeFile_error w p); [discriminate|].
    unfold ret. intros H. inversion H; subst. right. eauto 10.
  - unfold ret. intros H. inversion H; subst. left. cbn. rewrite Hn. auto.
  - unfold ret. intros H. inversion H; subst. left. auto.
Qed.

Lemma sqlite_generatePDF_writes w r s p s' :
  Sqlite.generatePDF w r s = (Returns p, s') ->
  exists d b64,
    QRCode_toDataURL w (qr_text (publicReportURL w (id r)) (Sqlite.publicPDFURL w r))
      (Some Sqlite.qrStyle) = Returns d
    /\ Js.split_on "," d !! 1%nat = Some b64
    /\ Sqlite.files s'
       = <[Sqlite.pdfFile r := Pdf (Sqlite.body_ops w r ++ Sqlite.qr_embed w r)]>
           (<[Sqlite.qrPath r := Raw (Buffer_from_base64 w b64)]> (Sqlite.files s)).
Proof.
  intros H. apply sqlite_generatePDF_steps in H. cbn zeta in H.
  destruct H as [(_ & _ & Ho)
                |(_ & [(e & _ & Ho & _)
                      |[(_ & Ho & _)
                       |(d & Hqr & [(e & _ & Ho & _)|(b & Hb & _ & _ & ->)])]])];
    try discriminate.
  { destruct (QRCode_toDataURL w _ (Some Sqlite.qrStyle)); discriminate. }
  unfold base64_payload in Hb.
  destruct (Js.split_on "," d !! 1%nat) as [b64|] eqn:Hs; [|discriminate].
  injection Hb as <-. exists d, b64. split; [exact Hqr|]. split; [exact Hs|].
  cbn [Sqlite.files Sqlite.with_files].
  rewrite (insert_insert_ne (Sqlite.files s) (Sqlite.qrPath r) (Sqlite.pdfFile r))
    by apply qr_file_is_not_the_pdf.
  rewrite insert_insert_eq. reflexivity.
Qed.

Lemma sqlite_create_report_writes w req s c s' :
  Sqlite.create_report w req s = (Returns c, s') ->
  exists ft fc s1 s2 d b64,
    let r := Sqlite.new_report w req ft fc in
    Sqlite.save_signature w (body req !! "firma_tecnico")
      ("/uploads/firma_tecnico_" ++ uuidv4 w ++ ".png") s = (Returns ft, s1)
    /\ Sqlite.save_signature w (body req !! "firma_cliente")
         ("/uploads/firma_cliente_" ++ uuidv4 w ++ ".png") s1 = (Returns fc, s2)
    /\ QRCode_toDataURL w
         (qr_text (publicReportURL w (uuidv4 w)) (BASE_URL w ++ Sqlite.pdf_ref r))
         (Some Sqlite.qrStyle) = Returns d
    /\ Js.split_on "," d !! 1%nat = Some b64
    /\ Sqlite.files s'
       = <[Sqlite.pdfFile r := Pdf (Sqlite.body_ops w r ++ Sqlite.qr_embed w r)]>
           (<[Sqlite.qrPath r := Raw (Buffer_from_base64 w b64)]> (Sqlite.files s2))
    /\ c = Created (uuidv4 w) (BASE_URL w ++ Sqlite.pdf_ref r)
             (Some (publicReportURL w (uuidv4 w)))
    /\ Sqlite.db s' !! uuidv4 w
       = Some (set_pdf_path (Sqlite.pdf_ref r) (Some (now_iso_later w)) r).
Proof.
  unfold Sqlite.create_report, bind. intros H.
  split_outcome H; [|discriminate|discriminate]. rename E into E1.
  split_outcome H; [|discriminate|discriminate]. rename E into E2.
  rename a into ft, a0 into fc.
  unfold Sqlite.db_insert in H.
  destruct (sql_insert_error w) as [e|]; [discriminate|].
  change (id (Sqlite.new_report w req ft fc)) with (uuidv4 w) in H.
  destruct (Sqlite.db s1 !! uuidv4 w) as [old|] eqn:Hfresh; [discriminate|].
  unfold Sqlite.db_get in H. cbn [Sqlite.with_db Sqlite.db] in H.
  rewrite lookup_insert_eq in H.
  split_outcome H; [|discriminate|discriminate].
  pose proof (sqlite_generatePDF_returns _ _ _ _ _ E) as ->.
  pose proof (sqlite_generatePDF_keeps _ _ _ _ _ E) as [Hd3 _].
  apply sqlite_generatePDF_writes in E as (d & b64 & Hqr & Hb & Hf).
  cbn [Sqlite.files Sqlite.with_db Sqlite.db] in Hd3, Hf.
  unfold Sqlite.db_update_pdf in H.
  destruct (sql_update_error w) as [e|]; [discriminate|].
  exists ft, fc, s0, s1, d, b64. cbn zeta.
  split; [first [assumption|reflexivity]|].
  split; [first [assumption|reflexivity]|].
  split; [exact Hqr|]. split; [exact Hb|].
  destruct (getTransporter w) as [[]|].
  - unfold Sqlite.sendMail in H. destruct (sendMail_error w); [discriminate|].
    unfold ret in H. inversion H; subst. cbn.
    split; [exact Hf|]. split; [reflexivity|].
    rewrite Hd3. rewrite lookup_alter_eq, lookup_insert_eq. reflexivity.
  - unfold ret in H. inversion H; subst. cbn.
    split; [exact Hf|]. split; [reflexivity|].
    rewrite Hd3. rewrite lookup_alter_eq, lookup_insert_eq. reflexivity.
Qed.

Lemma split_on_keeps_absent c sep s seg :
  Js.contains c s = false -> seg ∈ Js.split_on sep s -> Js.contains c seg = false.
Proof.
  revert seg. induction s as [|d s IH]; cbn [Js.split_on Js.contains]; intros seg H Hin.
  - apply list_elem_of_singleton in Hin. subst. reflexivity.
  - apply orb_false_iff in H as [Hd Hs]. destruct (Ascii.eqb d sep).
    + apply elem_of_cons in Hin as [->|Hin]; [reflexivity|exact (IH _ Hs Hin)].
    + destruct (Js.split_on sep s) as [|p ps] eqn:Hp.
      * apply list_elem_of_singleton in Hin. subst. cbn [Js.contains].
        rewrite Hd. reflexivity.
      * apply elem_of_cons in Hin as [->|Hin].
        -- cbn [Js.contains]. rewrite Hd. apply (IH _ Hs). left.
        -- apply (IH _ Hs). right. assumption.
Qed.

Lemma interp_no_slash (v : option string) :
  (forall x, v = Some x -> Js.contains "/" x = false) ->
  Js.contains "/" (Js.interp v) = false.
Proof. destruct v as [x|]; intros H; [apply H; reflexivity|reflexivity]. Qed.

(** Without a slash in report number, submitter and creation date, the
    reference [generatePDF] returns is the path of the file it writes. *)
Lemma pdf_ref_is_pdfFile r :
  (forall x, num_reporte r = Some x -> Js.contains "/" x = false) ->
  (forall x, usuario r = Some x -> Js.contains "/" x = false) ->
  Js.contains "/" (created_at r) = false ->
  Sqlite.pdf_ref r = Sqlite.pdfFile r.
Proof.
  intros Hn Hu Hc. unfold Sqlite.pdf_ref, Sqlite.pdfFile.
  set (name := Js.replace_ws _).
  assert (Hname : Js.contains "/" name = false).
  { unfold name, Js.replace_ws. apply replace_ws_go_keeps_absent; [discriminate|].
    rewrite !contains_app, (interp_no_slash _ Hn), (interp_no_slash _ Hu).
    assert (Hd : Js.contains "/" (List.hd "" (Js.split_on "T" (created_at r))) = false).
    { pose proof (split_on_keeps_absent "/" "T" (created_at r)) as Hseg.
      destruct (Js.split_on "T" (created_at r)) as [|seg segs]; [reflexivity|].
      apply Hseg; [assumption|left]. }
    rewrite Hd. reflexivity. }
  assert (Hl : Js.last_char name = Some "f"%char).
  { unfold name, Js.replace_ws.
    apply replace_ws_go_last_char; [apply Nat.ltb_lt; reflexivity|reflexivity|].
    rewrite <- !string_app_assoc. apply last_char_app. discriminate. }
  destruct (plain_segment _ _ Hl ltac:(discriminate)) as (H0 & H1 & H2).
  rewrite (path_join_plain name Hname H0 H1 H2).
  change ("/uploads/" ++ name) with ("/uploads" ++ String "/" name).
  rewrite basename_join by assumption. reflexivity.
Qed.

(** X8. On the SQLite server the document URL of a success response names
    the stored document: when report number and submitter contain no slash
    (and the clock's time stamp has none), the [pdf_url] returned is
    [BASE_URL] followed by the [pdf_path] of the detail record, and the
    file under that reference is the finished rendering of that record:
    its body, then the caption and the image of the QR code. *)
Theorem returned_pdf_url_names_stored_document w req s rid url view s' :
  Sqlite.post_reports w req s = (Created rid url view, s') ->
  (forall x, body req !! "num_reporte" = Some x -> Js.contains "/" x = false) ->
  (forall x, body req !! "usuario" = Some x -> Js.contains "/" x = false) ->
  Js.contains "/" (now_iso w) = false ->
  exists ref r,
    url = BASE_URL w ++ ref
    /\ Sqlite.get_report rid s' = Row r
    /\ pdf_path r = Some ref
    /\ Sqlite.files s' !! ref
       = Some (Pdf (Sqlite.body_ops w r ++ Sqlite.qr_embed w r)).
Proof.
  intros H Hn Hu Hc. unfold Sqlite.post_reports in H.
  destruct (Sqlite.validate (body req)); [|discriminate].
  destruct (Sqlite.create_report w req s) as [[c|e|] s1] eqn:E; [|discriminate|discriminate].
  inversion H; subst. clear H.
  apply sqlite_create_report_writes in E
    as (ft & fc & sa & sb & d & b64 & _ & _ & _ & _ & Hf & Hcr & Hdb).
  cbn zeta in *. inversion Hcr; subst. clear Hcr.
  eexists _, _. split; [reflexivity|].
  split; [|split].
  - unfold Sqlite.get_report. rewrite Hdb. reflexivity.
  - reflexivity.
  - rewrite Hf. rewrite (pdf_ref_is_pdfFile (Sqlite.new_report w req ft fc) Hn Hu Hc).
    apply lookup_insert_eq.
Qed.

Lemma returned_pdf_url_names_stored_document_witness :
  let out := Sqlite.post_reports Sample.calm Sample.complete Sample.empty_sqlite in
  exists r,
    Sqlite.get_report "7f9c2a" (snd out) = Row r
    /\ Sqlite.files (snd out) !! "/uploads/Reporte_R-104_Ana_Ruiz_2024-05-17.pdf"
       = Some (Pdf (Sqlite.body_ops Sample.calm r ++ Sqlite.qr_embed Sample.calm r)).
Proof.
  cbn zeta.
  destruct (returned_pdf_url_names_stored_document Sample.calm Sample.complete
              Sample.empty_sqlite "7f9c2a"
              "http://localhost:3000/uploads/Reporte_R-104_Ana_Ruiz_2024-05-17.pdf"
              (Some "http://localhost:3000/public/report.html?id=7f9c2a")
              (snd (Sqlite.post_reports Sample.calm Sample.complete Sample.empty_sqlite)))
    as (ref & r & Hurl & Hrow & _ & Hf).
  - vm_compute. reflexivity.
  - intros x Hx. vm_compute in Hx. injection Hx as <-. reflexivity.
  - intros x Hx. vm_compute in Hx. injection Hx as <-. reflexivity.
  - reflexivity.
  - exists r. split; [exact Hrow|].
    vm_compute in Hurl. inversion Hurl. subst ref. exact Hf.
Defined.

(** X9. On the SQLite server the QR code of a submitted report carries the
    two URLs of the success response: the text given to the encoder is the
    [view_url], a pipe, and the [pdf_url] sent to the client, and the QR
    file stored for the report holds the decoded payload of the data URL the
    encoder made of it. *)
Theorem qr_encodes_the_response_urls w req s rid url view s' :
  Sqlite.post_reports w req s = (Created rid url view, s') ->
  exists v d b64,
    view = Some v
    /\ QRCode_toDataURL w (v ++ "|" ++ url) (Some Sqlite.qrStyle) = Returns d
    /\ Js.split_on "," d !! 1%nat = Some b64
    /\ Sqlite.files s' !! ("/uploads/qr_" ++ rid ++ ".png")
       = Some (Raw (Buffer_from_base64 w b64)).
Proof.
  intros H. unfold Sqlite.post_reports in H.
  destruct (Sqlite.validate (body req)); [|discriminate].
  destruct (Sqlite.create_report w req s) as [[c|e|] s1] eqn:E; [|discriminate|discriminate].
  inversion H; subst. clear H.
  apply sqlite_create_report_writes in E
    as (ft & fc & sa & sb & d & b64 & _ & _ & Hqr & Hb & Hf & Hcr & _).
  cbn zeta in *. inversion Hcr; subst. clear Hcr.
  exists (publicReportURL w (uuidv4 w)), d, b64.
  split; [reflexivity|]. split; [exact Hqr|]. split; [exact Hb|].
  rewrite Hf.
  rewrite lookup_insert_ne
    by (apply not_eq_sym, (qr_file_is_not_the_pdf (Sqlite.new_report w req ft fc))).
  apply (lookup_insert_eq (Sqlite.files sb)
           (Sqlite.qrPath (Sqlite.new_report w req ft fc))).
Qed.

Lemma qr_encodes_the_response_urls_witness :
  Sqlite.files (snd (Sqlite.post_reports Sample.calm Sample.complete Sample.empty_sqlite))
    !! "/uploads/qr_7f9c2a.png"
  = Some (Raw (list_byte_of_string
     "http://localhost:3000/public/report.html?id=7f9c2a|http://localhost:3000/uploads/Reporte_R-104_Ana_Ruiz_2024-05-17.pdf")).
Proof.
  destruct (qr_encodes_the_response_urls Sample.calm Sample.complete
              Sample.empty_sqlite _ _ _ _ (surjective_pairing _))
    as (v & d & b64 & Hv & Hqr & Hb & Hf).
  vm_compute in Hv. injection Hv as <-.
  vm_compute in Hqr. injection Hqr as <-.
  vm_compute in Hb. injection Hb as <-.
  exact Hf.
Defined.

(** ** Signatures *)

Lemma signature_paths_differ rid r :
  "/uploads/firma_tecnico_" ++ rid ++ ".png" <> "/uploads/firma_cliente_" ++ rid ++ ".png"
  /\ "/uploads/firma_tecnico_" ++ rid ++ ".png" <> Sqlite.qrPath r
  /\ "/uploads/firma_tecnico_" ++ rid ++ ".png" <> Sqlite.pdfFile r
  /\ "/uploads/firma_cliente_" ++ rid ++ ".png" <> Sqlite.qrPath r
  /\ "/uploads/firma_cliente_" ++ rid ++ ".png" <> Sqlite.pdfFile r.
Proof.
  assert (Hpdf : forall a, a ++ rid ++ ".png" <> Sqlite.pdfFile r).
  { intros a. rewrite <- string_app_assoc. apply png_is_not_the_pdf. }
  unfold Sqlite.qrPath.
  split; [cbn; discriminate|]. split; [cbn; discriminate|].
  split; [apply Hpdf|]. split; [cbn; discriminate|apply Hpdf].
Qed.

(** X10. On the SQLite server, after a successful submission each signature
    field sent as a non-empty data URL is kept as a file: the record's
    [firma_tecnico] ([firma_cliente]) is the fixed path made of the report
    identifier, and the file at that path holds the base64-decoded part of
    the data URL after its first comma. A signature field that is absent or
    empty leaves the record's member null. *)
Theorem signatures_are_stored_decoded w req s rid url view s' :
  Sqlite.post_reports w req s = (Created rid url view, s') ->
  exists r,
    Sqlite.get_report rid s' = Row r
    /\ (forall d, body req !! "firma_tecnico" = Some d -> d <> "" ->
          exists b64,
            Js.split_on "," d !! 1%nat = Some b64
            /\ firma_tecnico r = Some ("/uploads/firma_tecnico_" ++ rid ++ ".png")
            /\ Sqlite.files s' !! ("/uploads/firma_tecnico_" ++ rid ++ ".png")
               = Some (Raw (Buffer_from_base64 w b64)))
    /\ (forall d, body req !! "firma_cliente" = Some d -> d <> "" ->
          exists b64,
            Js.split_on "," d !! 1%nat = Some b64
            /\ firma_cliente r = Some ("/uploads/firma_cliente_" ++ rid ++ ".png")
            /\ Sqlite.files s' !! ("/uploads/firma_cliente_" ++ rid ++ ".png")
               = Some (Raw (Buffer_from_base64 w b64)))
    /\ (Js.truthy (body req !! "firma_tecnico") = false -> firma_tecnico r = None)
    /\ (Js.truthy (body req !! "firma_cliente") = false -> firma_cliente r = None).
Proof.
  intros H. unfold Sqlite.post_reports in H.
  destruct (Sqlite.validate (body req)); [|discriminate].
  destruct (Sqlite.create_report w req s) as [[c|e|] s1] eqn:E; [|discriminate|discriminate].
  inversion H; subst. clear H.
  apply sqlite_create_report_writes in E
    as (ft & fc & sa & sb & d & b64 & Ht & Hc & _ & _ & Hf & Hcr & Hdb).
  cbn zeta in *. inversion Hcr; subst. clear Hcr.
  destruct (signature_paths_differ (uuidv4 w) (Sqlite.new_report w req ft fc))
    as (Ntc & Ntq & Ntp & Ncq & Ncp).
  eexists. split; [unfold Sqlite.get_report; rewrite Hdb; reflexivity|].
  cbn [firma_tecnico firma_cliente set_pdf_path Sqlite.new_report].
  apply sqlite_save_signature_returns in Ht, Hc.
  split; [|split; [|split]].
  - intros dt Hdt Hne.
    destruct Ht as [(Hfalse & _) | (dt' & bt & Hv & _ & Hsplit & -> & ->)].
    { rewrite Hdt in Hfalse. destruct dt; [congruence|discriminate]. }
    rewrite Hdt in Hv. injection Hv as <-. exists bt.
    split; [assumption|]. split; [reflexivity|].
    rewrite Hf, !lookup_insert_ne by (apply not_eq_sym; assumption).
    destruct Hc as [(_ & _ & ->) | (dc & bc & _ & _ & _ & _ & ->)];
      cbn [Sqlite.files Sqlite.with_files].
    + apply lookup_insert_eq.
    + rewrite lookup_insert_ne by (apply not_eq_sym; assumption).
      apply lookup_insert_eq.
  - intros dc Hdc Hne.
    destruct Hc as [(Hfalse & _) | (dc' & bc & Hv & _ & Hsplit & -> & ->)].
    { rewrite Hdc in Hfalse. destruct dc; [congruence|discriminate]. }
    rewrite Hdc in Hv. injection Hv as <-. exists bc.
    split; [assumption|]. split; [reflexivity|].
    rewrite Hf, !lookup_insert_ne by (apply not_eq_sym; assumption).
    cbn [Sqlite.files Sqlite.with_files]. apply lookup_insert_eq.
  - intros Hfalse.
    destruct Ht as [(_ & -> & _) | (dt' & bt & Hv & Hn & _)]; [reflexivity|].
    rewrite Hv in Hfalse. cbn in Hfalse. congruence.
  - intros Hfalse.
    destruct Hc as [(_ & -> & _) | (dc' & bc & Hv & Hn & _)]; [reflexivity|].
    rewrite Hv in Hfalse. cbn in Hfalse. congruence.
Qed.

Lemma signatures_are_stored_decoded_witness :
  Sqlite.files (snd (Sqlite.post_reports Sample.calm Sample.signed Sample.empty_sqlite))
    !! "/uploads/firma_tecnico_7f9c2a.png"
  = Some (Raw (list_byte_of_string "iVBORw0KGgo")).
Proof.
  destruct (signatures_are_stored_decoded Sample.calm Sample.signed
              Sample.empty_sqlite _ _ _ _ (surjective_pairing _))
    as (r & _ & Ht & _).
  destruct (Ht "data:image/png;base64,iVBORw0KGgo") as (b64 & Hb & _ & Hf).
  - vm_compute. reflexivity.
  - discriminate.
  - vm_compute in Hb. injection Hb as <-. exact Hf.
Defined.

(** ** What the bucket server stores *)

Lemma supabase_generatePDF_writes w r fotos ft fc s u s' :
  Supabase.generatePDF w r fotos ft fc s = (Returns u, s') ->
  exists d b64,
    QRCode_toDataURL w (qr_text (publicReportURL w (id r)) (Supabase.publicPDFURL w r))
      None = Returns d
    /\ Js.split_on "," d !! 1%nat = Some b64
    /\ Supabase.informes s' = Supabase.informes s
    /\ Supabase.objects s'
       = <[("informes", Supabase.pdfPath w r) :=
             (Pdf (Supabase.body_ops w r fotos ft fc
                   ++ [ OpImage (FromBuffer (Buffer_from_base64 w b64))
                          (FromMax 150) (FromMax 120) (Width 90) ]),
              "application/pdf")]> (Supabase.objects s).
Proof.
  unfold Supabase.generatePDF.
  destruct (QRCode_toDataURL w _ None) as [d|e|] eqn:Hqr; [|discriminate|discriminate].
  unfold Supabase.saveBase64ToBuffer, base64_payload.
  destruct (Js.split_on "," d !! 1%nat) as [b64|] eqn:Hb; [|discriminate].
  destruct (image_loads w (FromBuffer (Buffer_from_base64 w b64))); [|discriminate].
  unfold Supabase.uploadToStorage, Supabase.storage_upload.
  destruct (storage_upload_error w "informes" (Supabase.pdfPath w r)); [discriminate|].
  intros H. exists d, b64. split; [reflexivity|]. split; [exact Hb|].
  destruct (Supabase.objects s !! ("informes", Supabase.pdfPath w r));
    inversion H; subst; cbn; auto.
Qed.

(** X11. On the bucket server the [pdf_url] of a success response is the
    public URL of the object [pdfs/<id>/<name>] of the bucket ["informes"],
    and that object is the rendering of the record the detail endpoint
    returns, stored with content type [application/pdf]: the body drawn
    from the record and its file references, then the QR image. The text of
    that QR image is the view URL, a pipe, and [BASE_URL] followed by the
    object's path. *)
Theorem informes_pdf_url_names_stored_object w req s rid url view s' :
  Supabase.post_informes w req s = (Created rid url view, s') ->
  exists r d b64,
    Supabase.get_informe rid s' = Row r
    /\ Supabase.pdfPath w r = "pdfs/" ++ rid ++ "/" ++ Supabase.pdfName w r
    /\ url = storage_public_url w "informes" (Supabase.pdfPath w r)
    /\ QRCode_toDataURL w
         (publicReportURL w rid ++ "|" ++ BASE_URL w ++ "/" ++ Supabase.pdfPath w r)
         None = Returns d
    /\ Js.split_on "," d !! 1%nat = Some b64
    /\ Supabase.objects s' !! ("informes", Supabase.pdfPath w r)
       = Some (Pdf (Supabase.body_ops w r (fotos r) (firma_tecnico r) (firma_cliente r)
                    ++ [ OpImage (FromBuffer (Buffer_from_base64 w b64))
                           (FromMax 150) (FromMax 120) (Width 90) ]),
               "application/pdf").
Proof.
  unfold Supabase.post_informes. cbn [Supabase.validate].
  destruct (Supabase.create_informe w req s) as [[c|e|] s1] eqn:E; [|discriminate|discriminate].
  intros H. inversion H; subst. clear H.
  unfold Supabase.create_informe, bind in E.
  split_outcome E; [|discriminate|discriminate]. clear E0.
  split_outcome E; [|discriminate|discriminate]. clear E0.
  split_outcome E; [|discriminate|discriminate]. clear E0.
  split_outcome E; [|discriminate|discriminate]. clear E0.
  rename a into ft, a0 into fc, a1 into fo, a2 into an.
  unfold Supabase.table_insert in E.
  destruct (table_insert_error w); [discriminate|].
  destruct (Supabase.informes s3 !! _); [discriminate|].
  split_outcome E; [|discriminate|discriminate].
  pose proof (supabase_generatePDF_returns _ _ _ _ _ _ _ _ E0) as ->.
  apply supabase_generatePDF_writes in E0 as (d & b64 & Hqr & Hb & Hinf & Hobj).
  cbn [Supabase.informes Supabase.objects Supabase.with_informes] in Hinf, Hobj.
  set (r0 := Supabase.new_report w req ft fc fo an) in *.
  set (u := storage_public_url w "informes" (Supabase.pdfPath w r0)) in *.
  assert (Hfinal : Supabase.objects s' = Supabase.objects s4
                   /\ (Supabase.informes s' !! uuidv4 w = Some r0
                       \/ Supabase.informes s' !! uuidv4 w = Some (set_pdf_path u None r0))
                   /\ rid = uuidv4 w /\ url = u).
  { assert (Hup : Supabase.objects (snd (Supabase.table_update_pdf w (uuidv4 w) u s4))
                  = Supabase.objects s4
                  /\ (Supabase.informes (snd (Supabase.table_update_pdf w (uuidv4 w) u s4))
                        !! uuidv4 w = Some r0
                      \/ Supabase.informes (snd (Supabase.table_update_pdf w (uuidv4 w) u s4))
                           !! uuidv4 w = Some (set_pdf_path u None r0))).
    { unfold Supabase.table_update_pdf. destruct (table_update_error w); cbn.
      - split; [reflexivity|]. left. rewrite Hinf. apply lookup_insert_eq.
      - split; [reflexivity|]. right. rewrite Hinf, lookup_alter_eq, lookup_insert_eq.
        reflexivity. }
    destruct (getTransporter w) as [[]|].
    - unfold Supabase.sendMail in E. destruct (sendMail_error w); [discriminate|].
      unfold ret in E. inversion E; subst. cbn. destruct Hup as [Ho Hi]. auto.
    - unfold ret in E. inversion E; subst. destruct Hup as [Ho Hi]. auto. }
  destruct Hfinal as (Ho & Hi & -> & ->).
  assert (Hdoc : Supabase.objects s' !! ("informes", Supabase.pdfPath w r0)
                 = Some (Pdf (Supabase.body_ops w r0 fo ft fc
                              ++ [ OpImage (FromBuffer (Buffer_from_base64 w b64))
                                     (FromMax 150) (FromMax 120) (Width 90) ]),
                         "application/pdf")).
  { rewrite Ho, Hobj. apply lookup_insert_eq. }
  destruct Hi as [Hi|Hi];
    (eexists _, d, b64; split; [unfold Supabase.get_informe; rewrite Hi; reflexivity|];
     split; [reflexivity|]; split; [reflexivity|];
     split; [exact Hqr|]; split; [exact Hb|exact Hdoc]).
Qed.

Lemma informes_pdf_url_names_stored_object_witness :
  let out := Supabase.post_informes Sample.calm Sample.complete Sample.empty_supabase in
  exists r b,
    Supabase.get_informe "7f9c2a" (snd out) = Row r
    /\ Supabase.objects (snd out)
         !! ("informes", "pdfs/7f9c2a/Reporte_R-104_Ana_Ruiz_2024-05-17.pdf")
       = Some (Pdf (Supabase.body_ops Sample.calm r [] None None
                    ++ [ OpImage (FromBuffer b) (FromMax 150) (FromMax 120) (Width 90) ]),
               "application/pdf").
Proof.
  cbn zeta.
  destruct (informes_pdf_url_names_stored_object Sample.calm Sample.complete
              Sample.empty_supabase "7f9c2a"
              "https://proj.supabase.co/storage/v1/object/public/informes/pdfs/7f9c2a/Reporte_R-104_Ana_Ruiz_2024-05-17.pdf"
              None
              (snd (Supabase.post_informes Sample.calm Sample.complete
                      Sample.empty_supabase)))
    as (r & d & b64 & Hrow & Hpath & _ & _ & _ & Hobj).
  - vm_compute. reflexivity.
  - pose proof Hrow as Hr. vm_compute in Hr. injection Hr as <-.
    eexists _, _. split; [exact Hrow|]. exact Hobj.
Defined.

Lemma save_files_returns w dir rid fs s urls s' :
  Supabase.save_files w dir rid fs s = (Returns urls, s') ->
  urls = List.map (fun f => storage_public_url w "informes"
                              (dir ++ rid ++ "_" ++ up_originalname f)) fs
  /\ Supabase.objects s'
     = foldl (fun m f => <[("informes", dir ++ rid ++ "_" ++ up_originalname f)
                           := (Raw (up_buffer f), up_mimetype f)]> m)
             (Supabase.objects s) fs.
Proof.
  unfold Supabase.save_files. revert s urls s'.
  induction fs as [|f fs IH]; intros s urls s' H.
  - cbn in H. unfold ret in H. inversion H; subst. auto.
  - cbn [for_each] in H. unfold bind in H.
    unfold Supabase.uploadToStorage at 1 in H.
    unfold Supabase.storage_upload in H.
    destruct (storage_upload_error w "informes" _) as [e|]; [discriminate|].
    assert (Hs : forall (b : bool) (x y : option string * Supabase.Store),
              x = y -> (if b then x else y) = y) by (intros [] ? ? ?; congruence).
    set (s1 := Supabase.with_objects
                 (insert ("informes", dir ++ rid ++ "_" ++ up_originalname f)
                    (Raw (up_buffer f), up_mimetype f)) s) in *.
    assert (Hup : match Supabase.objects s !! ("informes", dir ++ rid ++ "_" ++ up_originalname f) with
                  | Some _ => (None, s1)
                  | None => (None, s1)
                  end = (@None string, s1)) by (destruct (_ !! _); reflexivity).
    rewrite Hup in H. clear Hup Hs.
    fold (@bind Supabase.Store) in H.
    destruct (for_each _ fs s1) as [[ys|e|] s2] eqn:E; [|discriminate|discriminate].
    unfold ret in H. inversion H; subst.
    destruct (IH _ _ _ E) as [-> Hobj].
    split; [reflexivity|]. rewrite Hobj. reflexivity.
Qed.

Lemma foldl_insert_other {V} (key : Upload -> string * string) (val : Upload -> V)
    (fs : list Upload) (m : gmap (string * string) V) k :
  (forall g, g ∈ fs -> key g <> k) ->
  foldl (fun m f => <[key f := val f]> m) m fs !! k = m !! k.
Proof.
  revert m. induction fs as [|g fs IH]; intros m H; [reflexivity|].
  cbn [foldl]. rewrite IH by (intros g' Hg'; apply H; right; assumption).
  apply lookup_insert_ne, H. left.
Qed.

Lemma foldl_insert_last_wins {V} (key : Upload -> string * string) (val : Upload -> V)
    (fs : list Upload) (m : gmap (string * string) V) i f :
  fs !! i = Some f ->
  (forall j g, fs !! j = Some g -> (i < j)%nat -> key g <> key f) ->
  foldl (fun m f => <[key f := val f]> m) m fs !! key f = Some (val f).
Proof.
  revert m i. induction fs as [|g fs IH]; intros m i Hi Hlater; [discriminate|].
  cbn [foldl]. destruct i as [|i].
  - inversion Hi; subst. rewrite foldl_insert_other.
    + apply lookup_insert_eq.
    + intros g Hg. apply list_elem_of_lookup in Hg as [j Hj].
      apply (Hlater (S j) g Hj). lia.
  - apply (IH _ i Hi). intros j g' Hj Hij. apply (Hlater (S j) g' Hj). lia.
Qed.

(** X12. The upload loops of the bucket server ([fotos], [anexos]): when
    every upload succeeds, the loop returns one public URL per file, in the
    order of the files, each made of the report identifier and the file's
    original name; a file whose original name is not used again by a later
    file of the same field is stored under that URL with its own bytes and
    content type. (A later file with the same original name replaces the
    earlier object, and both get the same URL.) *)
Theorem uploaded_files_are_stored w dir rid fs s urls s' :
  Supabase.save_files w dir rid fs s = (Returns urls, s') ->
  urls = List.map (fun f => storage_public_url w "informes"
                              (dir ++ rid ++ "_" ++ up_originalname f)) fs
  /\ forall i f,
       fs !! i = Some f ->
       (forall j g, fs !! j = Some g -> (i < j)%nat ->
                    up_originalname g <> up_originalname f) ->
       Supabase.objects s' !! ("informes", dir ++ rid ++ "_" ++ up_originalname f)
       = Some (Raw (up_buffer f), up_mimetype f).
Proof.
  intros H. apply save_files_returns in H as [Hurls Hobj].
  split; [exact Hurls|]. intros i f Hi Hlater. rewrite Hobj.
  apply (foldl_insert_last_wins
           (fun f => ("informes", dir ++ rid ++ "_" ++ up_originalname f))
           (fun f => (Raw (up_buffer f), up_mimetype f)) fs _ i f Hi).
  intros j g Hj Hij Heq. apply (Hlater j g Hj Hij).
  injection Heq as Heq.
  apply (inj (String.app dir)) in Heq.
  apply (inj (String.app rid)) in Heq.
  apply (inj (String.app "_")) in Heq. exact Heq.
Qed.

Lemma uploaded_files_are_stored_witness :
  let out := Supabase.save_files Sample.calm "fotos/" "7f9c2a" Sample.photos
               Sample.empty_supabase in
  Supabase.objects (snd out) !! ("informes", "fotos/7f9c2a_a.jpg")
  = Some (Raw [ Byte.x02 ], "image/jpeg").
Proof.
  cbn zeta.
  refine (proj2 (uploaded_files_are_stored Sample.calm "fotos/" "7f9c2a" Sample.photos
                   Sample.empty_supabase _ _ _) 1%nat _ eq_refl _).
  - vm_compute. reflexivity.
  - intros j g Hj Hij. destruct j as [|[|[|j]]]; try lia.
    + injection Hj as <-. discriminate.
    + discriminate.
Defined.

(** ** Margins of the photo grid *)

Lemma photo_loop_margins w src fotos x y page img c sz :
  x = 40 \/ x = 235 ->
  (img, c, sz) ∈ Grid.placed page (photo_loop w src fotos x y) ->
  (Grid.slot_x c = 40 \/ Grid.slot_x c = 235)
  /\ sz = Fit 180 140
  /\ (c = Grid.mkSlot x y page \/ Grid.slot_y c + 140 <= 740).
Proof.
  revert x y page. induction fotos as [|foto rest IH]; intros x y page Hx Hin.
  - cbn in Hin. apply elem_of_nil in Hin. contradiction.
  - cbn [photo_loop] in Hin. unfold maxW, maxH in Hin.
    change (180 + 15) with 195 in Hin. change (140 + 20) with 160 in Hin.
    assert (Hrest : forall x2 y3 page',
              (x2 = 40 \/ x2 = 235) -> y3 + 140 <= 740 ->
              (img, c, sz) ∈ Grid.placed page' (photo_loop w src rest x2 y3) ->
              (Grid.slot_x c = 40 \/ Grid.slot_x c = 235)
              /\ sz = Fit 180 140
              /\ (c = Grid.mkSlot x y page \/ Grid.slot_y c + 140 <= 740)).
    { intros x2 y3 page' Hx2 Hy3 Hin'.
      destruct (IH _ _ _ Hx2 Hin') as (Hcx & Hsz & Hcy).
      split; [assumption|]. split; [assumption|]. right.
      destruct Hcy as [->|Hcy]; [exact Hy3|exact Hcy]. }
    assert (Hx2 : (if 555 <? x + 195 + 180 then 40 else x + 195) = 40
                  \/ (if 555 <? x + 195 + 180 then 40 else x + 195) = 235).
    { destruct (555 <? x + 195 + 180) eqn:E; [left; reflexivity|].
      apply Z.ltb_ge in E. destruct Hx as [->| ->]; [right; reflexivity|lia]. }
    destruct (image_loads w (src foto));
      destruct (555 <? x + 195 + 180) eqn:Ew;
      [destruct (740 <? y + 160 + 140) eqn:Eb|destruct (740 <? y + 140) eqn:Eb
      |destruct (740 <? y + 160 + 140) eqn:Eb|destruct (740 <? y + 140) eqn:Eb];
      cbn [app Grid.placed] in Hin;
      try apply elem_of_cons in Hin as [Hin|Hin];
      try (injection Hin as -> -> ->; cbn;
           split; [assumption|]; split; [reflexivity|]; left; reflexivity);
      try apply Z.ltb_ge in Eb;
      (eapply Hrest; [exact Hx2| |exact Hin]); lia.
Qed.

(** X13. Every photo the renderers draw is a 180 x 140 box whose left edge
    is at x = 40 or x = 235, hence inside the right margin (x + 180 <= 555):
    at most two photos share a row. Every photo after the first is placed
    with its box above the bottom margin (y + 140 <= 740); the first photo
    alone is drawn at the current line without that check. *)
Theorem photos_stay_inside_margins w src before fotos page img c sz :
  (img, c, sz) ∈ Grid.placed page (photo_section w src before fotos) ->
  (Grid.slot_x c = 40 \/ Grid.slot_x c = 235)
  /\ Grid.slot_x c + 180 <= 555
  /\ sz = Fit 180 140
  /\ (c = Grid.mkSlot 40 (doc_y w (before ++ [ OpText "Registro fotográfico" ])) page
      \/ Grid.slot_y c + 140 <= 740).
Proof.
  intros Hin. destruct fotos as [|foto rest].
  - cbn in Hin. apply elem_of_nil in Hin. contradiction.
  - unfold photo_section in Hin. cbn [app Grid.placed] in Hin.
    apply photo_loop_margins in Hin as (Hx & Hsz & Hy); [|left; reflexivity].
    split; [assumption|]. split; [destruct Hx as [->| ->]; lia|].
    split; assumption.
Qed.

Lemma photos_stay_inside_margins_witness :
  let drawn := (FromFile "e", Grid.mkSlot 40 60 1, Fit 180 140) in
  Grid.slot_x drawn.1.2 + 180 <= 555.
Proof.
  cbn zeta.
  refine (proj1 (proj2 (photos_stay_inside_margins Sample.calm FromFile []
                          [ "a"; "b"; "c"; "d"; "e" ] 0 _ _ _ _))).
  vm_compute. do 4 right. left.
Defined.

(** The first photo is not checked: drawn at line 700 it ends below 740. *)
Example first_photo_may_pass_the_bottom_margin :
  Grid.placed 0 (photo_loop Sample.calm FromFile [ "a"; "b" ] 40 700)
  = [ (FromFile "a", Grid.mkSlot 40 700 0, Fit 180 140);
      (FromFile "b", Grid.mkSlot 235 60 1, Fit 180 140) ].
Proof. reflexivity. Qed.

(** ** The status field is only a label *)

Lemma sqlite_generatePDF_frame w r g s :
  Sqlite.generatePDF w r (Sqlite.with_db g s)
  = (fst (Sqlite.generatePDF w r s), Sqlite.with_db g (snd (Sqlite.generatePDF w r s))).
Proof.
  unfold Sqlite.generatePDF, bind, Sqlite.createWriteStream.
  destruct (writeFile_error w (Sqlite.pdfFile r));
    [case_qr; reflexivity|].
  case_qr; [|reflexivity|reflexivity]. cbn [negb].
  unfold Sqlite.saveBase64PNG.
  destruct (base64_payload w d); [|reflexivity|reflexivity].
  unfold Sqlite.writeFileSync. destruct (writeFile_error w (Sqlite.qrPath r)); reflexivity.
Qed.

Lemma sqlite_generatePDF_ignores_estado w e r s :
  Sqlite.generatePDF w (set_estado e r) s = Sqlite.generatePDF w r s.
Proof. reflexivity. Qed.

Lemma new_report_with_estado w req v ft fc :
  Sqlite.new_report w
    {| body := with_estado v (body req); files_fotos := files_fotos req;
       files_anexos := files_anexos req |} ft fc
  = set_estado (Some (Js.or_else (Some v) "ENVIADO")) (Sqlite.new_report w req ft fc).
Proof.
  unfold Sqlite.new_report, set_estado, with_estado. cbn.
  rewrite lookup_insert_eq. rewrite !lookup_insert_ne by discriminate. reflexivity.
Qed.

Lemma alter_absent (f : Report -> Report) k (m : gmap string Report) :
  m !! k = None -> alter f k m = m.
Proof.
  intros H. apply map_eq. intros j. destruct (decide (k = j)) as [->|Hne].
  - rewrite lookup_alter_eq, H. reflexivity.
  - apply lookup_alter_ne. assumption.
Qed.

(** X14. On the SQLite server the status sent with a form is only a label:
    a form sent as a draft ([estado = 'PENDIENTE']) and the same form sent
    with any other status get the same response, write the same files
    (signatures, QR image, rendered document) and hand the same mail to the
    transport; the tables afterwards differ at most in the [estado] member
    of the row the request created. *)
Theorem estado_is_only_a_label w req v s :
  let req' := {| body := with_estado v (body req); files_fotos := files_fotos req;
                 files_anexos := files_anexos req |} in
  let a := Sqlite.post_reports w req s in
  let b := Sqlite.post_reports w req' s in
  fst b = fst a
  /\ Sqlite.files (snd b) = Sqlite.files (snd a)
  /\ Sqlite.outbox (snd b) = Sqlite.outbox (snd a)
  /\ Sqlite.db (snd b)
     = if decide (Sqlite.db s !! uuidv4 w = None)
       then alter (set_estado (Some (Js.or_else (Some v) "ENVIADO"))) (uuidv4 w)
                  (Sqlite.db (snd a))
       else Sqlite.db (snd a).
Proof.
  cbn zeta.
  assert (Hv : Sqlite.validate (with_estado v (body req)) = Sqlite.validate (body req))
    by (unfold Sqlite.validate, with_estado;
        rewrite !lookup_insert_ne by discriminate; reflexivity).
  assert (Hnoop : forall t : Sqlite.Store,
            Sqlite.db t = Sqlite.db s ->
            Sqlite.db t
            = if decide (Sqlite.db s !! uuidv4 w = None)
              then alter (set_estado (Some (Js.or_else (Some v) "ENVIADO"))) (uuidv4 w)
                         (Sqlite.db t)
              else Sqlite.db t).
  { intros t Ht. destruct (decide _) as [Hf|Hf]; [|reflexivity].
    symmetry. apply alter_absent. rewrite Ht. assumption. }
  unfold Sqlite.post_reports; cbn [body]. rewrite Hv.
  destruct (Sqlite.validate (body req)).
  2:{ cbn [fst snd]. repeat split. apply Hnoop. reflexivity. }
  unfold Sqlite.create_report, bind; cbn [body].
  assert (Ht : with_estado v (body req) !! "firma_tecnico" = body req !! "firma_tecnico")
    by (apply lookup_insert_ne; discriminate).
  assert (Hc : with_estado v (body req) !! "firma_cliente" = body req !! "firma_cliente")
    by (apply lookup_insert_ne; discriminate).
  rewrite !Ht, !Hc.
  destruct (Sqlite.save_signature w (body req !! "firma_tecnico") _ s)
    as [[ft|e1|] s1] eqn:E1.
  2-3: (cbn [fst snd]; repeat split; apply Hnoop; apply save_signature_keeps in E1 as [H1 _]; exact H1).
  apply save_signature_keeps in E1 as [H1 _].
  destruct (Sqlite.save_signature w (body req !! "firma_cliente") _ s1)
    as [[fc|e2|] s2] eqn:E2.
  2-3: (cbn [fst snd]; repeat split; apply Hnoop; apply save_signature_keeps in E2 as [H2 _]; congruence).
  apply save_signature_keeps in E2 as [H2 _].
  assert (Hs2 : Sqlite.db s2 = Sqlite.db s) by congruence.
  rewrite new_report_with_estado.
  set (E := Some (Js.or_else (Some v) "ENVIADO")).
  set (r := Sqlite.new_report w req ft fc).
  unfold Sqlite.db_insert. destruct (sql_insert_error w).
  { cbn [fst snd]. repeat split. apply Hnoop. exact Hs2. }
  change (id (set_estado E r)) with (uuidv4 w). change (id r) with (uuidv4 w).
  destruct (Sqlite.db s2 !! uuidv4 w) as [old|] eqn:Hfresh.
  { cbn [fst snd]. repeat split. apply Hnoop. exact Hs2. }
  assert (Hf : Sqlite.db s !! uuidv4 w = None) by (rewrite <- Hs2; exact Hfresh).
  destruct (decide (Sqlite.db s !! uuidv4 w = None)) as [_|Hn]; [|contradiction].
  unfold Sqlite.db_get; cbn [Sqlite.with_db Sqlite.db].
  rewrite !lookup_insert_eq.
  rewrite !sqlite_generatePDF_frame, sqlite_generatePDF_ignores_estado.
  destruct (Sqlite.generatePDF w r s2) as [[p|e3|] s3] eqn:E3; cbn [fst snd].
  2-3: (repeat split; cbn; rewrite alter_insert_eq; reflexivity).
  unfold Sqlite.db_update_pdf. destruct (sql_update_error w).
  { cbn [fst snd]. repeat split. cbn. rewrite alter_insert_eq. reflexivity. }
  assert (Hdb : alter (set_pdf_path p (Some (now_iso_later w))) (uuidv4 w)
                  (<[uuidv4 w := set_estado E r]> (Sqlite.db s3))
                = alter (set_estado E) (uuidv4 w)
                    (alter (set_pdf_path p (Some (now_iso_later w))) (uuidv4 w)
                       (<[uuidv4 w := r]> (Sqlite.db s3)))).
  { rewrite !alter_insert_eq. reflexivity. }
  destruct (getTransporter w).
  - unfold Sqlite.sendMail. destruct (sendMail_error w);
      cbn [fst snd]; repeat split; cbn; exact Hdb.
  - cbn [fst snd]. repeat split. cbn. exact Hdb.
Qed.

(** ** From the form to the detail endpoint *)

(** X15. After a success response the detail endpoint returns, under the
    returned identifier, a record whose text columns are the submitted form
    fields (an absent field is null) and whose creation time is the time the
    handler started. The SQLite server stamps [updated_at] anew when it
    attaches the document; the bucket server leaves [updated_at] equal to
    [created_at], and its record carries the returned [pdf_url] as
    [pdf_path] whenever the UPDATE answered no error. *)
Theorem detail_echoes_the_form w req rid url view :
  (forall s s',
      Sqlite.post_reports w req s = (Created rid url view, s') ->
      exists r, Sqlite.get_report rid s' = Row r
                /\ echoes (body req) r
                /\ created_at r = now_iso w
                /\ updated_at r = now_iso_later w
                /\ (exists ref, pdf_path r = Some ref /\ url = BASE_URL w ++ ref))
  /\ (forall t t',
      Supabase.post_informes w req t = (Created rid url view, t') ->
      exists r, Supabase.get_informe rid t' = Row r
                /\ echoes (body req) r
                /\ created_at r = now_iso w
                /\ updated_at r = now_iso w
                /\ (table_update_error w = None -> pdf_path r = Some url)).
Proof.
  split.
  - intros s s'. unfold Sqlite.post_reports.
    destruct (Sqlite.validate (body req)); [|discriminate].
    destruct (Sqlite.create_report w req s) as [[resp|e|] s1] eqn:E; [|discriminate|discriminate].
    intros H. inversion H; subst. clear H.
    apply sqlite_create_report_cases in E
      as [(_ & e & He) | [(ft & fc & _ & _ & [(e & He)|He]) | (ft & fc & Hfresh & Hdb & Ho)]];
      try discriminate.
    destruct Ho as [(Ho & _) | (e & _ & _ & He)]; [|discriminate].
    inversion Ho; subst. unfold Sqlite.get_report. rewrite Hdb, lookup_insert_eq.
    eexists. split; [reflexivity|].
    split; [repeat split|]. split; [reflexivity|]. split; [reflexivity|].
    eexists. split; reflexivity.
  - intros t t'. unfold Supabase.post_informes. cbn [Supabase.validate].
    destruct (Supabase.create_informe w req t) as [[resp|e|] s1] eqn:E; [|discriminate|discriminate].
    intros H. inversion H; subst. clear H.
    apply supabase_create_informe_cases in E
      as [(_ & e & He) | [(ft & fc & fo & an & _ & Hdb & Ho)
                         | (ft & fc & fo & an & _ & Hu & Hdb & Ho)]];
      try discriminate.
    + destruct Ho as [(e & He) | [He | (Hu & Ho)]]; [discriminate|discriminate|].
      inversion Ho; subst. unfold Supabase.get_informe.
      rewrite Hdb, lookup_insert_eq. eexists. split; [reflexivity|].
      split; [repeat split|]. split; [reflexivity|]. split; [reflexivity|].
      intros Hn. rewrite Hn in Hu. destruct Hu; discriminate.
    + destruct Ho as [(Ho & _) | (e & _ & _ & He)]; [|discriminate].
      inversion Ho; subst. unfold Supabase.get_informe.
      rewrite Hdb, lookup_insert_eq. eexists. split; [reflexivity|].
      split; [repeat split|]. split; [reflexivity|]. split; [reflexivity|].
      intros _. reflexivity.
Qed.

Lemma detail_echoes_the_form_witness :
  exists r,
    Supabase.get_informe "7f9c2a"
      (snd (Supabase.post_informes Sample.calm Sample.complete Sample.empty_supabase))
    = Row r
    /\ echoes (body Sample.complete) r
    /\ pdf_path r
       = Some "https://proj.supabase.co/storage/v1/object/public/informes/pdfs/7f9c2a/Reporte_R-104_Ana_Ruiz_2024-05-17.pdf".
Proof.
  destruct (proj2 (detail_echoes_the_form Sample.calm Sample.complete _ _ _)
              Sample.empty_supabase _ (surjective_pairing _))
    as (r & Hr & He & _ & _ & Hp).
  exists r. split; [exact Hr|]. split; [exact He|]. apply Hp. reflexivity.
Defined.

(** ** The theorems above at sample inputs *)

Lemma list_newest_first_all_filters_witness :
  let s := {| Sqlite.db := Sample.two_rows; Sqlite.files := ∅; Sqlite.outbox := [] |} in
  let q := {| q_usuario := None; q_estado := None;
              q_desde := Some "2024-05-12"; q_hasta := None |} in
  exists l, Sqlite.get_reports q s = Rows l
            /\ (Sample.row "2" "luis" "ENVIADO" ∈ l)
            /\ ~ (Sample.row "1" "ana" "ENVIADO" ∈ l).
Proof.
  cbn zeta.
  destruct (proj1 (list_newest_first_all_filters
                     {| q_usuario := None; q_estado := None;
                        q_desde := Some "2024-05-12"; q_hasta := None |})
              {| Sqlite.db := Sample.two_rows; Sqlite.files := ∅; Sqlite.outbox := [] |})
    as (l & Hl & _ & _ & Hin).
  exists l. split; [exact Hl|]. split.
  - apply Hin. split; [exists "2"; vm_compute; reflexivity|].
    repeat split; intros x Hx; try discriminate.
    injection Hx as <-. intros _. vm_compute. reflexivity.
  - intros H. apply Hin in H as (_ & _ & _ & Hd & _).
    specialize (Hd "2024-05-12" eq_refl). vm_compute in Hd.
    assert (false = true) by (apply Hd; discriminate). discriminate.
Defined.

